(** * Cognee memory adapters: a shallow embedding

    Two adapters connect a coding assistant to the Cognee memory service:
    the Gemini CLI extension (an MCP tool server plus three hook scripts)
    and the OpenCode plugin (a client class, a chat hook, an event hook
    and a tool).  This development embeds their JavaScript/TypeScript
    sources as Rocq functions and proves properties of them.

    Conventions of the embedding.
    - A JavaScript string is a [string]; every character stands for one
      code unit below 256.
    - A JavaScript number that the code only uses as an integer is a [Z].
    - Network, clock, file system and user interface are explicit
      arguments and logs; the functions are otherwise the code's.  The
      clock stands still during one run of a handler, and handlers run
      one after the other. *)

From Stdlib Require Import String Ascii ZArith List Bool Lia DecimalString.
From stdpp Require Import base gmap strings.
Import ListNotations.

Local Open Scope string_scope.
Local Open Scope Z_scope.

(** ** The JavaScript runtime functions the sources call *)

Module Js.

(** Code-unit classes. *)

Definition code (c : ascii) : N := N_of_ascii c.

Definition between (lo hi : N) (c : ascii) : bool :=
  (N.leb lo (code c) && N.leb (code c) hi)%bool.

(** WhiteSpace and LineTerminator code units below 256, as used by
    [String.prototype.trim]: TAB, LF, VT, FF, CR, SP and NBSP. *)
Definition isWhiteSpace (c : ascii) : bool :=
  (between 9 13 c || N.eqb (code c) 32 || N.eqb (code c) 160)%bool.

(** The regular-expression class [\w] (no unicode flag). *)
Definition isWordChar (c : ascii) : bool :=
  (between 48 57 c || between 65 90 c || between 97 122 c
   || N.eqb (code c) 95)%bool.

(** [Canonicalize] of a case-insensitive regular expression without the
    unicode flag, on code units below 256: the upper-case mapping when it
    is a single code unit of the same ASCII-ness.  (The upper case of
    0xB5 and 0xFF lies above 255 and that of 0xDF is two characters, so
    each of them only equals itself.) *)
Definition canonicalize (c : ascii) : ascii :=
  if (between 97 122 c
      || (between 224 254 c && negb (N.eqb (code c) 247)))%bool
  then ascii_of_N (code c - 32) else c.

Definition eqbIgnoreCase (a b : ascii) : bool :=
  Ascii.eqb (canonicalize a) (canonicalize b).

(** [String.prototype.toUpperCase] on ASCII letters. *)
Definition upperAscii (c : ascii) : ascii :=
  if between 97 122 c then ascii_of_N (code c - 32) else c.

Fixpoint toUpperCase (s : string) : string :=
  match s with
  | EmptyString => EmptyString
  | String c r => String (upperAscii c) (toUpperCase r)
  end.

(** [s.split(sep)] for a one-character separator. *)
Fixpoint split (sep : ascii) (s : string) : list string :=
  match s with
  | EmptyString => [EmptyString]
  | String c r =>
      if Ascii.eqb c sep then EmptyString :: split sep r
      else match split sep r with
           | h :: t => String c h :: t
           | [] => [String c EmptyString]
           end
  end.

Fixpoint trimStart (s : string) : string :=
  match s with
  | EmptyString => EmptyString
  | String c r => if isWhiteSpace c then trimStart r else s
  end.

Fixpoint trimEnd (s : string) : string :=
  match s with
  | EmptyString => EmptyString
  | String c r =>
      match trimEnd r with
      | EmptyString => if isWhiteSpace c then EmptyString
                       else String c EmptyString
      | r' => String c r'
      end
  end.

(** [s.trim()] *)
Definition trim (s : string) : string := trimEnd (trimStart s).

(** [a.join(sep)] *)
Fixpoint join (sep : string) (l : list string) : string :=
  match l with
  | [] => EmptyString
  | [x] => x
  | x :: r => x ++ sep ++ join sep r
  end.

(** [s.substring(0, n)] for [n >= 0]. *)
Fixpoint take (n : nat) (s : string) : string :=
  match n, s with
  | S k, String c r => String c (take k r)
  | _, _ => EmptyString
  end.

Fixpoint drop (n : nat) (s : string) : string :=
  match n, s with
  | S k, String _ r => drop k r
  | _, _ => s
  end.

(** [s.replace(/-/g, '_')]-style replacement of one character. *)
Fixpoint replaceChar (a b : ascii) (s : string) : string :=
  match s with
  | EmptyString => EmptyString
  | String c r => String (if Ascii.eqb c a then b else c) (replaceChar a b r)
  end.

(** [s.startsWith(p)] *)
Fixpoint startsWith (p s : string) : bool :=
  match p with
  | EmptyString => true
  | String a p' =>
      match s with
      | String b s' => (Ascii.eqb b a && startsWith p' s')%bool
      | EmptyString => false
      end
  end.

(** [s.includes(t)] *)
Fixpoint includes (t s : string) : bool :=
  (startsWith t s ||
   match s with
   | EmptyString => false
   | String _ r => includes t r
   end)%bool.

Definition nl : string := String (ascii_of_N 10) EmptyString.

Definition isEmpty (s : string) : bool :=
  match s with EmptyString => true | _ => false end.

(** A string is truthy when it is not empty. *)
Definition truthyString (s : string) : bool := negb (isEmpty s).

(** [xs.slice(0, n)] on arrays: the first [n] elements, and for a
    negative [n] all but the last [-n]. *)
Definition slice0 {A} (n : Z) (l : list A) : list A :=
  if n <? 0 then firstn (List.length l - Z.to_nat (- n)) l
  else firstn (Z.to_nat n) l.

(** [xs.slice(-n)] on arrays, for [n > 0]: the last [n] elements. *)
Definition sliceLast {A} (n : nat) (l : list A) : list A :=
  skipn (List.length l - n) l.

(** [String(n)] for an integer [n]. *)
Definition numberToString (n : Z) : string :=
  NilZero.string_of_int (Z.to_int n).

(** Decimal digits of [n >= 0], left-padded with zeros to [width]. *)
Fixpoint zeros (k : nat) : string :=
  match k with O => EmptyString | S k' => String "0" (zeros k') end.

Definition pad (width : nat) (n : Z) : string :=
  let d := numberToString n in
  zeros (width - String.length d) ++ d.

(** [Math.round(x / d)] for an integer [x] and [d > 0]: the nearest
    integer, halves going up. *)
Definition roundDiv (x d : Z) : Z := (2 * x + d) / (2 * d).

(** *** Dates

    [new Date(ms).toISOString()], for time values whose year lies in
    0..9999 (the four-digit form): the proleptic Gregorian calendar date
    of day number [ms / 86400000], computed from the 400-year cycle. *)
Definition msPerDay : Z := 86400000.

Definition civilFromDays (days : Z) : Z * Z * Z :=
  let z := days + 719468 in
  let era := z / 146097 in
  let doe := z - era * 146097 in
  let yoe := (doe - doe / 1460 + doe / 36524 - doe / 146096) / 365 in
  let doy := doe - (365 * yoe + yoe / 4 - yoe / 100) in
  let mp := (5 * doy + 2) / 153 in
  let d := doy - (153 * mp + 2) / 5 + 1 in
  let m := if mp <? 10 then mp + 3 else mp - 9 in
  let y := yoe + era * 400 + (if m <=? 2 then 1 else 0) in
  (y, m, d).

(** [new Date(ms).toISOString().split('T')[0]] *)
Definition isoDate (ms : Z) : string :=
  let '(y, m, d) := civilFromDays (ms / msPerDay) in
  pad 4 y ++ "-" ++ pad 2 m ++ "-" ++ pad 2 d.

Definition isoTime (ms : Z) : string :=
  let t := ms mod msPerDay in
  pad 2 (t / 3600000) ++ ":" ++ pad 2 (t / 60000 mod 60) ++ ":"
  ++ pad 2 (t / 1000 mod 60) ++ "." ++ pad 3 (t mod 1000).

(** [new Date(ms).toISOString()] *)
Definition toISOString (ms : Z) : string :=
  isoDate ms ++ "T" ++ isoTime ms ++ "Z".

End Js.

(** ** Memory-trigger detection

    [before-agent.js] (Gemini) and the OpenCode plugin share the same
    three regular expressions and the same [removeCodeBlocks]. *)

Module Trigger.
Import Js.

Definition backtick : ascii := "`"%char.

Definition head (s : string) : option ascii :=
  match s with String c _ => Some c | EmptyString => None end.

(** Number of characters before the first [```] of [s]. *)
Fixpoint indexOfFence (s : string) : option nat :=
  if startsWith "```" s then Some O
  else match s with
       | EmptyString => None
       | String _ r => option_map S (indexOfFence r)
       end.

(** Length of the maximal run of non-backtick characters at the start. *)
Fixpoint runNoBacktick (s : string) : nat :=
  match s with
  | EmptyString => O
  | String c r => if Ascii.eqb c backtick then O else S (runNoBacktick r)
  end.

(** [CODE_BLOCK_PATTERN = /```[\s\S]*?```/g]: length of the match that
    starts at the first character of [s], if there is one.  The lazy
    body stops at the first closing fence. *)
Definition CODE_BLOCK_PATTERN (s : string) : option nat :=
  if startsWith "```" s then
    match indexOfFence (drop 3 s) with
    | Some j => Some (3 + j + 3)%nat
    | None => None
    end
  else None.

(** [INLINE_CODE_PATTERN = /`[^`]+`/g]: a backtick, a non-empty maximal
    run of other characters, a backtick. *)
Definition INLINE_CODE_PATTERN (s : string) : option nat :=
  match s with
  | String c r =>
      if Ascii.eqb c backtick then
        let n := runNoBacktick r in
        match n, head (drop n r) with
        | S _, Some c' => if Ascii.eqb c' backtick then Some (n + 2)%nat
                          else None
        | _, _ => None
        end
      else None
  | EmptyString => None
  end.

(** [text.replace(pattern, '')] for a global pattern whose matches are
    not empty: scan left to right; where the pattern matches, skip the
    match and resume after it; elsewhere keep the character.  [skip]
    counts the characters of the current match still to be dropped. *)
Fixpoint replaceFrom (pattern : string -> option nat) (skip : nat)
    (s : string) : string :=
  match s with
  | EmptyString => EmptyString
  | String c r =>
      match skip with
      | S k => replaceFrom pattern k r
      | O => match pattern s with
             | Some (S n) => replaceFrom pattern n r
             | _ => String c (replaceFrom pattern O r)
             end
      end
  end.

Definition replaceAll (pattern : string -> option nat) (s : string) : string :=
  replaceFrom pattern O s.

Definition removeCodeBlocks (text : string) : string :=
  replaceAll INLINE_CODE_PATTERN (replaceAll CODE_BLOCK_PATTERN text).

(** The assertion [\b] between the character before the current
    position ([prev], [None] at the start) and the rest of the input. *)
Definition wordOpt (o : option ascii) : bool :=
  match o with Some c => isWordChar c | None => false end.

Definition isWordBoundary (prev : option ascii) (rest : string) : bool :=
  xorb (wordOpt prev) (wordOpt (head rest)).

(** One alternative of the group followed by the closing [\b]: the
    keyword's characters, compared ignoring case, then a word boundary. *)
Fixpoint literalThenBoundary (k : string) (prev : option ascii)
    (s : string) : bool :=
  match k with
  | EmptyString => isWordBoundary prev s
  | String kc k' =>
      match s with
      | String c r => eqbIgnoreCase kc c && literalThenBoundary k' (Some c) r
      | EmptyString => false
      end
  end.

(** [keywordPatterns.join('|')] has one alternative per keyword, and the
    single empty alternative when the list is empty. *)
Definition alternatives (keywordPatterns : list string) : list string :=
  match keywordPatterns with [] => [EmptyString] | _ => keywordPatterns end.

Definition matchAt (alts : list string) (prev : option ascii)
    (s : string) : bool :=
  isWordBoundary prev s && existsb (fun k => literalThenBoundary k prev s) alts.

Fixpoint testFrom (alts : list string) (prev : option ascii)
    (s : string) : bool :=
  matchAt alts prev s ||
  match s with
  | EmptyString => false
  | String c r => testFrom alts (Some c) r
  end.

(** [MEMORY_KEYWORDS.test(text)] where
    [MEMORY_KEYWORDS = new RegExp(`\\b(${keywordPatterns.join('|')})\\b`, 'i')].
    The keywords are taken literally: the model is the code's for
    keywords without regular-expression metacharacters, as are the six
    default ones. *)
Definition MEMORY_KEYWORDS (keywordPatterns : list string) (text : string)
  : bool :=
  testFrom (alternatives keywordPatterns) None text.

Definition detectMemoryKeyword (keywordPatterns : list string)
    (text : string) : bool :=
  let textWithoutCode := removeCodeBlocks text in
  MEMORY_KEYWORDS keywordPatterns textWithoutCode.

Definition defaultKeywordPatterns : list string :=
  ["remember"; "note"; "save this"; "important"; "don't forget";
   "keep in mind"].

End Trigger.


(** ** JSON values

    What [JSON.parse] and [response.json()] produce, and what the code
    does with such values.  Numbers are the integers. *)

Module Json.
Import Js.

#[warnings="-register-all"]
Inductive t : Type :=
  | JNull
  | JBool (b : bool)
  | JNum (n : Z)
  | JReal (literal : string)   (* a number that is not an integer, e.g. 0.7 *)
  | JStr (s : string)
  | JArr (items : list t)
  | JObj (fields : list (string * t)).

(** A JavaScript value read from a parsed document: a JSON value or
    [undefined] ([None]). *)
Definition value : Type := option t.

Definition undefined : value := None.

Fixpoint assoc {A} (k : string) (l : list (string * A)) : option A :=
  match l with
  | [] => None
  | (k', v) :: r => if String.eqb k k' then Some v else assoc k r
  end.

(** [v.k] for a property name [k] that is neither an index nor
    [length]: the field of an object, [undefined] on other values, and
    a [TypeError] ([None]) on [null]. *)
Definition getProp (v : t) (k : string) : option value :=
  match v with
  | JNull => None
  | JObj fields => Some (assoc k fields)
  | _ => Some undefined
  end.

(** ToBoolean. *)
Definition truthy (v : value) : bool :=
  match v with
  | None => false
  | Some JNull => false
  | Some (JBool b) => b
  | Some (JNum n) => negb (n =? 0)
  | Some (JReal _) => true
  | Some (JStr s) => truthyString s
  | Some (JArr _) => true
  | Some (JObj _) => true
  end.

(** [a || b] *)
Definition or (a b : value) : value := if truthy a then a else b.

Definition hexDigit (n : N) : ascii :=
  ascii_of_N (if N.ltb n 10 then 48 + n else 87 + n).

Definition dquote : string := String (ascii_of_N 34) EmptyString.

(** [QuoteJSONString] on code units below 256. *)
Definition escapeChar (c : ascii) : string :=
  let n := code c in
  if N.eqb n 34 then String "\" dquote
  else if N.eqb n 92 then "\\"
  else if N.eqb n 8 then "\b"
  else if N.eqb n 9 then "\t"
  else if N.eqb n 10 then "\n"
  else if N.eqb n 12 then "\f"
  else if N.eqb n 13 then "\r"
  else if N.ltb n 32 then
    "\u00" ++ String (hexDigit (N.div n 16)) (String (hexDigit (N.modulo n 16)) EmptyString)
  else String c EmptyString.

Fixpoint escape (s : string) : string :=
  match s with
  | EmptyString => EmptyString
  | String c r => escapeChar c ++ escape r
  end.

Definition quote (s : string) : string := dquote ++ escape s ++ dquote.

(** [JSON.stringify(v)] without indentation. *)
Fixpoint stringify (v : t) : string :=
  match v with
  | JNull => "null"
  | JBool true => "true"
  | JBool false => "false"
  | JNum n => numberToString n
  | JReal literal => literal
  | JStr s => quote s
  | JArr items => "[" ++ join "," (map stringify items) ++ "]"
  | JObj fields =>
      "{" ++ join "," (map (fun kv => quote (fst kv) ++ ":" ++ stringify (snd kv))
                           fields) ++ "}"
  end.

(** [String(v)] *)
Fixpoint toString (v : t) : string :=
  match v with
  | JNull => "null"
  | JBool true => "true"
  | JBool false => "false"
  | JNum n => numberToString n
  | JReal literal => literal
  | JStr s => s
  | JArr items => join "," (map (fun i => match i with JNull => EmptyString | _ => toString i end) items)
  | JObj _ => "[object Object]"
  end.

(** How [Array.prototype.join] turns an element into a string. *)
Definition joinItem (v : value) : string :=
  match v with
  | None | Some JNull => EmptyString
  | Some j => toString j
  end.

(** A value inside a template literal: [`${v}`]. *)
Definition interpolate (v : value) : string :=
  match v with
  | None => "undefined"
  | Some j => toString j
  end.

(** An object literal whose property values may be [undefined];
    [JSON.stringify] leaves those properties out. *)
Definition object (props : list (string * value)) : t :=
  JObj (omap (fun kv => match snd kv with
                        | Some v => Some (fst kv, v)
                        | None => None
                        end) props).

Definition strings (l : list string) : t := JArr (map JStr l).

End Json.

(** ** Effects: exceptions, the network, the clock and the user interface *)

Module Eff.

(** *** Exceptions *)

Inductive ErrorClass : Type :=
  | PlainError            (* new Error(...) *)
  | TypeError             (* property access on null, failed fetch *)
  | SyntaxError           (* JSON.parse, response.json() *)
  | DOMException          (* aborted or timed-out fetch *)
  | CogneeUnavailableError
  | CogneeAPIError.

Record Error : Type := mkError {
  errClass : ErrorClass;
  errName : string;
  errMessage : string;
  errStatus : option Z;           (* CogneeAPIError.status *)
  errCauseCode : option string;   (* error.cause?.code *)
}.

Definition newError (message : string) : Error :=
  mkError PlainError "Error" message None None.

Definition newTypeError (message : string) : Error :=
  mkError TypeError "TypeError" message None None.

Definition newSyntaxError (message : string) : Error :=
  mkError SyntaxError "SyntaxError" message None None.

(** What [fetch] rejects with when an [AbortController] aborts it. *)
Definition abortError : Error :=
  mkError DOMException "AbortError" "This operation was aborted" None None.

(** What [fetch] rejects with when an [AbortSignal.timeout] fires. *)
Definition timeoutError : Error :=
  mkError DOMException "TimeoutError"
    "The operation was aborted due to timeout" None None.

(** [error instanceof C] *)
Definition instanceOf (e : Error) (c : ErrorClass) : bool :=
  match errClass e, c with
  | PlainError, PlainError | TypeError, TypeError
  | SyntaxError, SyntaxError | DOMException, DOMException
  | CogneeUnavailableError, CogneeUnavailableError
  | CogneeAPIError, CogneeAPIError => true
  | _, _ => false
  end.

(** *** Requests and responses *)

Inductive Method : Type := GET | POST.

Inductive FormValue : Type :=
  | Field (value : string)
  | Blob (content type filename : string).

Inductive Body : Type :=
  | NoBody
  | JsonBody (json : Json.t)                       (* JSON.stringify(json) *)
  | FormData (entries : list (string * FormValue)).

(** The [signal] option of [fetch]. *)
Inductive Signal : Type :=
  | NoSignal
  | AbortAfter (ms : Z)      (* AbortController + setTimeout(abort, ms) *)
  | TimeoutAfter (ms : Z).   (* AbortSignal.timeout(ms) *)

Record Request : Type := mkRequest {
  reqUrl : string;
  reqMethod : Method;
  reqHeaders : list (string * string);
  reqBody : Body;
  reqSignal : Signal;
}.

(** A response: its status, its body as text, and the value
    [response.json()] parses from the body ([None]: not JSON).  A reply
    arrives whole: once [fetch] has settled, reading the body takes no
    further time and does not fail. *)
Record Response : Type := mkResponse {
  status : Z;
  text : string;
  json : option Json.t;
}.

(** [response.ok] *)
Definition ok (r : Response) : bool := (200 <=? status r) && (status r <=? 299).

(** What the remote side does with a request: answer after some
    milliseconds, fail after some milliseconds (connection refused, DNS
    failure, ...), or never answer. *)
Inductive Reply : Type :=
  | Responds (after : Z) (r : Response)
  | Fails (after : Z) (e : Error)
  | Silent.

(** The network: the reply to the [n]-th request issued (counting from
    zero), given the request. *)
Definition Net : Type := nat -> Request -> Reply.

(** *** The log of what a run did *)

Inductive Event : Type :=
  | Fetch (r : Request)
  | Toast (message variant : string).

Definition fetches (log : list Event) : list Request :=
  omap (fun e => match e with Fetch r => Some r | Toast _ _ => None end) log.

(** *** Computations

    An [async] function is a function of the network, the clock and the
    log so far.  It returns a value, throws, never settles ([Pending]:
    an awaited promise stays pending), or is cut off by the bound on
    the recursion depth that the model adds ([Unfinished]). *)

Record Env : Type := mkEnv {
  net : Net;
  now : Z;   (* the clock: one run of a handler reads the same time throughout *)
}.

Inductive Result (A : Type) : Type :=
  | Ret (a : A)
  | Throw (e : Error)
  | Pending
  | Unfinished.

Arguments Ret {A} a.
Arguments Throw {A} e.
Arguments Pending {A}.
Arguments Unfinished {A}.

Definition M (A : Type) : Type := Env -> list Event -> Result A * list Event.

Definition ret {A} (a : A) : M A := fun _ log => (Ret a, log).

Definition bind {A B} (m : M A) (k : A -> M B) : M B :=
  fun env log =>
    match m env log with
    | (Ret a, log') => k a env log'
    | (Throw e, log') => (Throw e, log')
    | (Pending, log') => (Pending, log')
    | (Unfinished, log') => (Unfinished, log')
    end.

#[export] Instance M_ret : MRet M := @ret.
#[export] Instance M_bind : MBind M := fun A B k m => bind m k.

Definition throw {A} (e : Error) : M A := fun _ log => (Throw e, log).

Definition unfinished {A} : M A := fun _ log => (Unfinished, log).

(** [try { m } catch (e) { handler e }] *)
Definition tryCatch {A} (m : M A) (handler : Error -> M A) : M A :=
  fun env log =>
    match m env log with
    | (Throw e, log') => handler e env log'
    | r => r
    end.

(** [Date.now()] *)
Definition dateNow : M Z := fun env log => (Ret (now env), log).

(** [showToast?.(message, variant)]: the call is not awaited and the
    helper swallows its own failures. *)
Definition showToast (message variant : string) : M unit :=
  fun _ log => (Ret tt, (log ++ [Toast message variant])%list).

(** The deadline a signal puts on a request. *)
Definition deadline (s : Signal) : option (Z * Error) :=
  match s with
  | NoSignal => None
  | AbortAfter ms => Some (ms, abortError)
  | TimeoutAfter ms => Some (ms, timeoutError)
  end.

(** [await fetch(url, options)] as the language defines it: the promise
    settles with the reply if it arrives before the signal's deadline,
    rejects with the signal's error at the deadline otherwise, and
    without a signal stays pending for as long as the remote side stays
    silent.  The runtimes put a limit of their own on that wait; it is
    [runtime] below. *)
Definition settle (s : Signal) (reply : Reply) : Result Response :=
  match deadline s, reply with
  | None, Responds _ r => Ret r
  | None, Fails _ e => Throw e
  | None, Silent => Pending
  | Some (ms, err), Responds t r => if t <? ms then Ret r else Throw err
  | Some (ms, err), Fails t e => if t <? ms then Throw e else Throw err
  | Some (ms, err), Silent => Throw err
  end.

Definition fetch (req : Request) : M Response :=
  fun env log =>
    let n := List.length (fetches log) in
    (settle (reqSignal req) (net env n req), (log ++ [Fetch req])%list).

(** [await response.json()] *)
Definition responseJson (r : Response) : M Json.t :=
  match json r with
  | Some j => ret j
  | None => throw (newSyntaxError "Unexpected token in JSON")
  end.

(** [await response.text()] *)
Definition responseText (r : Response) : M string := ret (text r).

(** Run a computation from an empty log. *)
Definition run {A} (m : M A) (env : Env) : Result A * list Event := m env [].

(** *** The runtime's own limit

    The runtimes that execute the adapters (Node for the Gemini
    extension, Bun for the OpenCode plugin) give up on a request that
    has had no response for five minutes: [fetch] then rejects with the
    TypeError [fetch failed].  For the program a server that never
    answers, or answers later than that, is therefore a request that
    fails at [fetchLimit]; [Silent], and with it [Pending], is what a
    runtime without the limit would show. *)

Definition fetchLimit : Z := 300000.

Definition fetchFailed : Error :=
  mkError TypeError "TypeError" "fetch failed" None (Some "UND_ERR_HEADERS_TIMEOUT").

(** What [fetch] is given for a behaviour of the remote side. *)
Definition runtime (behaviour : Reply) : Reply :=
  match behaviour with
  | Responds t r => if t <? fetchLimit then Responds t r
                    else Fails fetchLimit fetchFailed
  | Fails t e => if t <? fetchLimit then Fails t e
                 else Fails fetchLimit fetchFailed
  | Silent => Fails fetchLimit fetchFailed
  end.

(** The network a program sees when the remote side behaves as
    [server]. *)
Definition served (server : Net) : Net := fun n req => runtime (server n req).

End Eff.

(** ** The OpenCode adapter: [services/client.ts] *)

Module OpenCode.
Import Js Eff.

(** [new CogneeUnavailableError(message)] *)
Definition newCogneeUnavailableError (message : string) : Error :=
  mkError CogneeUnavailableError "CogneeUnavailableError" message None None.

(** [new CogneeAPIError(message, status)] *)
Definition newCogneeAPIError (message : string) (status : Z) : Error :=
  mkError CogneeAPIError "CogneeAPIError" message (Some status) None.

(** [interface SearchResult]: at run time [content] is whatever the
    server sent, and [metadata] may be missing. *)
Record SearchResult : Type := mkSearchResult {
  content : Json.value;
  metadata : Json.value;
}.

Record AddResponse : Type := mkAddResponse {
  success : bool;
  message : option string;
}.

(** A computation without effects that may throw. *)
Definition Except (A : Type) : Type := Error + A.

Definition liftE {A} (x : Except A) : M A :=
  match x with inl e => throw e | inr a => ret a end.

(** Reading a property of [null] throws. *)
Definition prop (v : Json.t) (k : string) : Except Json.value :=
  match Json.getProp v k with
  | Some x => inr x
  | None => inl (newTypeError ("Cannot read properties of null (reading '" ++ k ++ "')"))
  end.

Module CogneeClient.

Record t : Type := mkClient {
  baseUrl : string;
  apiToken : option string;
}.

(** [baseUrl.replace(/\/$/, '')]: remove one trailing slash. *)
Fixpoint removeTrailingSlash (s : string) : string :=
  match s with
  | EmptyString => EmptyString
  | String c EmptyString => if Ascii.eqb c "/" then EmptyString else s
  | String c r => String c (removeTrailingSlash r)
  end.

Definition new (baseUrl : string) (apiToken : option string) : t :=
  mkClient (removeTrailingSlash baseUrl) apiToken.

Definition authorization (apiToken : option string) : list (string * string) :=
  match apiToken with
  | Some tok => if truthyString tok then [("Authorization", "Bearer " ++ tok)] else []
  | None => []
  end.

Definition getHeaders (this : t) : list (string * string) :=
  ("Content-Type", "application/json") :: authorization (apiToken this).

Definition unavailable {A} : Error -> M A :=
  fun _ => throw (newCogneeUnavailableError "Cannot connect to Cognee server").

(** [if (!response.ok) { throw new CogneeAPIError(`${what}: ${errorText}`, status) }] *)
Definition checkOk (what : string) (response : Response) : M unit :=
  if negb (ok response) then
    errorText ← responseText response;
    throw (newCogneeAPIError (what ++ ": " ++ errorText) (status response))
  else ret tt.

(** POST /api/v1/add (multipart form data) *)
Definition addMemory (this : t) (content : string)
    (datasetName : option string) (nodeSets : option (list string))
  : M AddResponse :=
  let datasetName := default "default_user" datasetName in
  let formData :=
    ([("data", Blob content "text/plain" "memory.txt");
      ("datasetName", Field datasetName)]
     ++ match nodeSets with
        | Some (n :: ns) => map (fun nodeSet => ("node_set", Field nodeSet)) (n :: ns)
        | _ => []
        end)%list in
  let headers := authorization (apiToken this) in
  response ← tryCatch
    (fetch (mkRequest (baseUrl this ++ "/api/v1/add") POST headers
              (FormData formData) NoSignal))
    unavailable;
  checkOk "Cognee add failed" response;;
  ret (mkAddResponse true None).

Record CognifyOptions : Type := mkCognifyOptions {
  useCustomOntology : option bool;
  temporalCognify : option bool;
}.

Definition noOptions : CognifyOptions := mkCognifyOptions None None.

Definition cognifyBody (datasetName : string) (options : CognifyOptions)
  : Json.t :=
  let useCustomOntology := default false (useCustomOntology options) in
  let temporalCognify := default true (temporalCognify options) in
  Json.JObj
    ([("datasets", Json.strings [datasetName])]
     ++ (if temporalCognify then [("temporal_cognify", Json.JBool true)] else [])
     ++ (if useCustomOntology && negb temporalCognify
         then [("graph_model_file",
                Json.JStr "/home/default_user/cognee/opencode-cognee/memory_ontology.py");
               ("graph_model_name", Json.JStr "CategorizedMemory")]
         else []))%list.

(** POST /api/v1/cognify *)
Definition cognify (this : t) (datasetName : option string)
    (options : CognifyOptions) : M AddResponse :=
  let datasetName := default "default_user" datasetName in
  let body := cognifyBody datasetName options in
  response ← tryCatch
    (fetch (mkRequest (baseUrl this ++ "/api/v1/cognify") POST (getHeaders this)
              (JsonBody body) NoSignal))
    unavailable;
  checkOk "Cognee cognify failed" response;;
  ret (mkAddResponse true None).

(** The loop body of [extractSearchResults] for one array item. *)
Definition extractItem (item : Json.t) : Except (list SearchResult) :=
  match item with
  | Json.JStr _ => inr [mkSearchResult (Some item) None]
  | _ =>
      match prop item "content", prop item "text", prop item "result",
            prop item "metadata" with
      | inr c, inr t, inr r, inr m =>
          let found := Json.or (Json.or c t) r in
          if Json.truthy found
          then inr [mkSearchResult found (Json.or m (Some item))]
          else inr []
      | inl e, _, _, _ | _, inl e, _, _ | _, _, inl e, _ | _, _, _, inl e => inl e
      end
  end.

Fixpoint extractItems (data : list Json.t) : Except (list SearchResult) :=
  match data with
  | [] => inr []
  | item :: rest =>
      match extractItem item with
      | inl e => inl e
      | inr r =>
          match extractItems rest with
          | inl e => inl e
          | inr rs => inr (r ++ rs)%list
          end
      end
  end.

(** [extractSearchResults(data)].  The recursive call is made on
    [data.results] only when that is an array, so it takes the array
    branch and returns; it is written out here. *)
Definition extractSearchResults (data : Json.t) : Except (list SearchResult) :=
  match data with
  | Json.JArr items => extractItems items
  | Json.JStr _ => inr [mkSearchResult (Some data) None]
  | _ =>
      match prop data "results" with
      | inl e => inl e
      | inr (Some (Json.JArr items)) => extractItems items
      | inr _ => inr []
      end
  end.

Definition searchBody (query : Json.t) (searchType : string) (topK : Z)
    (sessionId : option string) : Json.t :=
  Json.JObj
    ([("query", query); ("search_type", Json.JStr searchType);
      ("top_k", Json.JNum topK)]
     ++ match sessionId with
        | Some sid => if truthyString sid then [("session_id", Json.JStr sid)] else []
        | None => []
        end)%list.

(** POST /api/v1/search *)
Definition searchMemories (this : t) (query : string)
    (searchType : option string) (topK : option Z)
    (sessionId : option string) (timeoutMs : option Z)
  : M (list SearchResult) :=
  let searchType := default "CHUNKS" searchType in
  let topK := default 5 topK in
  let timeoutMs := default 3000 timeoutMs in
  let body := searchBody (Json.JStr query) searchType topK sessionId in
  response ← tryCatch
    (fetch (mkRequest (baseUrl this ++ "/api/v1/search") POST (getHeaders this)
              (JsonBody body) (AbortAfter timeoutMs)))
    (fun error =>
       if String.eqb (errName error) "AbortError"
       then throw (newCogneeUnavailableError "Cognee search timed out")
       else throw (newCogneeUnavailableError "Cannot connect to Cognee server"));
  checkOk "Cognee search failed" response;;
  data ← responseJson response;
  liftE (extractSearchResults data).

(** GET /api/v1/datasets *)
Definition listDatasets (this : t) : M (list Json.t) :=
  response ← tryCatch
    (fetch (mkRequest (baseUrl this ++ "/api/v1/datasets") GET (getHeaders this)
              NoBody NoSignal))
    unavailable;
  checkOk "Cognee list datasets failed" response;;
  data ← responseJson response;
  ret (match data with Json.JArr items => items | _ => [] end).

(** GET /health *)
Definition healthCheck (this : t) : M bool :=
  tryCatch
    (response ← fetch (mkRequest (baseUrl this ++ "/health") GET [] NoBody NoSignal);
     ret (ok response))
    (fun _ => ret false).

End CogneeClient.
End OpenCode.

(** ** The OpenCode adapter: the plugin ([index.ts]) *)

Module Plugin.
Import Js Eff OpenCode.

(** The fields of the loaded configuration that the plugin reads.  A
    user file may leave [injection.searchType] or [injection.topK]
    undefined. *)
Record Config : Type := mkConfig {
  cogneeUrl : string;
  maxMemories : Z;
  keywordPatterns : list string;
  injectionSearchType : option string;
  injectionTopK : option Z;
}.

Definition DEFAULT_CONFIG : Config :=
  mkConfig "http://localhost:8000" 5 Trigger.defaultKeywordPatterns
    (Some "CHUNKS") (Some 3).

Definition cogneeClient (config : Config) : CogneeClient.t :=
  CogneeClient.new (cogneeUrl config) None.

(** *** Conversation state *)

Record Message : Type := mkMessage {
  role : string;
  msgContent : string;
  timestamp : Z;
}.

Record SessionState : Type := mkSessionState {
  messages : list Message;
  startTime : Z;
}.

(** A JavaScript [Map] with string keys: the entries in insertion
    order, at most one per key. *)
Definition JsMap (V : Type) : Type := list (string * V).

Definition mapGet {V} (k : string) (m : JsMap V) : option V := Json.assoc k m.

Fixpoint mapSet {V} (k : string) (v : V) (m : JsMap V) : JsMap V :=
  match m with
  | [] => [(k, v)]
  | (k', v') :: r =>
      if String.eqb k k' then (k, v) :: r else (k', v') :: mapSet k v r
  end.

Definition mapDelete {V} (k : string) (m : JsMap V) : JsMap V :=
  List.filter (fun kv => negb (String.eqb k (fst kv))) m.

(** The two module-level collections. *)
Record State : Type := mkState {
  conversations : JsMap SessionState;
  injectedSessions : gset string;
}.

Definition initialState : State := mkState [] ∅.

Definition MEMORY_NUDGE_MESSAGE : string :=
  "[MEMORY TRIGGER DETECTED]" ++ nl ++
  "The user wants you to remember something. You MUST use the `cognee` tool with `action: "
  ++ Json.dquote ++ "add" ++ Json.dquote ++ "` to save this information." ++ nl ++ nl ++
  "Extract the key information the user wants remembered and save it as a concise, searchable memory."
  ++ nl ++
  "Use appropriate tags to categorize: preferences, decisions, learnings, projects, tools."
  ++ nl ++ nl ++
  "DO NOT skip this step. The user explicitly asked you to remember.".

Definition detectMemoryKeyword (config : Config) (text : string) : bool :=
  Trigger.detectMemoryKeyword (keywordPatterns config) text.

Definition formatMessage (msg : Message) : string :=
  let time := toISOString (timestamp msg) in
  "[" ++ time ++ "] " ++ toUpperCase (role msg) ++ ": " ++ msgContent msg.

Definition formatConversation (messages : list Message) : string :=
  join (nl ++ nl) (map formatMessage messages).

(** *** The [chat.message] hook *)

Record Part : Type := mkPart {
  partId : string;
  partSessionID : string;
  partMessageID : string;
  partType : string;
  partText : string;
  synthetic : bool;
}.

Record Output : Type := mkOutput {
  messageId : string;
  parts : list Part;
}.

Definition memorySeparator : string := nl ++ nl ++ "---" ++ nl ++ nl.

(** The search-and-inject step of the first message of a session. *)
Definition injectMemories (config : Config) (sessionID userMessage : string)
    (output : Output) : M Output :=
  tryCatch
    (memories ← CogneeClient.searchMemories (cogneeClient config) userMessage
                  (injectionSearchType config) (injectionTopK config)
                  (Some sessionID) None;
     match memories with
     | [] => ret output
     | _ =>
         let relevantMemories :=
           join memorySeparator
             (map (fun m => Json.joinItem (content m))
                  (slice0 (maxMemories config) memories)) in
         now ← dateNow;
         let part :=
           mkPart ("cognee-context-" ++ numberToString now) sessionID
             (messageId output) "text"
             ("<remembered_context>" ++ nl ++ relevantMemories ++ nl
              ++ "</remembered_context>")
             true in
         showToast ("Loaded " ++ numberToString (Z.of_nat (List.length memories))
                    ++ " memories") "success";;
         ret (mkOutput (messageId output) (part :: parts output))
     end)
    (fun error =>
       (if instanceOf error CogneeUnavailableError
        then showToast "Cognee unavailable - memories not loaded" "error"
        else showToast "Failed to fetch memories" "error");;
       ret output).

Definition chatMessage (config : Config) (sessionID : string)
    (st : State) (output : Output) : M (State * Output) :=
  tryCatch
    (let textParts := List.filter (fun p => String.eqb (partType p) "text") (parts output) in
     match textParts with
     | [] => ret (st, output)
     | _ =>
         let userMessage := join nl (map partText textParts) in
         if isEmpty (trim userMessage) then ret (st, output)
         else
           now ← dateNow;
           (* Track conversation *)
           let state :=
             match mapGet sessionID (conversations st) with
             | Some state => state
             | None => mkSessionState [] now
             end in
           let state :=
             mkSessionState
               (messages state ++ [mkMessage "user" userMessage now])%list
               (startTime state) in
           let conversations := mapSet sessionID state (conversations st) in
           (* Detect memory keyword and nudge *)
           output ←
             (if detectMemoryKeyword config userMessage then
                showToast "Memory trigger detected" "info";;
                ret (mkOutput (messageId output)
                       (parts output ++
                        [mkPart ("cognee-nudge-" ++ numberToString now) sessionID
                           (messageId output) "text" MEMORY_NUDGE_MESSAGE true])%list)
              else ret output);
           (* Inject memories on first message *)
           let isFirstMessage :=
             negb (bool_decide (sessionID ∈ injectedSessions st)) in
           if isFirstMessage then
             let injected := {[ sessionID ]} ∪ injectedSessions st in
             output ← injectMemories config sessionID userMessage output;
             ret (mkState conversations injected, output)
           else ret (mkState conversations (injectedSessions st), output)
     end)
    (fun error =>
       showToast "Memory hook error" "error";;
       ret (st, output)).

(** *** The [event] hook *)

Definition sessionContext (sessionId : string) (state : SessionState)
    (now : Z) : string :=
  let formattedConversation := formatConversation (messages state) in
  let elapsed := now - startTime state in
  let sessionDate := isoDate (startTime state) in
  let sessionTime := toISOString (startTime state) in
  "Session Record (" ++ sessionDate ++ "):" ++ nl ++
  "Date: " ++ sessionDate ++ nl ++
  "Time: " ++ sessionTime ++ nl ++
  "Session ID: " ++ sessionId ++ nl ++
  "Duration: " ++ numberToString (roundDiv elapsed 60000) ++ " minutes" ++ nl ++
  "Message Count: " ++ numberToString (Z.of_nat (List.length (messages state)))
  ++ nl ++ nl ++
  "Events and Conversation:" ++ nl ++
  formattedConversation.

Definition sessionNodeSets (state : SessionState) : list string :=
  let sessionDate := isoDate (startTime state) in
  ["sessions"; "conversations";
   "session_" ++ replaceChar "-" "_" sessionDate].

(** The [try]/[catch] of one loop iteration. *)
Definition saveSession (config : Config) (sessionId : string)
    (state : SessionState) : M unit :=
  tryCatch
    (now ← dateNow;
     addResult ← CogneeClient.addMemory (cogneeClient config)
                   (sessionContext sessionId state now) (Some "default_user")
                   (Some (sessionNodeSets state));
     if success addResult then
       CogneeClient.cognify (cogneeClient config) (Some "default_user")
         (CogneeClient.mkCognifyOptions None (Some true));;
       showToast "Session saved to memory" "success"
     else ret tt)
    (fun error =>
       if instanceOf error CogneeUnavailableError
       then showToast "Cognee unavailable - session not saved" "error"
       else showToast "Failed to save session" "error").

Definition forget (sessionId : string) (st : State) : State :=
  mkState (mapDelete sessionId (conversations st))
          (injectedSessions st ∖ {[ sessionId ]}).

(** The loop over [conversations.entries()]: the entries still to be
    visited are [entries]; the [finally] block deletes the visited one. *)
Fixpoint flush (config : Config) (entries : list (string * SessionState))
    (st : State) : M State :=
  match entries with
  | [] => ret st
  | (sessionId, state) :: rest =>
      match messages state with
      | [] => flush config rest st
      | _ =>
          saveSession config sessionId state;;
          flush config rest (forget sessionId st)
      end
  end.

Definition event (config : Config) (eventType : string) (st : State)
  : M State :=
  if String.eqb eventType "session.idle" || String.eqb eventType "session.end"
  then flush config (conversations st) st
  else ret st.

(** Plugin start-up: the silent health check. *)
Definition init (config : Config) : M unit :=
  tryCatch
    (health ← CogneeClient.healthCheck (cogneeClient config);
     if negb health then showToast "Cognee unavailable" "error" else ret tt)
    (fun _ => showToast "Cognee connection failed" "error").

End Plugin.

(** ** What the two [cognee] tools share

    Both tools declare the same optional arguments, parse the tags with
    the same expression and answer [help] with the same guide, three
    sentences apart. *)

Module ToolArgs.
Import Js Json.

(** The tool's arguments; every one is optional. *)
Record Args : Type := mkArgs {
  action : option string;
  query : option string;
  content : option string;
  tags : option string;
  searchType : option string;
  topK : option Z;
}.

(** [x || d] for an optional string. *)
Definition orString (x : option string) (d : string) : string :=
  match x with
  | Some s => if truthyString s then s else d
  | None => d
  end.

(** [x || d] for an optional number. *)
Definition orNumber (x : option Z) (d : Z) : Z :=
  match x with
  | Some n => if n =? 0 then d else n
  | None => d
  end.

(** [!x] for an optional string. *)
Definition missing (x : option string) : bool :=
  match x with
  | Some s => isEmpty s
  | None => true
  end.

(** [args.tags ? args.tags.split(',').map(t => t.trim()).filter(t => t.length > 0)
              : ['user_memories']] *)
Definition parseNodeSets (tags : option string) : list string :=
  if missing tags then ["user_memories"]
  else List.filter (fun t => negb (isEmpty t))
         (map trim (split "," (default EmptyString tags))).

(** [`${content.substring(0, 100)}${content.length > 100 ? "..." : ""}`] *)
Definition preview (content : string) : string :=
  take 100 content ++ (if (100 <? String.length content)%nat then "..." else EmptyString).

Definition searchTypesGuide : Json.t :=
  JObj [("GRAPH_COMPLETION", JStr "Default - Complex reasoning with graph context (slower, most intelligent)");
        ("RAG_COMPLETION", JStr "Fast fact retrieval without graph structure");
        ("CHUNKS", JStr "Raw text passages - fastest option");
        ("SUMMARIES", JStr "Pre-generated hierarchical summaries");
        ("GRAPH_COMPLETION_COT", JStr "Chain-of-thought for complex multi-step reasoning");
        ("FEELING_LUCKY", JStr "Auto-select best search type")].

Definition nodeSetsGuide : Json.t :=
  JObj [("description", JStr "NodeSets are tags that organize memories into searchable groups");
        ("examples", strings ["preferences"; "tools"; "decisions"; "projects"; "sessions"]);
        ("automatic", strings ["sessions"; "conversations"; "user_memories"])].

Definition searchTypeGuide : Json.t :=
  JObj [("simpleFacts", JStr "Use RAG_COMPLETION for quick fact lookups");
        ("complexReasoning", JStr "Use GRAPH_COMPLETION for questions requiring relationship understanding");
        ("rawContent", JStr "Use CHUNKS to verify content exists or get exact passages");
        ("overviews", JStr "Use SUMMARIES for quick document overviews");
        ("multiStep", JStr "Use GRAPH_COMPLETION_COT for differential diagnosis or complex analysis")].

Definition helpGuide (timeline add example : string) : Json.t :=
  JObj [("success", JBool true);
        ("message", JStr "Cognee Memory Usage Guide");
        ("commands", JArr [
           JObj [("command", JStr "search");
                 ("description", JStr "Search memories with configurable search type");
                 ("args", strings ["query"; "searchType (optional)"; "topK (optional)"]);
                 ("searchTypes", searchTypesGuide)];
           JObj [("command", JStr "timeline");
                 ("description", JStr timeline);
                 ("args", strings ["query"])];
           JObj [("command", JStr "add");
                 ("description", JStr add);
                 ("args", strings ["content"; "tags (optional, comma-separated)"]);
                 ("example", JStr example)];
           JObj [("command", JStr "list");
                 ("description", JStr "List all datasets");
                 ("args", strings [])]]);
        ("nodeSets", nodeSetsGuide);
        ("searchTypeGuide", searchTypeGuide)].

End ToolArgs.

(** ** The OpenCode adapter: the [cognee] tool *)

Module Tool.
Import Js Eff OpenCode Json ToolArgs.

Definition helpPayload : Json.t :=
  helpGuide "Time-aware search (e.g., 'what happened last week', 'before 2024')"
    "Add new memory with optional NodeSet tags for organization"
    "add content='default_user prefers dark mode' tags='preferences,ui'".


Definition failure (error : string) : Json.t :=
  JObj [("success", JBool false); ("error", JStr error)].

Definition count {A} (l : list A) : Json.t := JNum (Z.of_nat (List.length l)).

(** [datasets.map((d) => ({ id: d.id, name: d.name }))] *)
Fixpoint datasetSummaries (datasets : list Json.t) : Except (list Json.t) :=
  match datasets with
  | [] => inr []
  | d :: rest =>
      match prop d "id", prop d "name", datasetSummaries rest with
      | inr id, inr name, inr r => inr (object [("id", id); ("name", name)] :: r)
      | inl e, _, _ | _, inl e, _ | _, _, inl e => inl e
      end
  end.

(** The [switch] inside the [try] block of [execute].  The value is the
    object given to [JSON.stringify]. *)
Definition executeBody (client : CogneeClient.t) (args : Args)
    (sessionID : option string) (action : string) : M Json.t :=
  if String.eqb action "help" then ret helpPayload
  else if String.eqb action "search" then
    if missing (query args) then
      ret (failure "query parameter is required for search action")
    else
      let query := default EmptyString (query args) in
      let searchType := orString (searchType args) "GRAPH_COMPLETION" in
      let topK := orNumber (topK args) 10 in
      results ← CogneeClient.searchMemories client query (Some searchType)
                  (Some topK) sessionID None;
      match results with
      | [] =>
          ret (JObj [("success", JBool true); ("query", JStr query);
                     ("searchType", JStr searchType); ("count", JNum 0);
                     ("message", JStr ("No memories found for: " ++ dquote ++ query ++ dquote))])
      | _ =>
          ret (JObj [("success", JBool true); ("query", JStr query);
                     ("searchType", JStr searchType); ("count", count results);
                     ("results",
                      JArr (map (fun r => object [("content", OpenCode.content r)])
                              (slice0 topK results)))])
      end
  else if String.eqb action "timeline" then
    if missing (query args) then
      ret (failure "query parameter is required for timeline action")
    else
      let query := default EmptyString (query args) in
      results ← CogneeClient.searchMemories client query (Some "TEMPORAL")
                  (Some 15) sessionID None;
      match results with
      | [] =>
          ret (JObj [("success", JBool true); ("query", JStr query);
                     ("count", JNum 0);
                     ("message", JStr ("No temporal events found for: " ++ dquote ++ query ++ dquote))])
      | _ =>
          ret (JObj [("success", JBool true); ("query", JStr query);
                     ("searchType", JStr "TEMPORAL"); ("count", count results);
                     ("results",
                      JArr (map (fun r => object [("content", OpenCode.content r);
                                                  ("metadata", metadata r)])
                              (slice0 15 results)))])
      end
  else if String.eqb action "add" then
    if missing (content args) then
      ret (failure "content parameter is required for add action")
    else
      let content := default EmptyString (content args) in
      let nodeSets := parseNodeSets (tags args) in
      addResult ← CogneeClient.addMemory client content (Some "default_user")
                    (Some nodeSets);
      if negb (success addResult) then
        ret (failure (orString (message addResult) "Failed to add memory"))
      else
        CogneeClient.cognify client None CogneeClient.noOptions;;
        ret (JObj [("success", JBool true);
                   ("message", JStr ("Memory added with tags [" ++ join ", " nodeSets
                                     ++ "]: " ++ dquote ++ preview content ++ dquote));
                   ("nodeSets", strings nodeSets)])
  else if String.eqb action "list" then
    datasets ← CogneeClient.listDatasets client;
    match datasets with
    | [] =>
        ret (JObj [("success", JBool true); ("count", JNum 0);
                   ("message", JStr "No datasets found in Cognee")])
    | _ =>
        summaries ← liftE (datasetSummaries datasets);
        ret (JObj [("success", JBool true); ("count", count datasets);
                   ("datasets", JArr summaries)])
    end
  else
    ret (failure ("Unknown action: " ++ action
                  ++ ". Use 'search', 'add', 'list', or 'help'")).

(** The [catch] block of [execute]. *)
Definition executeCatch (error : Error) : M Json.t :=
  (if instanceOf error CogneeUnavailableError then
     showToast "Cognee unavailable" "error"
   else if instanceOf error CogneeAPIError then
     showToast ("Cognee error (" ++ numberToString (default 0 (errStatus error)) ++ ")")
       "error"
   else showToast "Memory operation failed" "error");;
  ret (failure (errMessage error)).

Definition execute (client : CogneeClient.t) (args : Args)
    (sessionID : option string) : M Json.t :=
  let action := orString (action args) "help" in
  tryCatch (executeBody client args sessionID action) executeCatch.

End Tool.

(** ** The Gemini adapter: the MCP server ([src/server.js]) *)

Module Gemini.
Import Js Eff Json.

(** What the process reads once at start-up. *)
Record Settings : Type := mkSettings {
  COGNEE_URL : string;              (* process.env.COGNEE_URL || config.cogneeUrl *)
  COGNEE_API_TOKEN : option string; (* process.env.COGNEE_API_TOKEN *)
  datasetName : option string;      (* config.datasetName *)
}.

Definition bearer (s : Settings) : list (string * string) :=
  match COGNEE_API_TOKEN s with
  | Some tok => if truthyString tok then [("Authorization", "Bearer " ++ tok)] else []
  | None => []
  end.

(** Reading a property of [null] throws. *)
Definition prop (v : Json.t) (k : string) : M Json.value :=
  match Json.getProp v k with
  | Some x => ret x
  | None => throw (newTypeError ("Cannot read properties of null (reading '" ++ k ++ "')"))
  end.

Module Server.

(** [cogneeRequest(endpoint, options)] *)
Definition cogneeRequest (s : Settings) (endpoint : string) (method : Method)
    (body : Body) : M Json.t :=
  let headers := (("Content-Type", "application/json") :: bearer s) in
  let url := COGNEE_URL s ++ endpoint in
  tryCatch
    (response ← fetch (mkRequest url method headers body NoSignal);
     if negb (ok response) then
       errorText ← responseText response;
       throw (newError ("Cognee API error (" ++ numberToString (status response)
                        ++ "): " ++ errorText))
     else responseJson response)
    (fun error =>
       match errCauseCode error with
       | Some code =>
           if String.eqb code "ECONNREFUSED" then
             throw (newError "Cognee server unavailable. Start it with: uv run python -m cognee.api.client")
           else throw error
       | None => throw error
       end).

(** [healthCheck()] *)
Definition healthCheck (s : Settings) : M bool :=
  tryCatch
    (response ← fetch (mkRequest (COGNEE_URL s ++ "/health") GET [] NoBody NoSignal);
     ret (ok response))
    (fun _ => ret false).

Definition defaultDataset (s : Settings) : string :=
  match datasetName s with
  | Some d => if truthyString d then d else "default_user"
  | None => "default_user"
  end.

(** [addMemory(content, datasetName, nodeSets)] *)
Definition addMemory (s : Settings) (content : string) (datasetName : string)
    (nodeSets : list string) : M bool :=
  let formData :=
    ([("data", Blob content "text/plain" "memory.txt");
      ("datasetName", Field datasetName)]
     ++ map (fun nodeSet => ("node_set", Field nodeSet)) nodeSets)%list in
  response ← fetch (mkRequest (COGNEE_URL s ++ "/api/v1/add") POST (bearer s)
                      (FormData formData) NoSignal);
  if negb (ok response) then
    throw (newError ("Failed to add memory: " ++ numberToString (status response)))
  else ret true.

(** [cognify(datasetName, temporalCognify)] *)
Definition cognify (s : Settings) (datasetName : string)
    (temporalCognify : bool) : M Json.t :=
  cogneeRequest s "/api/v1/cognify" POST
    (JsonBody (JObj [("datasets", strings [datasetName]);
                     ("temporal_cognify", JBool temporalCognify)])).

(** One normalised search result. *)
Record Memory : Type := mkMemory { content : Json.value }.

(** The callback of [result.map(...)]. *)
Definition normalizeItem (item : Json.t) : M Memory :=
  match item with
  | JStr _ => ret (mkMemory (Some item))
  | _ =>
      c ← prop item "content";
      t ← prop item "text";
      r ← prop item "result";
      ret (mkMemory (Json.or (Json.or (Json.or c t) r) (Some (JStr (stringify item)))))
  end.

Fixpoint normalizeItems (items : list Json.t) : M (list Memory) :=
  match items with
  | [] => ret []
  | item :: rest =>
      m ← normalizeItem item;
      ms ← normalizeItems rest;
      ret (m :: ms)
  end.

Definition searchRequestBody (query : Json.t) (searchType : string) (topK : Z)
    (sessionId : option string) : Json.t :=
  JObj ([("query", query); ("search_type", JStr searchType);
         ("top_k", JNum topK)]
        ++ match sessionId with
           | Some sid => if truthyString sid then [("session_id", JStr sid)] else []
           | None => []
           end)%list.

(** [searchMemories(query, searchType, topK, sessionId)].  On a reply
    with a truthy [results] property the function calls itself with
    that property as the query and the default other arguments.
    [depth] bounds the number of such calls. *)
Fixpoint searchMemories (depth : nat) (s : Settings) (query : Json.t)
    (searchType : option string) (topK : option Z) (sessionId : option string)
  : M (list Memory) :=
  let searchType := default "GRAPH_COMPLETION" searchType in
  let topK := default 10 topK in
  result ← cogneeRequest s "/api/v1/search" POST
             (JsonBody (searchRequestBody query searchType topK sessionId));
  match result with
  | JArr items => normalizeItems items
  | _ =>
      results ← prop result "results";
      if truthy results then
        match depth, results with
        | S d, Some q => searchMemories d s q None None None
        | _, _ => unfinished
        end
      else ret [mkMemory (Some (JStr (toString result)))]
  end.

(** [listDatasets()] *)
Definition listDatasets (s : Settings) : M Json.t :=
  cogneeRequest s "/api/v1/datasets" GET NoBody.

End Server.
End Gemini.

(** ** The Gemini adapter: the [cognee] tool registered by the server *)

Module GeminiTool.
Import Js Eff Json ToolArgs Gemini.

Definition helpPayload : Json.t :=
  helpGuide ("Time-aware search (e.g., " ++ dquote ++ "what happened last week"
             ++ dquote ++ ")")
    "Add memory with optional NodeSet tags for organization"
    ("add content=" ++ dquote ++ "default_user prefers dark mode" ++ dquote
     ++ " tags=" ++ dquote ++ "preferences,ui" ++ dquote).

Definition failure (error : string) : Json.t :=
  JObj [("success", JBool false); ("error", JStr error)].

Definition memories (results : list Server.Memory) : Json.t :=
  JArr (map (fun m => object [("content", Server.content m)]) results).

(** [datasets.length] *)
Definition lengthOf (datasets : Json.t) : M Json.value :=
  match datasets with
  | JArr items => ret (Some (JNum (Z.of_nat (List.length items))))
  | JStr s => ret (Some (JNum (Z.of_nat (String.length s))))
  | JNull => throw (newTypeError "Cannot read properties of null (reading 'length')")
  | _ => ret None
  end.

Fixpoint summaries (items : list Json.t) : M (list Json.t) :=
  match items with
  | [] => ret []
  | d :: rest =>
      id ← prop d "id";
      name ← prop d "name";
      r ← summaries rest;
      ret (object [("id", id); ("name", name)] :: r)
  end.

(** [datasets.map(d => ({ id: d.id, name: d.name }))] *)
Definition mapDatasets (datasets : Json.t) : M Json.t :=
  match datasets with
  | JArr items => r ← summaries items; ret (JArr r)
  | JNull => throw (newTypeError "Cannot read properties of null (reading 'map')")
  | _ => throw (newTypeError "datasets.map is not a function")
  end.

(** The [switch] inside the [try] block of the tool callback.  The
    value is the object given to [JSON.stringify]; the callback wraps
    its text in [{ content: [{ type: 'text', text }] }]. *)
Definition handlerBody (depth : nat) (s : Settings) (args : Args)
    (action : string) : M Json.t :=
  if String.eqb action "help" then ret helpPayload
  else if String.eqb action "search" then
    if missing (query args) then
      ret (failure "query parameter required for search")
    else
      let query := default EmptyString (query args) in
      let searchType := orString (searchType args) "GRAPH_COMPLETION" in
      let topK := orNumber (topK args) 10 in
      results ← Server.searchMemories depth s (JStr query) (Some searchType)
                  (Some topK) None;
      ret (JObj [("success", JBool true); ("query", JStr query);
                 ("searchType", JStr searchType);
                 ("count", JNum (Z.of_nat (List.length results)));
                 ("results", memories (slice0 topK results))])
  else if String.eqb action "timeline" then
    if missing (query args) then
      ret (failure "query parameter required for timeline")
    else
      let query := default EmptyString (query args) in
      results ← Server.searchMemories depth s (JStr query) (Some "TEMPORAL")
                  (Some 15) None;
      ret (JObj [("success", JBool true); ("query", JStr query);
                 ("searchType", JStr "TEMPORAL");
                 ("count", JNum (Z.of_nat (List.length results)));
                 ("results", memories (slice0 15 results))])
  else if String.eqb action "add" then
    if missing (content args) then
      ret (failure "content parameter required for add")
    else
      let content := default EmptyString (content args) in
      let nodeSets := parseNodeSets (tags args) in
      Server.addMemory s content "gemini_memories" nodeSets;;
      Server.cognify s "gemini_memories" true;;
      ret (JObj [("success", JBool true);
                 ("message", JStr ("Memory added with tags [" ++ join ", " nodeSets ++ "]"));
                 ("preview", JStr (preview content))])
  else if String.eqb action "list" then
    datasets ← Server.listDatasets s;
    n ← lengthOf datasets;
    ds ← mapDatasets datasets;
    ret (object [("success", Some (JBool true)); ("count", n);
                 ("datasets", Some ds)])
  else ret (failure ("Unknown action: " ++ action)).

(** The [catch] block of the tool callback. *)
Definition handlerCatch (error : Error) : M Json.t :=
  ret (object [("success", Some (JBool false));
               ("error", Some (JStr (errMessage error)));
               ("hint",
                if includes "unavailable" (errMessage error)
                then Some (JStr "Start Cognee with: uv run python -m cognee.api.client")
                else None)]).

Definition handler (depth : nat) (s : Settings) (args : Args) : M Json.t :=
  let action := orString (action args) "help" in
  tryCatch (handlerBody depth s args action) handlerCatch.

End GeminiTool.

(** ** The Gemini adapter: the hook scripts

    A hook reads one JSON object from standard input and prints one
    JSON object; the value of [main] below is the object printed.
    Messages for the error stream are left out. *)

Module GeminiHooks.
Import Js Eff Json Gemini.

Definition bytes (codes : list N) : string :=
  string_of_list_ascii (map ascii_of_N codes).

(** The two signs the status messages start with, as UTF-8. *)
Definition warningSign : string := bytes [226; 154; 160; 239; 184; 143]%N.
Definition brainSign : string := bytes [240; 159; 167; 160]%N.

(** What the configuration gives the hooks. *)
Record HookConfig : Type := mkHookConfig {
  keywordPatterns : list string;
  injectionSearchType : string;
  injectionTopK : Z;
  injectionTimeout : Z;
}.


(** *** [before-agent.js] *)

Definition MEMORY_TRIGGER_BLOCK : string :=
  "[MEMORY TRIGGER DETECTED]" ++ nl ++
  "The user wants you to remember something. Use the `cognee` tool with `action: "
  ++ dquote ++ "add" ++ dquote ++ "` to save this information." ++ nl ++
  "Extract the key information and save it as a concise, searchable memory with appropriate tags.".

(** [m.content || m.text || m.result || JSON.stringify(m)] as text. *)
Definition contextPart (m : Json.t) : M string :=
  match m with
  | JStr s => ret s
  | _ =>
      c ← prop m "content";
      t ← prop m "text";
      r ← prop m "result";
      ret (joinItem (Json.or (Json.or (Json.or c t) r) (Some (JStr (stringify m)))))
  end.

Fixpoint contextParts (ms : list Json.t) : M (list string) :=
  match ms with
  | [] => ret []
  | m :: rest => p ← contextPart m; ps ← contextParts rest; ret (p :: ps)
  end.

Definition rememberedContext (parts : list string) : string :=
  "<remembered_context>" ++ nl ++ join (nl ++ nl ++ "---" ++ nl ++ nl) parts
  ++ nl ++ "</remembered_context>".

(** What the loaded configuration gives [before-agent.js]: the keywords
    (an array of strings) and the value of the [injection] property,
    which a user file replaces whole by any JSON value. *)
Module Agent.

Record Config : Type := mkConfig {
  keywordPatterns : list string;
  injection : Json.t;
}.

Definition defaultConfig : Config :=
  mkConfig Trigger.defaultKeywordPatterns
    (JObj [("searchType", JStr "CHUNKS"); ("topK", JNum 3);
           ("timeout", JNum 2000)]).

(** [AbortSignal.timeout(delay)]: Node accepts an integer from 0 to
    2^32 - 1 and throws on anything else.  The errors are only logged
    by the caller. *)
Definition timeoutSignal (delay : Json.value) : M Signal :=
  match delay with
  | Some (JNum ms) =>
      if (0 <=? ms) && (ms <=? 4294967295) then ret (TimeoutAfter ms)
      else throw (mkError PlainError "RangeError"
                    "The value of delay is out of range" None None)
  | Some (JReal _) =>
      throw (mkError PlainError "RangeError"
               "The value of delay is out of range" None None)
  | _ => throw (newTypeError "The delay argument must be of type number")
  end.

(** The search with its own [try]/[catch]: the context block to add, if
    any.  The options of [fetch] are evaluated in source order: the
    body, which reads [config.injection.searchType] and [.topK], then
    the signal. *)
Definition searchContext (s : Settings) (config : Config)
    (prompt : string) : M (list string) :=
  tryCatch
    (searchType ← prop (injection config) "searchType";
     topK ← prop (injection config) "topK";
     delay ← prop (injection config) "timeout";
     signal ← timeoutSignal delay;
     searchResponse ←
       fetch (mkRequest (COGNEE_URL s ++ "/api/v1/search") POST
                (("Content-Type", "application/json") :: bearer s)
                (JsonBody (object [("query", Some (JStr prompt));
                                   ("search_type", searchType);
                                   ("top_k", topK)]))
                signal);
     if ok searchResponse then
       memories ← responseJson searchResponse;
       match memories with
       | JArr (m :: ms) =>
           parts ← contextParts (slice0 5 (m :: ms));
           ret [rememberedContext parts]
       | _ => ret []
       end
     else ret [])
    (fun _ => ret []).

(** [main()]: the object the hook prints. *)
Definition beforeAgent (s : Settings) (config : Config)
    (prompt : option string) : M Json.t :=
  match prompt with
  | None => ret (JObj [])
  | Some prompt =>
      if isEmpty (trim prompt) then ret (JObj [])
      else
        let textWithoutCode := Trigger.removeCodeBlocks prompt in
        let trigger :=
          if Trigger.MEMORY_KEYWORDS (keywordPatterns config) textWithoutCode
          then [MEMORY_TRIGGER_BLOCK] else [] in
        found ← searchContext s config prompt;
        match (trigger ++ found)%list with
        | [] => ret (JObj [])
        | additionalContextParts =>
            ret (JObj [("hookSpecificOutput",
                        JObj [("hookEventName", JStr "BeforeAgent");
                              ("additionalContext",
                               JStr (join (nl ++ nl) additionalContextParts))])])
        end
  end.

End Agent.

(** *** [session-end.js] *)

(** The transcript file named by [transcript_path]. *)
Inductive Transcript : Type :=
  | NoTranscript                 (* no path given, or no such file *)
  | Unparsable                   (* reading or parsing it throws *)
  | Parsed (transcript : Json.t).

(** [msg.content], cut to 500 characters; [None] when the expression
    throws. *)
Definition messageContent (msg : Json.t) : option string :=
  match Json.getProp msg "content" with
  | None => None
  | Some (Some (JStr c)) => Some (take 500 c)
  | Some (Some c) => Some (take 500 (stringify c))
  | Some None => None
  end.

(** The callback of [messages.slice(-10).map(...)]. *)
Definition summaryPart (msg : Json.t) : option string :=
  match Json.getProp msg "role", messageContent msg with
  | Some r, Some content =>
      let role := interpolate (Json.or r (Some (JStr "unknown"))) in
      Some ("[" ++ role ++ "]: " ++ content)
  | _, _ => None
  end.

Fixpoint summaryParts (msgs : list Json.t) : option (list string) :=
  match msgs with
  | [] => Some []
  | m :: rest =>
      match summaryPart m, summaryParts rest with
      | Some p, Some ps => Some (p :: ps)
      | _, _ => None
      end
  end.

(** The value of [sessionContent] after the inner [try]/[catch]. *)
Definition summarize (transcript : Transcript) : string :=
  match transcript with
  | Parsed t =>
      match Json.getProp t "messages", Json.getProp t "turns" with
      | Some ms, Some ts =>
          match Json.or (Json.or ms ts) (Some (JArr [])) with
          | Some (JArr (m :: rest)) =>
              match summaryParts (sliceLast 10 (m :: rest)) with
              | Some parts => join (nl ++ nl) parts
              | None => EmptyString
              end
          | _ => EmptyString
          end
      | _, _ => EmptyString
      end
  | _ => EmptyString
  end.

Definition sessionRecord (session_id reason sessionContent : string) (now : Z)
  : string :=
  let sessionDate := isoDate now in
  let sessionTime := toISOString now in
  "Session Record (" ++ sessionDate ++ "):" ++ nl ++
  "Date: " ++ sessionDate ++ nl ++
  "Time: " ++ sessionTime ++ nl ++
  "Session ID: " ++ session_id ++ nl ++
  "End Reason: " ++ reason ++ nl ++ nl ++
  "Conversation Summary:" ++ nl ++
  sessionContent.

Definition sessionTag (now : Z) : string :=
  "session_" ++ replaceChar "-" "_" (isoDate now).

Definition sessionEnd (s : Settings) (session_id reason : string)
    (transcript : Transcript) : M Json.t :=
  tryCatch
    (healthResponse ← fetch (mkRequest (COGNEE_URL s ++ "/health") GET [] NoBody
                               (TimeoutAfter 2000));
     if negb (ok healthResponse) then
       ret (JObj [("systemMessage",
                   JStr (warningSign ++ " Session not saved (Cognee offline)"))])
     else
       let sessionContent := summarize transcript in
       let sessionContent :=
         if isEmpty sessionContent
         then "Session " ++ session_id ++ " ended (" ++ reason ++ ")"
         else sessionContent in
       now ← dateNow;
       let formData :=
         [("data", Blob (sessionRecord session_id reason sessionContent now)
                     "text/plain" "session.txt");
          ("datasetName", Field (Server.defaultDataset s));
          ("node_set", Field "sessions");
          ("node_set", Field "conversations");
          ("node_set", Field (sessionTag now))] in
       addResponse ← fetch (mkRequest (COGNEE_URL s ++ "/api/v1/add") POST (bearer s)
                              (FormData formData) (TimeoutAfter 5000));
       if ok addResponse then
         fetch (mkRequest (COGNEE_URL s ++ "/api/v1/cognify") POST
                  (("Content-Type", "application/json") :: bearer s)
                  (JsonBody (JObj [("datasets", strings [Server.defaultDataset s]);
                                   ("temporal_cognify", JBool true)]))
                  (TimeoutAfter 5000));;
         ret (JObj [("systemMessage", JStr (brainSign ++ " Session saved to memory"))])
       else ret (JObj []))
    (fun _ => ret (JObj [])).

End GeminiHooks.

(** ** Configuration loading ([config.js] and [config.ts]) *)

Module Config.
Import Js Json.

(** A configuration object, used as a map from property names to
    values. *)
Abbreviation Object := (gmap string Json.t).

(** The state of the configuration file. *)
Inductive ConfigFile : Type :=
  | Absent                       (* existsSync is false *)
  | Unreadable                   (* readFileSync throws *)
  | Unparsable                   (* JSON.parse throws *)
  | Valid (userConfig : Json.t). (* JSON.parse returns userConfig *)

Definition existsSync (f : ConfigFile) : bool :=
  match f with Absent => false | _ => true end.

(** [JSON.parse(readFileSync(path, 'utf-8'))] *)
Definition readAndParse (f : ConfigFile) : Eff.Error + Json.t :=
  match f with
  | Valid userConfig => inr userConfig
  | Unparsable => inl (Eff.newSyntaxError "Unexpected token in JSON")
  | _ => inl (Eff.newError "EACCES: permission denied, open")
  end.

Fixpoint indexedFrom {A} (i : Z) (l : list A) : list (string * A) :=
  match l with
  | [] => []
  | x :: r => (numberToString i, x) :: indexedFrom (i + 1) r
  end.

Definition chars (s : string) : list Json.t :=
  map (fun c => JStr (String c EmptyString)) (list_ascii_of_string s).

(** The own enumerable properties that [{ ...v }] copies. *)
Definition ownProperties (v : Json.t) : Object :=
  match v with
  | JObj fields => list_to_map fields
  | JArr items => list_to_map (indexedFrom 0 items)
  | JStr s => list_to_map (indexedFrom 0 (chars s))
  | _ => ∅
  end.

(** [{ ...a, ...b }]: the properties of [b] override those of [a]. *)
Definition spread (a b : Object) : Object := b ∪ a.

Definition defaultKeywords : Json.t := strings Trigger.defaultKeywordPatterns.

(** [loadConfig()], given the defaults of the adapter.  The [inl] case
    is an exception leaving the function. *)
Definition loadConfig (DEFAULT_CONFIG : Object) (file : ConfigFile)
  : Eff.Error + Object :=
  let body : Eff.Error + option Object :=
    if existsSync file then
      match readAndParse file with
      | inr userConfig => inr (Some (spread DEFAULT_CONFIG (ownProperties userConfig)))
      | inl e => inl e
      end
    else inr None in
  match body with
  | inr (Some config) => inr config
  | inr None => inr DEFAULT_CONFIG
  | inl error => (* catch: report, then fall through *) inr DEFAULT_CONFIG
  end.

Module Gemini.

Definition DEFAULT_CONFIG : Object :=
  list_to_map
    [("cogneeUrl", JStr "http://localhost:8000");
     ("datasetName", JStr "default_user");
     ("similarityThreshold", JReal "0.7");
     ("maxMemories", JNum 5);
     ("keywordPatterns", defaultKeywords);
     ("injection", JObj [("searchType", JStr "CHUNKS");
                         ("topK", JNum 3);
                         ("timeout", JNum 2000)])].

Definition loadConfig : ConfigFile -> Eff.Error + Object :=
  Config.loadConfig DEFAULT_CONFIG.

End Gemini.

Module OpenCode.

Definition DEFAULT_CONFIG : Object :=
  list_to_map
    [("cogneeUrl", JStr "http://localhost:8000");
     ("similarityThreshold", JReal "0.7");
     ("maxMemories", JNum 5);
     ("keywordPatterns", defaultKeywords);
     ("compaction", JObj [("auto", JBool false); ("prune", JBool true)]);
     ("injection", JObj [("searchType", JStr "CHUNKS"); ("topK", JNum 3)])].

Definition loadConfig : ConfigFile -> Eff.Error + Object :=
  Config.loadConfig DEFAULT_CONFIG.

End OpenCode.

End Config.

(** ** The OpenCode adapter: the read operations of [services/client.ts] *)

Module ClientReads.
Import Js Eff OpenCode OpenCode.CogneeClient.



End ClientReads.

(** ** The Gemini adapter: [scripts/session-start.js] *)

Module GeminiStart.
Import Js Eff Json Gemini GeminiHooks.

Definition systemMessage (text : string) : Json.t :=
  JObj [("systemMessage", JStr text)].

(** [main()]: the object the hook prints. *)
Definition sessionStart (s : Settings) (config : HookConfig) : M Json.t :=
  tryCatch
    (healthResponse ← fetch (mkRequest (COGNEE_URL s ++ "/health") GET [] NoBody
                               (TimeoutAfter 3000));
     if negb (ok healthResponse) then
       ret (systemMessage (warningSign ++ " Cognee memory unavailable"))
     else
       searchResponse ←
         fetch (mkRequest (COGNEE_URL s ++ "/api/v1/search") POST
                  (("Content-Type", "application/json") :: bearer s)
                  (JsonBody (JObj [("query", JStr "recent user preferences decisions learnings");
                                   ("search_type", JStr (injectionSearchType config));
                                   ("top_k", JNum (injectionTopK config))]))
                  (TimeoutAfter (injectionTimeout config)));
       if negb (ok searchResponse) then
         ret (systemMessage (brainSign ++ " Cognee memory connected"))
       else
         memories ← responseJson searchResponse;
         match memories with
         | JArr (m :: ms) =>
             parts ← contextParts (slice0 5 (m :: ms));
             ret (JObj [("systemMessage",
                         JStr (brainSign ++ " Loaded "
                               ++ numberToString (Z.of_nat (List.length (m :: ms)))
                               ++ " memories"));
                        ("hookSpecificOutput",
                         JObj [("hookEventName", JStr "SessionStart");
                               ("additionalContext", JStr (rememberedContext parts))])])
         | _ =>
             ret (systemMessage (brainSign ++ " Cognee memory ready (no prior memories)"))
         end)
    (fun _ =>
       ret (systemMessage (warningSign ++ " Cognee memory offline - memories not loaded"))).

End GeminiStart.

(** ** Creating the configuration file ([ensureConfig], [ensureConfigDir]) *)

Module ConfigFiles.
Import Js Json Config.

(** The configuration directory and file, and what the file system
    does when asked to create them: [mkdirSync] and [writeFileSync]
    succeed, or throw (no permission, a path component that is not a
    directory, a full disk, ...). *)
Record Disk : Type := mkDisk {
  dirExists : bool;
  file : ConfigFile;
  mkdirFails : option Eff.Error;
  writeFails : option Eff.Error;
}.

(** [mkdirSync(dir, { recursive: true })] *)
Definition mkdirSync (d : Disk) : Eff.Error + Disk :=
  match mkdirFails d with
  | Some e => inl e
  | None => inr (mkDisk true (file d) (mkdirFails d) (writeFails d))
  end.

(** [writeFileSync(path, JSON.stringify(defaults, null, 2), 'utf-8')]:
    when it succeeds the file parses to the object that was written. *)
Definition writeFileSync (defaults : list (string * Json.t)) (d : Disk)
  : Eff.Error + Disk :=
  match writeFails d with
  | Some e => inl e
  | None =>
      if dirExists d
      then inr (mkDisk true (Valid (JObj defaults)) (mkdirFails d) (writeFails d))
      else inl (Eff.newError "ENOENT: no such file or directory, open")
  end.

(** [ensureConfig()] / [ensureConfigDir()], given the fields of the
    adapter's [DEFAULT_CONFIG]. *)
Definition ensureConfig (defaults : list (string * Json.t)) (d : Disk)
  : Eff.Error + Disk :=
  match (if negb (dirExists d) then mkdirSync d else inr d) with
  | inl e => inl e
  | inr d1 =>
      if negb (existsSync (file d1)) then writeFileSync defaults d1 else inr d1
  end.

(** The fields of the two [DEFAULT_CONFIG] objects, in source order. *)
Definition geminiDefaults : list (string * Json.t) :=
  [("cogneeUrl", JStr "http://localhost:8000");
   ("datasetName", JStr "default_user");
   ("similarityThreshold", JReal "0.7");
   ("maxMemories", JNum 5);
   ("keywordPatterns", defaultKeywords);
   ("injection", JObj [("searchType", JStr "CHUNKS");
                       ("topK", JNum 3);
                       ("timeout", JNum 2000)])].

Definition opencodeDefaults : list (string * Json.t) :=
  [("cogneeUrl", JStr "http://localhost:8000");
   ("similarityThreshold", JReal "0.7");
   ("maxMemories", JNum 5);
   ("keywordPatterns", defaultKeywords);
   ("compaction", JObj [("auto", JBool false); ("prune", JBool true)]);
   ("injection", JObj [("searchType", JStr "CHUNKS"); ("topK", JNum 3)])].

End ConfigFiles.

(** ** Notions used to state the properties *)

Module Spec.
Import Js Json Eff.

(** A user file that gives [injection] with [topK] only. *)
Definition partialInjection : Json.t :=
  JObj [("injection", JObj [("topK", JNum 7)])].

(** *** Keywords and code spans of a raw text *)

Fixpoint backtickFree (s : string) : bool :=
  match s with
  | EmptyString => true
  | String c r => negb (Ascii.eqb c Trigger.backtick) && backtickFree r
  end.

(** The character before offset [i] of [s]. *)
Definition charBefore (s : string) (i : nat) : option ascii :=
  match i with O => None | S j => String.get j s end.

(** A keyword occurs in [s] at offset [i] as a whole word, ignoring
    case. *)
Definition occursAt (keywordPatterns : list string) (s : string) (i : nat)
  : bool :=
  Trigger.matchAt (Trigger.alternatives keywordPatterns) (charBefore s i) (drop i s).

Definition wordAt (k s : string) (i : nat) : bool :=
  Trigger.matchAt [k] (charBefore s i) (drop i s).

(** The occurrences of the keywords in [s]: offsets and keywords. *)
Definition occurrences (keywordPatterns : list string) (s : string)
  : list (nat * string) :=
  List.filter (fun ik => wordAt (snd ik) s (fst ik))
    (list_prod (seq 0 (S (String.length s))) (Trigger.alternatives keywordPatterns)).

(** Which characters a global replacement deletes: the companion of
    [Trigger.replaceFrom]. *)
Fixpoint deletedFrom (pattern : string -> option nat) (skip : nat)
    (s : string) : list bool :=
  match s with
  | EmptyString => []
  | String c r =>
      match skip with
      | S k => true :: deletedFrom pattern k r
      | O => match pattern s with
             | Some (S n) => true :: deletedFrom pattern n r
             | _ => false :: deletedFrom pattern O r
             end
      end
  end.

Fixpoint mergeMasks (first second : list bool) : list bool :=
  match first with
  | [] => []
  | true :: r => true :: mergeMasks r second
  | false :: r =>
      match second with
      | b :: r2 => b :: mergeMasks r r2
      | [] => false :: mergeMasks r []
      end
  end.

(** The characters of [text] that lie in a fenced or an inline code
    span, as [removeCodeBlocks] finds the spans. *)
Definition codeMask (text : string) : list bool :=
  mergeMasks
    (deletedFrom Trigger.CODE_BLOCK_PATTERN O text)
    (deletedFrom Trigger.INLINE_CODE_PATTERN O
       (Trigger.replaceAll Trigger.CODE_BLOCK_PATTERN text)).

Definition insideCode (text : string) (i n : nat) : bool :=
  forallb (fun b => b) (firstn n (skipn i (codeMask text))).

Definition outsideCode (text : string) (i n : nat) : bool :=
  forallb negb (firstn n (skipn i (codeMask text))).

(** Every occurrence of a keyword in [text] lies inside a code span. *)
Definition onlyInsideCode (keywordPatterns : list string) (text : string)
  : bool :=
  forallb (fun ik => insideCode text (fst ik) (String.length (snd ik)))
    (occurrences keywordPatterns text).

(** Some occurrence of a keyword in [text] lies outside the code spans. *)
Definition someOutsideCode (keywordPatterns : list string) (text : string)
  : bool :=
  existsb (fun ik => outsideCode text (fst ik) (String.length (snd ik)))
    (occurrences keywordPatterns text).

(** The trigger as the specification words it. *)
Definition triggerByPosition (keywordPatterns : list string) : Prop :=
  (forall text, onlyInsideCode keywordPatterns text = true ->
                Trigger.detectMemoryKeyword keywordPatterns text = false)
  /\ (forall text, someOutsideCode keywordPatterns text = true ->
                   Trigger.detectMemoryKeyword keywordPatterns text = true).

(** *** Time bounds *)

(** The first value and the log of a run from an empty log. *)
Definition outcome {A} (m : M A) (env : Env) : Result A := fst (run m env).
Definition requests {A} (m : M A) (env : Env) : list Request :=
  fetches (snd (run m env)).

(** The remote side never answers. *)
Definition silent (env : Env) : Prop := forall n req, net env n req = Silent.

Definition silentNet : Net := fun _ _ => Silent.

(** The reply does not arrive before [ms] milliseconds have passed. *)
Definition late (reply : Reply) (ms : Z) : Prop :=
  match reply with
  | Silent => True
  | Responds t _ | Fails t _ => ms <= t
  end.

(** The request of the health probe for a base URL. *)
Definition healthRequest (url : string) : Request :=
  mkRequest (url ++ "/health") GET [] NoBody NoSignal.

(** *** Search payloads *)

Definition stringOrObject (item : Json.t) : bool :=
  match item with JStr _ | JObj _ => true | _ => false end.

(** The three shapes of a search reply: a bare array of strings or
    objects, an object with such an array under [results], a bare
    string. *)
Definition searchPayload (data : Json.t) : bool :=
  match data with
  | JArr items => forallb stringOrObject items
  | JStr _ => true
  | JObj fields =>
      match assoc "results" fields with
      | Some (JArr items) => forallb stringOrObject items
      | _ => false
      end
  | _ => false
  end.

(** The first of [content], [text] and [result] that is truthy. *)
Definition firstText (fields : list (string * Json.t)) : Json.value :=
  Json.or (Json.or (assoc "content" fields) (assoc "text" fields))
          (assoc "result" fields).

(** The record an array item stands for in the OpenCode client: a string
    is its own content, an object contributes its first truthy text
    with its metadata (or itself), an object without text nothing. *)
Definition normalItem (item : Json.t) : list OpenCode.SearchResult :=
  match item with
  | JStr _ => [OpenCode.mkSearchResult (Some item) None]
  | JObj fields =>
      if truthy (firstText fields)
      then [OpenCode.mkSearchResult (firstText fields)
              (Json.or (assoc "metadata" fields) (Some item))]
      else []
  | _ => []
  end.

(** The flat, ordered sequence a payload stands for. *)
Definition normalized (data : Json.t) : list OpenCode.SearchResult :=
  match data with
  | JArr items => flat_map normalItem items
  | JStr _ => [OpenCode.mkSearchResult (Some data) None]
  | JObj fields =>
      match assoc "results" fields with
      | Some (JArr items) => flat_map normalItem items
      | _ => []
      end
  | _ => []
  end.

(** The record an array item stands for in the Gemini server. *)
Definition memoryOf (item : Json.t) : Gemini.Server.Memory :=
  match item with
  | JStr _ => Gemini.Server.mkMemory (Some item)
  | JObj fields =>
      Gemini.Server.mkMemory
        (Json.or (firstText fields) (Some (JStr (stringify item))))
  | _ => Gemini.Server.mkMemory None
  end.

(** A reply with a success status and a JSON body. *)
Definition jsonReply (data : Json.t) : Response :=
  mkResponse 200 (stringify data) (Some data).

(** A server that answers every request with [{ results: ["a"] }]. *)
Definition wrappingNet : Net :=
  fun _ _ => Responds 5 (jsonReply (JObj [("results", JArr [JStr "a"])])).

(** A server that answers the first request with [{ results: ["a"] }]
    and every later one with [["b"]]. *)
Definition wrapThenArrayNet : Net :=
  fun n _ =>
    match n with
    | O => Responds 5 (jsonReply (JObj [("results", JArr [JStr "a"])]))
    | _ => Responds 5 (jsonReply (JArr [JStr "b"]))
    end.

Definition localSettings : Gemini.Settings :=
  Gemini.mkSettings "http://localhost:8000" None None.

Definition localClient : OpenCode.CogneeClient.t :=
  OpenCode.CogneeClient.new "http://localhost:8000" None.

(** *** Tool calls *)

(** The call lacks the parameter its action requires: no query for
    search or timeline, no content for add ([!x]: absent or empty). *)
Definition lacksRequired (args : ToolArgs.Args) : bool :=
  let action := ToolArgs.orString (ToolArgs.action args) "help" in
  ((String.eqb action "search" || String.eqb action "timeline")
   && ToolArgs.missing (ToolArgs.query args))
  || (String.eqb action "add" && ToolArgs.missing (ToolArgs.content args)).

(** A structured failure payload with the given error message. *)
Definition failurePayload (payload : Json.t) (error : string) : Prop :=
  getProp payload "success" = Some (Some (JBool false))
  /\ getProp payload "error" = Some (Some (JStr error)).

(** A server that refuses every connection. *)
Definition refusingNet : Net :=
  fun _ _ => Fails 1 (mkError TypeError "TypeError" "fetch failed" None
                        (Some "ECONNREFUSED")).

Definition searchArgs (query : string) : ToolArgs.Args :=
  ToolArgs.mkArgs (Some "search") (Some query) None None None None.

(** *** Sessions of the OpenCode plugin *)

(** The user message a [chat.message] call carries: the text parts
    joined, unless there is none or the text is blank. *)
Definition userText (output : Plugin.Output) : option string :=
  match List.filter (fun p => String.eqb (Plugin.partType p) "text")
          (Plugin.parts output) with
  | [] => None
  | textParts =>
      let userMessage := join nl (map Plugin.partText textParts) in
      if isEmpty (trim userMessage) then None else Some userMessage
  end.

(** The store after a message has been tracked. *)
Definition tracked (sessionID userMessage : string) (now : Z)
    (st : Plugin.State) : Plugin.State :=
  let state :=
    match Plugin.mapGet sessionID (Plugin.conversations st) with
    | Some state => state
    | None => Plugin.mkSessionState [] now
    end in
  Plugin.mkState
    (Plugin.mapSet sessionID
       (Plugin.mkSessionState
          (Plugin.messages state ++ [Plugin.mkMessage "user" userMessage now])%list
          (Plugin.startTime state))
       (Plugin.conversations st))
    (if bool_decide (sessionID ∈ Plugin.injectedSessions st)
     then Plugin.injectedSessions st
     else {[ sessionID ]} ∪ Plugin.injectedSessions st).





(** A server that accepts everything and knows no memories. *)
Definition okNet : Net := fun _ _ => Responds 1 (jsonReply (JArr [])).

(** A user message with one text part. *)
Definition textOutput (text : string) : Plugin.Output :=
  Plugin.mkOutput "msg" [Plugin.mkPart "part" "ses" "msg" "text" text false].

(** *** Flushing a session *)

(** The service answers every request with a success status, in less
    than two seconds (the shortest deadline of the flush paths). *)
Definition healthy (net : Net) : Prop :=
  forall n req, exists t r, net n req = Responds t r /\ ok r = true /\ t < 2000.

(** The node sets an upload request carries. *)
Definition nodeSetsOf (req : Request) : list string :=
  match reqBody req with
  | FormData entries =>
      omap (fun e => match e with
                     | ("node_set", Field v) => Some v
                     | _ => None
                     end) entries
  | _ => []
  end.

(** The uploads among the requests of a log. *)
Definition uploads (log : list Event) : list Request :=
  List.filter (fun r => includes "/api/v1/add" (reqUrl r)) (fetches log).

(** The tag of the day of a time value. *)
Definition dateTag (ms : Z) : string :=
  "session_" ++ replaceChar "-" "_" (isoDate ms).

(** The upload of the OpenCode plugin for a session. *)
Definition uploadRequest (config : Plugin.Config) (document : string)
    (tag : string) : Request :=
  mkRequest (OpenCode.CogneeClient.baseUrl (Plugin.cogneeClient config)
             ++ "/api/v1/add") POST []
    (FormData [("data", Blob document "text/plain" "memory.txt");
               ("datasetName", Field "default_user");
               ("node_set", Field "sessions");
               ("node_set", Field "conversations");
               ("node_set", Field tag)])
    NoSignal.

Definition cognifyRequest (config : Plugin.Config) : Request :=
  mkRequest (OpenCode.CogneeClient.baseUrl (Plugin.cogneeClient config)
             ++ "/api/v1/cognify") POST [("Content-Type", "application/json")]
    (JsonBody (JObj [("datasets", JArr [JStr "default_user"]);
                     ("temporal_cognify", JBool true)]))
    NoSignal.

(** A request to the search endpoint of the plugin's client. *)
Definition isSearch (config : Plugin.Config) (r : Request) : Prop :=
  reqUrl r = OpenCode.CogneeClient.baseUrl (Plugin.cogneeClient config)
             ++ "/api/v1/search".

(** The lines of the plugin's session record above the conversation. *)
Definition recordHeader (sessionId : string) (count startTime now : Z) : string :=
  "Session Record (" ++ isoDate startTime ++ "):" ++ nl ++
  "Date: " ++ isoDate startTime ++ nl ++
  "Time: " ++ toISOString startTime ++ nl ++
  "Session ID: " ++ sessionId ++ nl ++
  "Duration: " ++ numberToString (roundDiv (now - startTime) 60000) ++ " minutes" ++ nl ++
  "Message Count: " ++ numberToString count
  ++ nl ++ nl ++
  "Events and Conversation:" ++ nl.

(** The specification's rule for the plugin: whenever a session of two
    messages is flushed, every upload carries the tag of the flush
    date. *)
Definition taggedWithFlushDate (config : Plugin.Config) : Prop :=
  forall sessionID m1 m2 net t1 t2 t3 st1 o1 log1 st2 o2 log2 st3 log3,
    healthy net -> t1 <= t2 <= t3 ->
    Plugin.chatMessage config sessionID Plugin.initialState (textOutput m1)
      (mkEnv net t1) [] = (Ret (st1, o1), log1) ->
    Plugin.chatMessage config sessionID st1 (textOutput m2)
      (mkEnv net t2) log1 = (Ret (st2, o2), log2) ->
    Plugin.event config "session.idle" st2 (mkEnv net t3) log2 = (Ret st3, log3) ->
    Forall (fun req => In (dateTag t3) (nodeSetsOf req)) (uploads log3).

(** A transcript file with two user messages. *)
Definition userMessage (text : string) : Json.t :=
  JObj [("role", JStr "user"); ("content", JStr text)].

Definition twoMessages (m1 m2 : string) : GeminiHooks.Transcript :=
  GeminiHooks.Parsed (JObj [("messages", JArr [userMessage m1; userMessage m2])]).

(** The upload of the Gemini session-end hook. *)
Definition geminiUpload (s : Gemini.Settings) (document tag : string) : Request :=
  mkRequest (Gemini.COGNEE_URL s ++ "/api/v1/add") POST (Gemini.bearer s)
    (FormData [("data", Blob document "text/plain" "session.txt");
               ("datasetName", Field (Gemini.Server.defaultDataset s));
               ("node_set", Field "sessions");
               ("node_set", Field "conversations");
               ("node_set", Field tag)])
    (TimeoutAfter 5000).

Definition geminiCognify (s : Gemini.Settings) : Request :=
  mkRequest (Gemini.COGNEE_URL s ++ "/api/v1/cognify") POST
    (("Content-Type", "application/json") :: Gemini.bearer s)
    (JsonBody (JObj [("datasets", JArr [JStr (Gemini.Server.defaultDataset s)]);
                     ("temporal_cognify", JBool true)]))
    (TimeoutAfter 5000).

Definition geminiHealth (s : Gemini.Settings) : Request :=
  mkRequest (Gemini.COGNEE_URL s ++ "/health") GET [] NoBody (TimeoutAfter 2000).

(** One second before and one second after midnight (UTC) of
    2026-02-02. *)
Definition beforeMidnight : Z := 1769990399000.
Definition afterMidnight : Z := 1769990401000.

End Spec.

(** ** Further notions used to state properties *)

Module Spec2.
Import Js Json Eff Spec.

(** The array a search payload carries, if any. *)
Definition payloadItems (data : Json.t) : list Json.t :=
  match data with
  | JArr items => items
  | JObj fields =>
      match assoc "results" fields with
      | Some (JArr items) => items
      | _ => []
      end
  | _ => []
  end.

Definition isNull (v : Json.t) : bool :=
  match v with JNull => true | _ => false end.

(** Neither the payload nor an item of its array is [null]. *)
Definition nullFree (data : Json.t) : bool :=
  negb (isNull data) && forallb (fun i => negb (isNull i)) (payloadItems data).

(** What a write operation of the OpenCode client does with the reply
    to its request. *)
Definition writeOutcome (what : string) (reply : Reply)
  : Result OpenCode.AddResponse :=
  match reply with
  | Silent => Pending
  | Fails _ _ =>
      Throw (OpenCode.newCogneeUnavailableError "Cannot connect to Cognee server")
  | Responds _ r =>
      if ok r then Ret (OpenCode.mkAddResponse true None)
      else Throw (OpenCode.newCogneeAPIError (what ++ ": " ++ text r) (status r))
  end.

(** What a read operation of the OpenCode client does with the reply,
    [decode] being what it makes of the parsed body. *)
Definition readOutcome {A} (what : string) (decode : Json.t -> A)
    (reply : Reply) : Result A :=
  match reply with
  | Silent => Pending
  | Fails _ _ =>
      Throw (OpenCode.newCogneeUnavailableError "Cannot connect to Cognee server")
  | Responds _ r =>
      if ok r then
        match json r with
        | Some data => Ret (decode data)
        | None => Throw (newSyntaxError "Unexpected token in JSON")
        end
      else Throw (OpenCode.newCogneeAPIError (what ++ ": " ++ text r) (status r))
  end.

Definition arrayOrEmpty (data : Json.t) : list Json.t :=
  match data with JArr items => items | _ => [] end.

(** The upload the OpenCode client sends. *)
Definition uploadOf (this : OpenCode.CogneeClient.t) (content dataset : string)
    (tags : list string) : Request :=
  mkRequest (OpenCode.CogneeClient.baseUrl this ++ "/api/v1/add") POST
    (OpenCode.CogneeClient.authorization (OpenCode.CogneeClient.apiToken this))
    (FormData ([("data", Blob content "text/plain" "memory.txt");
                ("datasetName", Field dataset)]
               ++ map (fun t => ("node_set", Field t)) tags)%list)
    NoSignal.

(** A GET of the OpenCode client. *)
Definition getOf (this : OpenCode.CogneeClient.t) (path : string) : Request :=
  mkRequest (OpenCode.CogneeClient.baseUrl this ++ path) GET
    (OpenCode.CogneeClient.getHeaders this) NoBody NoSignal.

(** A JSON POST of the OpenCode client without a deadline. *)
Definition postOf (this : OpenCode.CogneeClient.t) (path : string)
    (body : Json.t) : Request :=
  mkRequest (OpenCode.CogneeClient.baseUrl this ++ path) POST
    (OpenCode.CogneeClient.getHeaders this) (JsonBody body) NoSignal.

Definition isString (v : Json.t) : bool :=
  match v with JStr _ => true | _ => false end.

Definition present (body : Json.t) (key : string) : bool :=
  match getProp body key with
  | Some (Some _) => true
  | _ => false
  end.

(** *** The Gemini server *)

(** A request made through [cogneeRequest]. *)
Definition helperRequest (s : Gemini.Settings) (endpoint : string)
    (method : Method) (body : Body) : Request :=
  mkRequest (Gemini.COGNEE_URL s ++ endpoint) method
    (("Content-Type", "application/json") :: Gemini.bearer s) body NoSignal.

Definition unavailableMessage : string :=
  "Cognee server unavailable. Start it with: uv run python -m cognee.api.client".

Definition refused (e : Error) : bool :=
  match errCauseCode e with
  | Some code => String.eqb code "ECONNREFUSED"
  | None => false
  end.

(** The error a transport failure becomes in [cogneeRequest]. *)
Definition helperError (e : Error) : Error :=
  if refused e then newError unavailableMessage else e.

(** What [cogneeRequest] does with the reply to its request. *)
Definition helperOutcome (reply : Reply) : Result Json.t :=
  match reply with
  | Silent => Pending
  | Fails _ e => Throw (helperError e)
  | Responds _ r =>
      if ok r then
        match json r with
        | Some data => Ret data
        | None => Throw (newSyntaxError "Unexpected token in JSON")
        end
      else Throw (newError ("Cognee API error (" ++ numberToString (status r)
                            ++ "): " ++ text r))
  end.

(** The failure payload of the Gemini tool for an error message. *)
Definition geminiFailure (message : string) : Json.t :=
  JObj ([("success", JBool false); ("error", JStr message)]
        ++ (if includes "unavailable" message
            then [("hint", JStr "Start Cognee with: uv run python -m cognee.api.client")]
            else []))%list.

(** The upload the Gemini server sends. *)
Definition geminiUploadOf (s : Gemini.Settings) (content dataset : string)
    (tags : list string) : Request :=
  mkRequest (Gemini.COGNEE_URL s ++ "/api/v1/add") POST (Gemini.bearer s)
    (FormData ([("data", Blob content "text/plain" "memory.txt");
                ("datasetName", Field dataset)]
               ++ map (fun t => ("node_set", Field t)) tags)%list)
    NoSignal.

Definition geminiCognifyOf (s : Gemini.Settings) (dataset : string) : Request :=
  helperRequest s "/api/v1/cognify" POST
    (JsonBody (JObj [("datasets", JArr [JStr dataset]);
                     ("temporal_cognify", JBool true)])).

(** Arguments of an add call with content that is not empty. *)
Definition addArgs (c : ascii) (content : string) (tags : option string)
  : ToolArgs.Args :=
  ToolArgs.mkArgs (Some "add") None (Some (String c content)) tags None None.

(** Arguments of a call with a query that is not empty. *)
Definition queryArgs (action : string) (c : ascii) (query : string)
    (searchType : option string) (topK : option Z) : ToolArgs.Args :=
  ToolArgs.mkArgs (Some action) (Some (String c query)) None None searchType topK.

(** The action a call selects is none of the four that use the network. *)
Definition offline (action : string) : bool :=
  negb (String.eqb action "search" || String.eqb action "timeline"
        || String.eqb action "add" || String.eqb action "list").

Definition listArgs : ToolArgs.Args :=
  ToolArgs.mkArgs (Some "list") None None None None None.

(** The [{ id, name }] summary of a dataset descriptor. *)
Definition summaryOf (d : Json.t) : Json.t :=
  match d with
  | JObj fields => object [("id", assoc "id" fields); ("name", assoc "name" fields)]
  | _ => JObj []
  end.

(** Every request is answered, in time [t], with a success status and
    the JSON value [v]. *)
Definition answers (env : Env) (t : Z) (v : Json.t) : Prop :=
  forall n req, net env n req = Responds t (jsonReply v).

Definition answeringNet (v : Json.t) : Net := fun _ _ => Responds 1 (jsonReply v).

Definition isArrayOrNull (v : Json.t) : bool :=
  match v with JArr _ | JNull => true | _ => false end.

Definition nullRead (key : string) : Error :=
  newTypeError ("Cannot read properties of null (reading '" ++ key ++ "')").

Definition nonNullItems (items : list Json.t) : bool :=
  forallb (fun i => negb (isNull i)) items.

(** *** The Gemini hooks *)

(** The response a request with a timeout of [ms] milliseconds gets, if
    one arrives in time. *)
Definition arrived (ms : Z) (reply : Reply) : option Response :=
  match settle (TimeoutAfter ms) reply with
  | Ret r => Some r
  | _ => None
  end.

(** The health probe of a hook. *)
Definition probeRequest (s : Gemini.Settings) (ms : Z) : Request :=
  mkRequest (Gemini.COGNEE_URL s ++ "/health") GET [] NoBody (TimeoutAfter ms).

(** The search of a hook. *)
Definition hookSearch (s : Gemini.Settings) (config : GeminiHooks.HookConfig)
    (query : string) : Request :=
  mkRequest (Gemini.COGNEE_URL s ++ "/api/v1/search") POST
    (("Content-Type", "application/json") :: Gemini.bearer s)
    (JsonBody (JObj [("query", JStr query);
                     ("search_type", JStr (GeminiHooks.injectionSearchType config));
                     ("top_k", JNum (GeminiHooks.injectionTopK config))]))
    (TimeoutAfter (GeminiHooks.injectionTimeout config)).

Definition startQuery : string := "recent user preferences decisions learnings".

(** The text a memory that is not [null] contributes to the context. *)
Definition contextText (m : Json.t) : string :=
  match m with
  | JStr s => s
  | JObj fields =>
      joinItem (Json.or (Json.or (Json.or (assoc "content" fields)
                                          (assoc "text" fields))
                                 (assoc "result" fields))
                        (Some (JStr (stringify m))))
  | _ => stringify m
  end.

(** The context block for the first five memories. *)
Definition contextOf (memories : list Json.t) : string :=
  GeminiHooks.rememberedContext (map contextText (slice0 5 memories)).

(** The context blocks a search reply gives [before-agent.js]. *)
Definition foundContext (reply : option Response) : list string :=
  match reply with
  | Some r =>
      if ok r then
        match json r with
        | Some (JArr (m :: ms)) =>
            if nonNullItems (slice0 5 (m :: ms)) then [contextOf (m :: ms)] else []
        | _ => []
        end
      else []
  | None => []
  end.

(** The object a hook prints for its context parts. *)
Definition hookOutput (event : string) (parts : list string) : Json.t :=
  match parts with
  | [] => JObj []
  | _ =>
      JObj [("hookSpecificOutput",
             JObj [("hookEventName", JStr event);
                   ("additionalContext", JStr (join (nl ++ nl) parts))])]
  end.

Definition blank (prompt : option string) : bool :=
  match prompt with
  | Some p => isEmpty (trim p)
  | None => true
  end.

(** A transcript of messages with a role and a text. *)
Definition transcriptOf (msgs : list (string * string)) : GeminiHooks.Transcript :=
  GeminiHooks.Parsed
    (JObj [("messages",
            JArr (map (fun m => JObj [("role", JStr (fst m));
                                      ("content", JStr (snd m))]) msgs))]).

(** The line of the summary for a message. *)
Definition summaryLine (m : string * string) : string :=
  "[" ++ (if isEmpty (fst m) then "unknown" else fst m) ++ "]: " ++ take 500 (snd m).

(** A message the summary cannot render: reading its role or cutting
    its content throws. *)
Definition unreadable (msg : Json.t) : bool := negb (present msg "content").

Definition savedMessage : Json.t :=
  JObj [("systemMessage", JStr (GeminiHooks.brainSign ++ " Session saved to memory"))].

Definition notSavedMessage : Json.t :=
  JObj [("systemMessage",
         JStr (GeminiHooks.warningSign ++ " Session not saved (Cognee offline)"))].

(** The text the session record carries below its header. *)
Definition recordedContent (session_id reason : string)
    (transcript : GeminiHooks.Transcript) : string :=
  if isEmpty (GeminiHooks.summarize transcript)
  then "Session " ++ session_id ++ " ended (" ++ reason ++ ")"
  else GeminiHooks.summarize transcript.

(** *** The OpenCode plugin *)


(** The nudge a [chat.message] call appends, if any. *)
Definition nudgeFor (config : Plugin.Config) (sessionID : string)
    (output : Plugin.Output) (now : Z) : list Plugin.Part :=
  match userText output with
  | Some text =>
      if Plugin.detectMemoryKeyword config text
      then [Plugin.mkPart ("cognee-nudge-" ++ numberToString now) sessionID
              (Plugin.messageId output) "text" Plugin.MEMORY_NUDGE_MESSAGE true]
      else []
  | None => []
  end.

(** The number of searches a [chat.message] call sends. *)
Definition searchesFor (sessionID : string) (st : Plugin.State)
    (output : Plugin.Output) : nat :=
  match userText output with
  | Some _ => if bool_decide (sessionID ∈ Plugin.injectedSessions st) then 0 else 1
  | None => 0
  end.




(** *** Tags, previews and the configuration file *)

(** The character occurs in the string. *)
Fixpoint mentions (c : ascii) (s : string) : bool :=
  match s with
  | EmptyString => false
  | String a r => Ascii.eqb a c || mentions c r
  end.


(** Only commas and white space. *)
Fixpoint onlySeparators (s : string) : bool :=
  match s with
  | EmptyString => true
  | String a r => (Ascii.eqb a "," || isWhiteSpace a) && onlySeparators r
  end.

End Spec2.

(** ** Notions for statements about every behaviour of the server *)

Module Spec3.
Import Js Json Eff Spec Spec2.

(** What a [fetch] without a signal settles with when the remote side
    behaves as [behaviour]: the response it resolves with, or the error
    it rejects with. *)
Definition transport (behaviour : Reply) : Response + Error :=
  match runtime behaviour with
  | Responds _ r => inl r
  | Fails _ e => inr e
  | Silent => inr fetchFailed
  end.

(** The time at which the promise of a [fetch] settles ([None]: never). *)
Definition settledAt (s : Signal) (reply : Reply) : option Z :=
  match reply, deadline s with
  | Silent, None => None
  | Silent, Some (ms, _) => Some ms
  | Responds t _, None | Fails t _, None => Some t
  | Responds t _, Some (ms, _) | Fails t _, Some (ms, _) => Some (Z.min t ms)
  end.

(** The time a program waits for the requests [reqs], sent one after the
    other, the first of them being request number [n]. *)
Fixpoint waitFrom (network : Net) (n : nat) (reqs : list Request) : option Z :=
  match reqs with
  | [] => Some 0
  | req :: rest =>
      match settledAt (reqSignal req) (network n req), waitFrom network (S n) rest with
      | Some t, Some u => Some (t + u)
      | _, _ => None
      end
  end.

(** The time a run spends waiting for the network. *)
Definition waited {A} (m : M A) (env : Env) : option Z :=
  waitFrom (net env) O (requests m env).



(** [result] is what [cogneeRequest] of the Gemini server gives. *)
Definition requestedAs (behaviour : Reply) (result : Result Json.t) : Prop :=
  match transport behaviour with
  | inl r =>
      if ok r then
        match json r with
        | Some data => result = Ret data
        | None => exists e, result = Throw e /\ errClass e = SyntaxError
        end
      else result
           = Throw (newError ("Cognee API error (" ++ numberToString (status r)
                              ++ "): " ++ text r))
  | inr e => result = Throw (helperError e)
  end.

(** The error is one that reports the memory service as unavailable. *)
Definition reportsUnavailable (e : Error) : Prop :=
  errClass e = CogneeUnavailableError \/ errMessage e = unavailableMessage.

(** The search request of the OpenCode client. *)
Definition searchRequest (this : OpenCode.CogneeClient.t) (query : string)
    (searchType : option string) (topK : option Z) (sessionId : option string)
    (timeoutMs : option Z) : Request :=
  mkRequest (OpenCode.CogneeClient.baseUrl this ++ "/api/v1/search") POST
    (OpenCode.CogneeClient.getHeaders this)
    (JsonBody (OpenCode.CogneeClient.searchBody (JStr query)
                 (default "CHUNKS" searchType) (default 5 topK) sessionId))
    (AbortAfter (default 3000 timeoutMs)).

(** The first search request of the Gemini server. *)
Definition geminiSearchRequest (s : Gemini.Settings) (query : Json.t)
    (searchType : option string) (topK : option Z) (sessionId : option string)
  : Request :=
  helperRequest s "/api/v1/search" POST
    (JsonBody (Gemini.Server.searchRequestBody query
                 (default "GRAPH_COMPLETION" searchType) (default 10 topK)
                 sessionId)).

(** The claim that a search enforces a timeout of [ms] milliseconds:
    whenever the server has not replied by then, the search raises an
    error that reports the service as unavailable. *)
Definition timesOutWithin {A} (search : M A) (ms : Z) : Prop :=
  forall server now,
    (forall n req, late (server n req) ms) ->
    exists e, outcome search (mkEnv (served server) now) = Throw e
              /\ reportsUnavailable e.

(** A server that answers every request after ten seconds. *)
Definition slowNet : Net :=
  fun _ _ => Responds 10000 (jsonReply (JArr [JStr "a"])).

(** *** Keywords *)

(** The characters that a regular expression does not take literally. *)
Definition metaChar (c : ascii) : bool :=
  existsb (Ascii.eqb c) (list_ascii_of_string "\^$.|?*+()[]{}").

(** A keyword that [new RegExp] takes literally.  The trigger is
    modelled for such keywords; the six default ones are among them. *)
Definition plainKeyword (k : string) : Prop :=
  forallb (fun c => negb (metaChar c)) (list_ascii_of_string k) = true.

(** *** The before-agent hook *)

(** The response a request gets, if one arrives before its signal fires
    and before the runtime gives up. *)
Definition answer (req : Request) (behaviour : Reply) : option Response :=
  match settle (reqSignal req) (runtime behaviour) with
  | Ret r => Some r
  | _ => None
  end.

(** The search [before-agent.js] sends for a prompt, if its
    configuration lets it send one: [injection] must be an object whose
    [timeout] is an integer that [AbortSignal.timeout] accepts. *)
Definition agentSearch (s : Gemini.Settings) (config : GeminiHooks.Agent.Config)
    (prompt : string) : option Request :=
  match GeminiHooks.Agent.injection config with
  | JObj fields =>
      match assoc "timeout" fields with
      | Some (JNum ms) =>
          if (0 <=? ms) && (ms <=? 4294967295) then
            Some (mkRequest (Gemini.COGNEE_URL s ++ "/api/v1/search") POST
                    (("Content-Type", "application/json") :: Gemini.bearer s)
                    (JsonBody (object [("query", Some (JStr prompt));
                                       ("search_type", assoc "searchType" fields);
                                       ("top_k", assoc "topK" fields)]))
                    (TimeoutAfter ms))
          else None
      | _ => None
      end
  | _ => None
  end.

(** *** Tags *)


(** *** The loaded configuration *)

(** The index that a property name denotes in an array (or a string) of
    [n] elements, if any. *)
Definition indexKey (n : nat) (key : string) : option nat :=
  List.find (fun i => String.eqb (numberToString (Z.of_nat i)) key) (seq 0 n).

(** [config] is the defaults [D] overridden by the top-level properties
    of the parsed file: the fields of an object, the elements of an
    array under their indices, the characters of a string under
    theirs, nothing for any other value. *)
Definition overrides (D config : gmap string Json.t) (userConfig : Json.t) : Prop :=
  forall key,
    config !! key =
    match userConfig with
    | JObj fields =>
        match assoc key fields with
        | Some v => Some v
        | None => D !! key
        end
    | JArr items =>
        match indexKey (List.length items) key with
        | Some i => nth_error items i
        | None => D !! key
        end
    | JStr s =>
        match indexKey (String.length s) key with
        | Some i => option_map (fun c => JStr (String c EmptyString)) (String.get i s)
        | None => D !! key
        end
    | _ => D !! key
    end.

(** [load] is a total, shallow configuration loader over the defaults
    [D]. *)
Definition shallowLoad (load : Config.ConfigFile -> Error + gmap string Json.t)
    (D : gmap string Json.t) : Prop :=
  load Config.Absent = inr D
  /\ load Config.Unreadable = inr D
  /\ load Config.Unparsable = inr D
  /\ forall userConfig,
       exists config,
         load (Config.Valid userConfig) = inr config
         /\ overrides D config userConfig.

(** A user file that sets two top-level keys. *)
Definition twoKeys : Json.t :=
  JObj [("cogneeUrl", JStr "http://memory:9000"); ("maxMemories", JNum 2)].

End Spec3.

(** ** Code spans and whole words, by their shape

    What the two regular expressions of [removeCodeBlocks] and the
    keyword expression stand for, said over the decomposition of the
    text and not by scanning it. *)

Module Shape.
Import Js Spec.

Definition fence : string := "```".
Definition tick : string := "`".

(** Three backticks in a row occur in [s]. *)
Definition hasFence (s : string) : Prop := exists a b, s = a ++ fence ++ b.

(** A fenced block occurs in [s]: a fence and a later one. *)
Definition hasBlock (s : string) : Prop :=
  exists a b c, s = a ++ fence ++ b ++ fence ++ c.

(** Deleting the fenced blocks from left to right.  A block opens at
    the first fence of the text ([p], with the two backticks that
    follow it, holds no fence) and closes at the first fence after the
    opening one; what stands before the block is kept and the deletion
    goes on behind the closing fence.  A text without a block is kept. *)
Inductive fencesRemoved : string -> string -> Prop :=
| fr_rest s : ~ hasBlock s -> fencesRemoved s s
| fr_block p body rest out :
    ~ hasFence (p ++ "``") -> ~ hasFence (body ++ "``") ->
    fencesRemoved rest out ->
    fencesRemoved (p ++ fence ++ body ++ fence ++ rest) (p ++ out).

(** An inline span: one backtick, at least one character that is not a
    backtick, one backtick. *)
Definition isSpan (s : string) : Prop :=
  exists body, body <> EmptyString /\ backtickFree body = true
    /\ s = tick ++ body ++ tick.

Definition hasSpan (s : string) : Prop :=
  exists a w b, isSpan w /\ s = a ++ w ++ b.

(** Deleting the inline spans from left to right: the first span of the
    text goes ([p], with the backtick that follows it, holds no span),
    what stands before it is kept and the deletion goes on behind it. *)
Inductive inlineRemoved : string -> string -> Prop :=
| ir_rest s : ~ hasSpan s -> inlineRemoved s s
| ir_span p body rest out :
    ~ hasSpan (p ++ tick) ->
    body <> EmptyString -> backtickFree body = true ->
    inlineRemoved rest out ->
    inlineRemoved (p ++ tick ++ body ++ tick ++ rest) (p ++ out).

(** The text left of [text]: fenced blocks deleted first, inline spans
    of the result deleted next. *)
Definition stripped (text out : string) : Prop :=
  exists mid, fencesRemoved text mid /\ inlineRemoved mid out.

(** The last and the first character of a text. *)
Fixpoint lastOf (s : string) : option ascii :=
  match s with
  | EmptyString => None
  | String c r => match lastOf r with Some d => Some d | None => Some c end
  end.

Definition firstOf (s : string) : option ascii :=
  match s with String c _ => Some c | EmptyString => None end.

Definition wordy (o : option ascii) : bool :=
  match o with Some c => isWordChar c | None => false end.

(** A word starts or ends between [before] and [after]: a word
    character on one side only. *)
Definition boundary (before after : string) : Prop :=
  wordy (lastOf before) <> wordy (firstOf after).

(** A text with the case of its letters folded away. *)
Fixpoint caseFolded (s : string) : string :=
  match s with
  | EmptyString => EmptyString
  | String c r => String (canonicalize c) (caseFolded r)
  end.

(** [k] stands in [text] as a whole word, whatever the case of its
    letters: some stretch [w] of the text is [k] up to case, with a
    word boundary before it and one behind it. *)
Definition wholeWord (k text : string) : Prop :=
  exists pre w post,
    text = pre ++ w ++ post
    /\ caseFolded w = caseFolded k
    /\ boundary pre (w ++ post)
    /\ boundary (pre ++ w) post.

(** The keywords the trigger looks for: the configured ones, and the
    empty word when none is configured. *)
Definition soughtBy (keywordPatterns : list string) (k : string) : Prop :=
  In k keywordPatterns \/ (keywordPatterns = [] /\ k = EmptyString).

End Shape.

(** * Properties *)

(** ** Strings *)

#[local] Arguments String.append !_ _ / : simpl nomatch.

Section StringFacts.
Import Js.

Lemma append_nil_r (s : string) : s ++ EmptyString = s.
Proof. induction s; simpl; congruence. Qed.

Lemma append_assoc (a b c : string) : (a ++ b) ++ c = a ++ (b ++ c).
Proof. induction a; simpl; congruence. Qed.

Lemma length_append (a b : string) :
  String.length (a ++ b) = (String.length a + String.length b)%nat.
Proof. induction a; simpl; congruence. Qed.





End StringFacts.

(** ** Normalising search replies *)

Section SearchResults.
Import Js Json Eff Spec.

Lemma extractItem_normal item :
  stringOrObject item = true ->
  OpenCode.CogneeClient.extractItem item = inr (normalItem item).
Proof.
  destruct item as [| | | |s| |fields]; try discriminate; intros _; [reflexivity|].
  unfold OpenCode.CogneeClient.extractItem, OpenCode.prop, normalItem, firstText.
  simpl. destruct (truthy _); reflexivity.
Qed.

Lemma extractItems_normal items :
  forallb stringOrObject items = true ->
  OpenCode.CogneeClient.extractItems items = inr (flat_map normalItem items).
Proof.
  induction items as [|item rest IH]; [reflexivity|].
  intros H. apply andb_prop in H as [Hi Hr].
  cbn [OpenCode.CogneeClient.extractItems flat_map].
  rewrite (extractItem_normal _ Hi), (IH Hr). reflexivity.
Qed.

Lemma normalItem_content item :
  Forall (fun r => OpenCode.content r <> None) (normalItem item).
Proof.
  destruct item as [| | | |s| |fields]; simpl; repeat constructor; try discriminate.
  destruct (truthy (firstText fields)) eqn:E; repeat constructor.
  simpl. intros H. rewrite H in E. discriminate.
Qed.

Lemma normalized_content data :
  Forall (fun r => OpenCode.content r <> None) (normalized data).
Proof.
  assert (forall items,
            Forall (fun r => OpenCode.content r <> None) (flat_map normalItem items))
    as Hflat.
  { induction items as [|i r IH]; [constructor|].
    cbn [flat_map]. apply Forall_app. split; [apply normalItem_content|exact IH]. }
  destruct data as [| | | |s|items|fields]; simpl; repeat constructor;
    try discriminate; [apply Hflat|].
  destruct (assoc "results" fields) as [[]|]; try constructor. apply Hflat.
Qed.

(** The OpenCode normaliser on the three shapes. *)
Lemma opencode_extract_normalizes data :
  searchPayload data = true ->
  OpenCode.CogneeClient.extractSearchResults data = inr (normalized data)
  /\ Forall (fun r => OpenCode.content r <> None) (normalized data).
Proof.
  intros H. split; [|apply normalized_content].
  destruct data as [| | | |s|items|fields]; try discriminate.
  - reflexivity.
  - apply extractItems_normal. exact H.
  - unfold OpenCode.CogneeClient.extractSearchResults, OpenCode.prop. simpl in *.
    destruct (assoc "results" fields) as [[]|]; try discriminate.
    apply extractItems_normal. exact H.
Qed.

(** The OpenCode search on a reply of one of the three shapes that
    arrives in time. *)
Lemma opencode_search_normalizes this query searchType topK sessionId timeoutMs
    env t data :
  (forall req, net env O req = Responds t (jsonReply data)) ->
  t < default 3000 timeoutMs ->
  searchPayload data = true ->
  outcome (OpenCode.CogneeClient.searchMemories this query searchType topK
             sessionId timeoutMs) env = Ret (normalized data).
Proof.
  intros Hnet Ht Hdata.
  unfold OpenCode.CogneeClient.searchMemories, outcome, run.
  unfold tryCatch, mbind, M_bind, bind, fetch. simpl.
  rewrite Hnet. unfold settle, deadline.
  apply Z.ltb_lt in Ht. rewrite Ht. simpl.
  destruct (opencode_extract_normalizes _ Hdata) as [-> _]. reflexivity.
Qed.

Lemma gemini_normalizeItems items env log :
  forallb stringOrObject items = true ->
  Gemini.Server.normalizeItems items env log = (Ret (map memoryOf items), log).
Proof.
  induction items as [|item rest IH]; [reflexivity|].
  intros H. apply andb_prop in H as [Hi Hr].
  cbn [Gemini.Server.normalizeItems map].
  unfold mbind, M_bind, bind.
  assert (Gemini.Server.normalizeItem item env log = (Ret (memoryOf item), log)) as ->.
  { destruct item; try discriminate; reflexivity. }
  rewrite (IH Hr). reflexivity.
Qed.

Lemma memoryOf_content item :
  stringOrObject item = true -> Gemini.Server.content (memoryOf item) <> None.
Proof.
  destruct item as [| | | |s| |fields]; try discriminate; intros _; simpl.
  unfold Json.or. destruct (truthy (firstText fields)) eqn:E; [|discriminate].
  intros H. rewrite H in E. discriminate.
Qed.

Lemma gemini_search_array depth s query searchType topK sessionId env t items :
  (forall req, net env O req = Responds t (jsonReply (JArr items))) ->
  forallb stringOrObject items = true ->
  outcome (Gemini.Server.searchMemories depth s query searchType topK sessionId) env
  = Ret (map memoryOf items).
Proof.
  intros Hnet Hitems. unfold outcome, run.
  destruct depth; simpl;
    unfold Gemini.Server.cogneeRequest, tryCatch, mbind, M_bind, bind, fetch; simpl;
    rewrite Hnet; simpl; rewrite (gemini_normalizeItems _ _ _ Hitems); reflexivity.
Qed.

Lemma gemini_search_string depth s query searchType topK sessionId env t text :
  (forall req, net env O req = Responds t (jsonReply (JStr text))) ->
  outcome (Gemini.Server.searchMemories depth s query searchType topK sessionId) env
  = Ret [Gemini.Server.mkMemory (Some (JStr text))].
Proof.
  intros Hnet. unfold outcome, run.
  destruct depth; simpl;
    unfold Gemini.Server.cogneeRequest, tryCatch, mbind, M_bind, bind, fetch; simpl;
    rewrite Hnet; reflexivity.
Qed.

(** On a reply of the [results] shape the Gemini search issues a new
    request, and so on for as long as the replies have that shape. *)
Lemma gemini_search_wrapping depth :
  forall s query searchType topK sessionId now log,
    fst (Gemini.Server.searchMemories depth s query searchType topK sessionId
           (mkEnv wrappingNet now) log) = Unfinished
    /\ List.length (fetches (snd (Gemini.Server.searchMemories depth s query
                                    searchType topK sessionId
                                    (mkEnv wrappingNet now) log)))
       = (List.length (fetches log) + S depth)%nat.
Proof.
  induction depth as [|d IH]; intros s query searchType topK sessionId now log.
  - simpl.
    unfold Gemini.Server.cogneeRequest, tryCatch, mbind, M_bind, bind, fetch; simpl.
    split; [reflexivity|].
    unfold fetches. rewrite omap_app, length_app. simpl. lia.
  - cbn [Gemini.Server.searchMemories].
    unfold Gemini.Server.cogneeRequest, tryCatch, mbind, M_bind, bind, fetch; simpl.
    destruct (IH s (JArr [JStr "a"]) None None None now
                (log ++ [Fetch (mkRequest (Gemini.COGNEE_URL s ++ "/api/v1/search") POST
                                  (("Content-Type", "application/json") :: Gemini.bearer s)
                                  (JsonBody (Gemini.Server.searchRequestBody query
                                               (default "GRAPH_COMPLETION" searchType)
                                               (default 10 topK) sessionId))
                                  NoSignal)])%list)
      as [Hr Hl].
    split; [exact Hr|].
    rewrite Hl. unfold fetches. rewrite omap_app, length_app. simpl. lia.
Qed.

(** C2 at the failing input. The Gemini server's searchMemories, given
    a reply of the shape with a results array, does not normalise that
    array: it sends a second search whose query is the array, with the
    default search type and top-k, and returns what that second reply
    normalises to; against a server whose replies all have that shape it
    never returns, one more request for each level of the recursion. *)
Theorem gemini_search_requeries_results :
  requests (Gemini.Server.searchMemories 1 localSettings (JStr "q")
              (Some "CHUNKS") (Some 3) None) (mkEnv wrapThenArrayNet 0)
  = [mkRequest "http://localhost:8000/api/v1/search" POST
       [("Content-Type", "application/json")]
       (JsonBody (JObj [("query", JStr "q"); ("search_type", JStr "CHUNKS");
                        ("top_k", JNum 3)])) NoSignal;
     mkRequest "http://localhost:8000/api/v1/search" POST
       [("Content-Type", "application/json")]
       (JsonBody (JObj [("query", JArr [JStr "a"]);
                        ("search_type", JStr "GRAPH_COMPLETION");
                        ("top_k", JNum 10)])) NoSignal]
  /\ outcome (Gemini.Server.searchMemories 1 localSettings (JStr "q")
                (Some "CHUNKS") (Some 3) None) (mkEnv wrapThenArrayNet 0)
     = Ret [Gemini.Server.mkMemory (Some (JStr "b"))]
  /\ (forall depth,
        outcome (Gemini.Server.searchMemories depth localSettings (JStr "q")
                   None None None) (mkEnv wrappingNet 0) = Unfinished
        /\ List.length
             (requests (Gemini.Server.searchMemories depth localSettings (JStr "q")
                          None None None) (mkEnv wrappingNet 0))
           = S depth)
  /\ OpenCode.CogneeClient.extractSearchResults (JObj [("results", JArr [JStr "a"])])
     = inr [OpenCode.mkSearchResult (Some (JStr "a")) None].
Proof.
  split; [vm_compute; reflexivity|].
  split; [vm_compute; reflexivity|].
  split; [|reflexivity].
  intros depth. unfold outcome, requests, run.
  destruct (gemini_search_wrapping depth localSettings (JStr "q") None None None 0 [])
    as [Hr Hl].
  split; [exact Hr|exact Hl].
Qed.

End SearchResults.

(** ** Memory-trigger detection *)

Section TriggerFacts.
Import Js Trigger Spec.

Lemma backtickFree_app a b :
  backtickFree (a ++ b) = backtickFree a && backtickFree b.
Proof.
  induction a as [|c a IH]; simpl; [reflexivity|].
  rewrite IH. apply andb_assoc.
Qed.

(** Both patterns start with a backtick. *)
Lemma CODE_BLOCK_needs_backtick c r :
  Ascii.eqb c backtick = false -> CODE_BLOCK_PATTERN (String c r) = None.
Proof.
  intros H. unfold CODE_BLOCK_PATTERN, backtick in *. simpl.
  rewrite H. reflexivity.
Qed.

Lemma INLINE_needs_backtick c r :
  Ascii.eqb c backtick = false -> INLINE_CODE_PATTERN (String c r) = None.
Proof. intros H. simpl. rewrite H. reflexivity. Qed.

Lemma replaceFrom_app_free pattern a b :
  (forall c r, Ascii.eqb c backtick = false -> pattern (String c r) = None) ->
  backtickFree a = true ->
  replaceFrom pattern O (a ++ b) = a ++ replaceFrom pattern O b.
Proof.
  intros Hp. induction a as [|c a IH]; simpl; [reflexivity|].
  intros H. apply andb_prop in H as [Hc Ha].
  apply negb_true_iff in Hc.
  rewrite (Hp c (a ++ b) Hc), (IH Ha). reflexivity.
Qed.

Lemma replaceFrom_free pattern a :
  (forall c r, Ascii.eqb c backtick = false -> pattern (String c r) = None) ->
  backtickFree a = true -> replaceFrom pattern O a = a.
Proof.
  intros Hp Ha.
  rewrite <- (append_nil_r a) at 1.
  rewrite (replaceFrom_app_free _ _ _ Hp Ha). simpl.
  apply append_nil_r.
Qed.

(** Skipping the rest of a match. *)
Lemma replaceFrom_skip pattern a b :
  replaceFrom pattern (String.length a) (a ++ b) = replaceFrom pattern O b.
Proof. induction a as [|c a IH]; simpl; [destruct b|]; auto. Qed.

Lemma removeCodeBlocks_plain text :
  backtickFree text = true -> removeCodeBlocks text = text.
Proof.
  intros H. unfold removeCodeBlocks, replaceAll.
  rewrite (replaceFrom_free _ _ CODE_BLOCK_needs_backtick H).
  apply (replaceFrom_free _ _ INLINE_needs_backtick H).
Qed.

Lemma runNoBacktick_app a b :
  backtickFree a = true ->
  runNoBacktick (a ++ String backtick b) = String.length a.
Proof.
  induction a as [|c a IH]; simpl; [reflexivity|].
  intros H. apply andb_prop in H as [Hc Ha]. apply negb_true_iff in Hc.
  unfold backtick in *. rewrite Hc, (IH Ha). reflexivity.
Qed.

Lemma drop_app a b : drop (String.length a) (a ++ b) = b.
Proof. induction a as [|c a IH]; simpl; [destruct b|]; auto. Qed.

Lemma indexOfFence_app a b :
  backtickFree a = true ->
  indexOfFence (a ++ "```" ++ b) = Some (String.length a).
Proof.
  induction a as [|c a IH]; [reflexivity|].
  intros H. simpl in H. apply andb_prop in H as [Hc Ha].
  apply negb_true_iff in Hc.
  change (indexOfFence (String c (a ++ "```" ++ b)) = Some (S (String.length a))).
  unfold indexOfFence; fold indexOfFence.
  assert (startsWith "```" (String c (a ++ "```" ++ b)) = false) as ->.
  { unfold backtick in Hc. simpl. rewrite Hc. reflexivity. }
  rewrite (IH Ha). reflexivity.
Qed.

(** No fence starts in a text whose backticks stand alone. *)
Lemma CODE_BLOCK_single c r :
  CODE_BLOCK_PATTERN (String backtick (String c r)) = None \/ c = backtick.
Proof.
  destruct (Ascii.eqb c backtick) eqn:E.
  - right. apply Ascii.eqb_eq; exact E.
  - left. unfold CODE_BLOCK_PATTERN, backtick in *. simpl.
    rewrite E. reflexivity.
Qed.

Lemma head_free_not_backtick c r :
  backtickFree (String c r) = true -> Ascii.eqb c backtick = false.
Proof. simpl. intros H. apply andb_prop in H as [H _]. apply negb_true_iff; exact H. Qed.

Lemma replaceFrom_keep pattern c r :
  pattern (String c r) = None ->
  replaceFrom pattern O (String c r) = String c (replaceFrom pattern O r).
Proof. intros H. simpl. rewrite H. reflexivity. Qed.

Lemma replaceFrom_match pattern c r n :
  pattern (String c r) = Some (S n) ->
  replaceFrom pattern O (String c r) = replaceFrom pattern n r.
Proof. intros H. simpl. rewrite H. reflexivity. Qed.

(** A lone backtick before plain text is kept by the fenced pass. *)
Lemma fenced_lone_backtick a :
  backtickFree a = true ->
  replaceFrom CODE_BLOCK_PATTERN O (String backtick a)
  = String backtick (replaceFrom CODE_BLOCK_PATTERN O a).
Proof.
  intros Ha. apply replaceFrom_keep.
  destruct a as [|c a]; [reflexivity|].
  destruct (CODE_BLOCK_single c a) as [H | ->]; [exact H|].
  apply head_free_not_backtick in Ha.
  rewrite Ascii.eqb_refl in Ha. discriminate.
Qed.

Lemma fenced_lone_backtick_app a b :
  a <> EmptyString -> backtickFree a = true ->
  replaceFrom CODE_BLOCK_PATTERN O (String backtick (a ++ b))
  = String backtick (replaceFrom CODE_BLOCK_PATTERN O (a ++ b)).
Proof.
  intros Hne Ha. apply replaceFrom_keep.
  destruct a as [|c a]; [congruence|].
  destruct (CODE_BLOCK_single c (a ++ b)) as [H | ->]; [exact H|].
  apply head_free_not_backtick in Ha.
  rewrite Ascii.eqb_refl in Ha. discriminate.
Qed.

(** One inline span between plain text. *)
Lemma removeCodeBlocks_inline pre body post :
  backtickFree pre = true -> backtickFree body = true ->
  backtickFree post = true -> body <> EmptyString ->
  removeCodeBlocks (pre ++ "`" ++ body ++ "`" ++ post) = pre ++ post.
Proof.
  intros Hpre Hbody Hpost Hne.
  unfold removeCodeBlocks, replaceAll.
  assert (replaceFrom CODE_BLOCK_PATTERN O (pre ++ "`" ++ body ++ "`" ++ post)
          = pre ++ "`" ++ body ++ "`" ++ post) as ->.
  { rewrite (replaceFrom_app_free _ _ _ CODE_BLOCK_needs_backtick Hpre). f_equal.
    change ("`" ++ body ++ "`" ++ post)
      with (String backtick (body ++ String backtick post)).
    rewrite (fenced_lone_backtick_app _ _ Hne Hbody). f_equal.
    rewrite (replaceFrom_app_free _ _ _ CODE_BLOCK_needs_backtick Hbody). f_equal.
    rewrite (fenced_lone_backtick _ Hpost). f_equal.
    apply (replaceFrom_free _ _ CODE_BLOCK_needs_backtick Hpost). }
  rewrite (replaceFrom_app_free _ _ _ INLINE_needs_backtick Hpre). f_equal.
  change ("`" ++ body ++ "`" ++ post)
    with (String backtick (body ++ String backtick post)).
  rewrite (replaceFrom_match _ _ _ (String.length (body ++ "`"))).
  - replace (body ++ String backtick post) with ((body ++ "`") ++ post)
      by (rewrite append_assoc; reflexivity).
    rewrite replaceFrom_skip.
    apply (replaceFrom_free _ _ INLINE_needs_backtick Hpost).
  - unfold INLINE_CODE_PATTERN. rewrite Ascii.eqb_refl.
    rewrite (runNoBacktick_app _ _ Hbody).
    destruct body as [|b body]; [congruence|].
    cbn [String.length].
    change (S (String.length body)) with (String.length (String b body)).
    rewrite drop_app. cbn [head]. rewrite Ascii.eqb_refl.
    rewrite length_append. simpl. f_equal. lia.
Qed.

(** One fenced span between plain text. *)
Lemma removeCodeBlocks_fenced pre body post :
  backtickFree pre = true -> backtickFree body = true ->
  backtickFree post = true ->
  removeCodeBlocks (pre ++ "```" ++ body ++ "```" ++ post) = pre ++ post.
Proof.
  intros Hpre Hbody Hpost.
  unfold removeCodeBlocks, replaceAll.
  assert (replaceFrom CODE_BLOCK_PATTERN O (pre ++ "```" ++ body ++ "```" ++ post)
          = pre ++ post) as ->.
  { rewrite (replaceFrom_app_free _ _ _ CODE_BLOCK_needs_backtick Hpre). f_equal.
    change ("```" ++ body ++ "```" ++ post)
      with (String backtick ("``" ++ body ++ "```" ++ post)).
    rewrite (replaceFrom_match _ _ _ (String.length ("``" ++ body ++ "```"))).
    - replace ("``" ++ body ++ "```" ++ post) with (("``" ++ body ++ "```") ++ post)
        by (rewrite !append_assoc; reflexivity).
      rewrite replaceFrom_skip.
      apply (replaceFrom_free _ _ CODE_BLOCK_needs_backtick Hpost).
    - unfold CODE_BLOCK_PATTERN.
      change (startsWith "```" (String backtick ("``" ++ body ++ "```" ++ post)))
        with true.
      change (drop 3 (String backtick ("``" ++ body ++ "```" ++ post)))
        with (body ++ "```" ++ post).
      rewrite (indexOfFence_app _ _ Hbody).
      rewrite !length_append. simpl. f_equal; lia. }
  apply (replaceFrom_free _ _ INLINE_needs_backtick).
  rewrite backtickFree_app, Hpre, Hpost. reflexivity.
Qed.

(** The regular expression finds exactly the whole-word occurrences. *)
Lemma testFrom_occurrence alts prev s :
  testFrom alts prev s = true <->
  exists i, (i <= String.length s)%nat
    /\ matchAt alts (match i with O => prev | S j => String.get j s end)
                (drop i s) = true.
Proof.
  revert prev. induction s as [|c r IH]; intros prev.
  - simpl. rewrite orb_false_r. split.
    + intros H. exists O. split; [lia|exact H].
    + intros [i [Hi H]]. assert (i = O) as -> by lia. exact H.
  - change (testFrom alts prev (String c r))
      with (matchAt alts prev (String c r) || testFrom alts (Some c) r).
    rewrite orb_true_iff, IH. split.
    + intros [H | [j [Hj H]]].
      * exists O. split; [simpl; lia|exact H].
      * exists (S j). split; [simpl; lia|].
        destruct j; exact H.
    + intros [[|j] [Hi H]].
      * left. exact H.
      * right. exists j. split; [simpl in Hi; lia|].
        destruct j; exact H.
Qed.

Lemma MEMORY_KEYWORDS_occurrence keywordPatterns text :
  MEMORY_KEYWORDS keywordPatterns text = true <->
  exists i, (i <= String.length text)%nat /\ occursAt keywordPatterns text i = true.
Proof.
  unfold MEMORY_KEYWORDS, occursAt, charBefore. apply testFrom_occurrence.
Qed.

(** C4, as the specification words it, fails both ways: a keyword that
    occurs only inside a code span fires when the text around a deleted
    span joins into a keyword, and a keyword outside the code spans does
    not fire when the joined text takes its word boundary away. *)
Lemma trigger_by_position_fails :
  (onlyInsideCode defaultKeywordPatterns "`remember` remem`x`ber" = true
   /\ detectMemoryKeyword defaultKeywordPatterns "`remember` remem`x`ber" = true)
  /\ (someOutsideCode defaultKeywordPatterns "note`x`s" = true
      /\ detectMemoryKeyword defaultKeywordPatterns "note`x`s" = false)
  /\ ~ triggerByPosition defaultKeywordPatterns.
Proof.
  split; [split; vm_compute; reflexivity|].
  split; [split; vm_compute; reflexivity|].
  intros [_ H]. specialize (H "note`x`s" eq_refl).
  vm_compute in H. discriminate.
Qed.

End TriggerFacts.

(** ** Sessions of the OpenCode plugin *)

Section Sessions.
Import Js Json Eff Spec Plugin.



Lemma mapGet_mapDelete_eq {V} k (m : JsMap V) : mapGet k (mapDelete k m) = None.
Proof.
  unfold mapGet, mapDelete. induction m as [|[k' v'] r IH]; simpl; [reflexivity|].
  destruct (String.eqb k k') eqn:E; simpl; [exact IH|]. rewrite E. exact IH.
Qed.




Lemma mapDelete_keys {V} k (m : JsMap V) :
  map fst (mapDelete k m)
  = List.filter (fun k' => negb (String.eqb k k')) (map fst m).
Proof.
  unfold mapDelete. induction m as [|[k' v'] r IH]; simpl; [reflexivity|].
  destruct (String.eqb k k'); simpl; congruence.
Qed.

Lemma filter_NoDup {A} (f : A -> bool) l : NoDup l -> NoDup (List.filter f l).
Proof.
  induction 1 as [|x l Hx Hl IH]; simpl; [constructor|].
  destruct (f x); [|exact IH].
  constructor; [|exact IH].
  intros H. apply Hx. apply list_elem_of_In in H. apply list_elem_of_In.
  apply filter_In in H as [H _]. exact H.
Qed.


(** The search either returns or throws: its request has a deadline. *)
Lemma opencode_search_outcome this query searchType topK sessionId timeoutMs
    env log :
  exists log',
    (exists r, OpenCode.CogneeClient.searchMemories this query searchType topK
                 sessionId timeoutMs env log = (Ret r, log'))
    \/ (exists e, OpenCode.CogneeClient.searchMemories this query searchType topK
                    sessionId timeoutMs env log = (Throw e, log')).
Proof.
  unfold OpenCode.CogneeClient.searchMemories.
  unfold tryCatch, mbind, M_bind, bind, fetch. simpl.
  unfold settle, deadline.
  destruct (net env _ _) as [t r|t e|]; simpl.
  - destruct (t <? default 3000 timeoutMs); simpl; [|eexists; right; eexists; reflexivity].
    unfold OpenCode.CogneeClient.checkOk.
    destruct (ok r); simpl; [|eexists; right; eexists; reflexivity].
    unfold responseJson. destruct (json r) as [j|]; simpl;
      [|eexists; right; eexists; reflexivity].
    destruct (OpenCode.CogneeClient.extractSearchResults j); simpl;
      eexists; [right|left]; eexists; reflexivity.
  - destruct (t <? default 3000 timeoutMs); simpl;
      [destruct (String.eqb _ _)|]; eexists; right; eexists; reflexivity.
  - eexists; right; eexists; reflexivity.
Qed.

Lemma injectMemories_returns config sessionID userMessage output env log :
  exists output' log',
    injectMemories config sessionID userMessage output env log
    = (Ret output', log').
Proof.
  unfold injectMemories, tryCatch, mbind, M_bind, bind.
  destruct (opencode_search_outcome (cogneeClient config) userMessage
              (injectionSearchType config) (injectionTopK config)
              (Some sessionID) None env log) as [log' [[r H]|[e H]]];
    rewrite H.
  - destruct r; do 2 eexists; reflexivity.
  - destruct (instanceOf e CogneeUnavailableError); do 2 eexists; reflexivity.
Qed.

(** A [chat.message] call always returns; it tracks the message unless
    there is no text. *)
Lemma chatMessage_returns config sessionID st output env log :
  exists output' log',
    chatMessage config sessionID st output env log
    = (Ret (match userText output with
            | Some userMessage => tracked sessionID userMessage (now env) st
            | None => st
            end, output'), log').
Proof.
  unfold chatMessage, userText, tryCatch.
  destruct (List.filter _ (parts output)) as [|p ps]; [do 2 eexists; reflexivity|].
  destruct (isEmpty (trim _)); [do 2 eexists; reflexivity|].
  unfold mbind, M_bind, bind, dateNow, tracked.
  destruct (detectMemoryKeyword config _); simpl;
    destruct (bool_decide (sessionID ∈ injectedSessions st)); simpl;
    try (do 2 eexists; reflexivity).
  - match goal with
    | |- context [injectMemories ?c ?s ?m ?o ?e ?l] =>
        destruct (injectMemories_returns c s m o e l) as (o' & l' & ->)
    end.
    do 2 eexists; reflexivity.
  - match goal with
    | |- context [injectMemories ?c ?s ?m ?o ?e ?l] =>
        destruct (injectMemories_returns c s m o e l) as (o' & l' & ->)
    end.
    do 2 eexists; reflexivity.
Qed.


(** Saving a session returns or stays pending; it never throws. *)
Lemma saveSession_outcome config sessionId state env log :
  exists log',
    saveSession config sessionId state env log = (Ret tt, log')
    \/ saveSession config sessionId state env log = (Pending, log').
Proof.
  unfold saveSession, tryCatch, mbind, M_bind, bind, dateNow.
  unfold OpenCode.CogneeClient.addMemory, OpenCode.CogneeClient.cognify.
  unfold tryCatch, mbind, M_bind, bind, fetch, OpenCode.CogneeClient.unavailable.
  simpl. unfold settle, deadline. simpl.
  destruct (net env _ _) as [t r|t e|]; simpl;
    [|eexists; left; reflexivity|eexists; right; reflexivity].
  unfold OpenCode.CogneeClient.checkOk.
  destruct (ok r); simpl; [|eexists; left; reflexivity].
  destruct (net env _ _) as [t' r'|t' e'|]; simpl;
    [|eexists; left; reflexivity|eexists; right; reflexivity].
  destruct (ok r'); simpl; eexists; left; reflexivity.
Qed.



Lemma flush_never_throws config entries :
  forall st env log e, fst (flush config entries st env log) <> Throw e.
Proof.
  induction entries as [|[k s] rest IH]; intros st env log e; [discriminate|].
  cbn [flush]. destruct (messages s); [apply IH|].
  unfold mbind, M_bind, bind.
  destruct (saveSession_outcome config k s env log) as [l1 [H1|H1]];
    rewrite H1; [apply IH|discriminate].
Qed.




End Sessions.

(** ** Flushing a session to the memory service *)

Section Flush.
Import Js Json Eff Spec Plugin.

Lemma fetches_app l1 l2 : fetches (l1 ++ l2) = (fetches l1 ++ fetches l2)%list.
Proof. unfold fetches. apply omap_app. Qed.

Lemma opencode_search_log this query searchType topK sessionId timeoutMs env log :
  exists req,
    snd (OpenCode.CogneeClient.searchMemories this query searchType topK
           sessionId timeoutMs env log) = (log ++ [Fetch req])%list
    /\ reqUrl req = OpenCode.CogneeClient.baseUrl this ++ "/api/v1/search".
Proof.
  exists (mkRequest (OpenCode.CogneeClient.baseUrl this ++ "/api/v1/search") POST
            (OpenCode.CogneeClient.getHeaders this)
            (JsonBody (OpenCode.CogneeClient.searchBody (JStr query)
                         (default "CHUNKS" searchType) (default 5 topK) sessionId))
            (AbortAfter (default 3000 timeoutMs))).
  split; [|reflexivity].
  unfold OpenCode.CogneeClient.searchMemories.
  unfold tryCatch, mbind, M_bind, bind, fetch.
  cbv beta iota zeta. cbn [reqSignal].
  destruct (settle _ _) as [r|e| |]; simpl; try reflexivity.
  - unfold OpenCode.CogneeClient.checkOk.
    destruct (ok r); simpl; [|reflexivity].
    unfold responseJson. destruct (json r) as [j|]; simpl; [|reflexivity].
    destruct (OpenCode.CogneeClient.extractSearchResults j); reflexivity.
  - destruct (String.eqb _ _); reflexivity.
Qed.

Lemma injectMemories_requests config sessionID userMessage output env log :
  exists req,
    fetches (snd (injectMemories config sessionID userMessage output env log))
    = (fetches log ++ [req])%list
    /\ isSearch config req.
Proof.
  destruct (opencode_search_log (cogneeClient config) userMessage
              (injectionSearchType config) (injectionTopK config)
              (Some sessionID) None env log) as (req & Hlog & Hurl).
  exists req. split; [|exact Hurl].
  unfold injectMemories, tryCatch, mbind, M_bind, bind.
  destruct (OpenCode.CogneeClient.searchMemories _ _ _ _ _ _ env log)
    as [[r|e| |] log'] eqn:E; simpl in Hlog; subst log'; simpl.
  - destruct r; simpl; rewrite ?fetches_app; simpl;
      rewrite ?fetches_app, ?app_nil_r; reflexivity.
  - destruct (instanceOf e CogneeUnavailableError); simpl;
      rewrite !fetches_app; simpl; rewrite app_nil_r; reflexivity.
  - rewrite fetches_app. reflexivity.
  - rewrite fetches_app. reflexivity.
Qed.

(** A [chat.message] call sends search requests only. *)
Lemma chatMessage_requests config sessionID st output env log :
  exists reqs,
    fetches (snd (chatMessage config sessionID st output env log))
    = (fetches log ++ reqs)%list
    /\ Forall (isSearch config) reqs.
Proof.
  unfold chatMessage, tryCatch.
  destruct (List.filter _ (parts output)) as [|p ps];
    [exists []; rewrite app_nil_r; split; [reflexivity|constructor]|].
  destruct (isEmpty (trim _));
    [exists []; rewrite app_nil_r; split; [reflexivity|constructor]|].
  unfold mbind, M_bind, bind, dateNow.
  destruct (detectMemoryKeyword config _); simpl;
    destruct (bool_decide (sessionID ∈ injectedSessions st)); simpl.
  - exists []. rewrite fetches_app, !app_nil_r. split; [reflexivity|constructor].
  - match goal with
    | |- context [injectMemories ?c ?s ?m ?o ?e ?l] =>
        destruct (injectMemories_requests c s m o e l) as (req & Hreq & Hurl);
        destruct (injectMemories_returns c s m o e l) as (o' & l' & Hret);
        rewrite Hret in Hreq |- *
    end.
    simpl in *. exists [req]. rewrite Hreq, fetches_app. simpl.
    rewrite app_nil_r. split; [reflexivity|repeat constructor; exact Hurl].
  - exists []. rewrite !app_nil_r. split; [reflexivity|constructor].
  - match goal with
    | |- context [injectMemories ?c ?s ?m ?o ?e ?l] =>
        destruct (injectMemories_requests c s m o e l) as (req & Hreq & Hurl);
        destruct (injectMemories_returns c s m o e l) as (o' & l' & Hret);
        rewrite Hret in Hreq |- *
    end.
    simpl in *. exists [req]. rewrite Hreq.
    split; [reflexivity|repeat constructor; exact Hurl].
Qed.

Lemma tracked_twice sessionID m1 m2 t1 t2 :
  conversations (tracked sessionID m2 t2 (tracked sessionID m1 t1 initialState))
  = [(sessionID,
      mkSessionState [mkMessage "user" m1 t1; mkMessage "user" m2 t2] t1)].
Proof.
  unfold tracked, mapGet. simpl. rewrite !String.eqb_refl. reflexivity.
Qed.

(** Saving a session when the service accepts the upload and the
    cognify request. *)
Lemma saveSession_healthy config sessionId state network now log :
  healthy network ->
  saveSession config sessionId state (mkEnv network now) log
  = (Ret tt,
     log ++ [Fetch (uploadRequest config (sessionContext sessionId state now)
                      (dateTag (startTime state)));
             Fetch (cognifyRequest config);
             Toast "Session saved to memory" "success"])%list.
Proof.
  intros Hnet.
  unfold saveSession, tryCatch, mbind, M_bind, bind, dateNow.
  unfold OpenCode.CogneeClient.addMemory, OpenCode.CogneeClient.cognify.
  unfold tryCatch, mbind, M_bind, bind, fetch, OpenCode.CogneeClient.unavailable.
  unfold OpenCode.CogneeClient.checkOk, mbind, M_bind, bind, ret, throw,
    responseText, showToast.
  simpl.
  match goal with
  | |- context [network ?n ?r] => destruct (Hnet n r) as (t & r1 & -> & Hok1 & _)
  end.
  simpl. rewrite Hok1. simpl.
  match goal with
  | |- context [network ?n ?r] => destruct (Hnet n r) as (t' & r2 & -> & Hok2 & _)
  end.
  simpl. rewrite Hok2. simpl.
  rewrite <- !app_assoc. reflexivity.
Qed.

Lemma event_flushes_two config sessionID m1 m2 t1 t2 t3 network eventType log :
  healthy network ->
  eventType = "session.idle" \/ eventType = "session.end" ->
  event config eventType
    (tracked sessionID m2 t2 (tracked sessionID m1 t1 initialState))
    (mkEnv network t3) log
  = (Ret (forget sessionID
            (tracked sessionID m2 t2 (tracked sessionID m1 t1 initialState))),
     log ++ [Fetch (uploadRequest config
                      (sessionContext sessionID
                         (mkSessionState [mkMessage "user" m1 t1;
                                          mkMessage "user" m2 t2] t1) t3)
                      (dateTag t1));
             Fetch (cognifyRequest config);
             Toast "Session saved to memory" "success"])%list.
Proof.
  intros Hnet Htype. unfold event.
  assert (String.eqb eventType "session.idle" || String.eqb eventType "session.end"
          = true) as -> by (destruct Htype as [-> | ->]; reflexivity).
  rewrite tracked_twice. cbn [flush messages].
  unfold mbind, M_bind, bind.
  rewrite (saveSession_healthy _ _ _ _ _ _ Hnet). reflexivity.
Qed.

Lemma summarize_two m1 m2 :
  GeminiHooks.summarize (twoMessages m1 m2)
  = "[user]: " ++ take 500 m1 ++ nl ++ nl ++ "[user]: " ++ take 500 m2.
Proof. reflexivity. Qed.

(** The Gemini session-end hook on a transcript of two user messages
    when the service accepts every request in time. *)
Lemma sessionEnd_two s session_id reason m1 m2 network now :
  healthy network ->
  run (GeminiHooks.sessionEnd s session_id reason (twoMessages m1 m2))
      (mkEnv network now)
  = (Ret (JObj [("systemMessage",
                 JStr (GeminiHooks.brainSign ++ " Session saved to memory"))]),
     [Fetch (geminiHealth s);
      Fetch (geminiUpload s
               (GeminiHooks.sessionRecord session_id reason
                  ("[user]: " ++ take 500 m1 ++ nl ++ nl
                   ++ "[user]: " ++ take 500 m2) now)
               (dateTag now));
      Fetch (geminiCognify s)]).
Proof.
  intros Hnet.
  unfold run, GeminiHooks.sessionEnd. rewrite summarize_two.
  unfold tryCatch, mbind, M_bind, bind, fetch, dateNow, ret.
  simpl.
  match goal with
  | |- context [network ?n ?r] => destruct (Hnet n r) as (t & r1 & -> & Hok1 & Ht1)
  end.
  unfold settle, deadline.
  assert ((t <? 2000) = true) as -> by (apply Z.ltb_lt; exact Ht1).
  rewrite Hok1. simpl.
  match goal with
  | |- context [network ?n ?r] => destruct (Hnet n r) as (t2 & r2 & -> & Hok2 & Ht2)
  end.
  assert ((t2 <? 5000) = true) as -> by (apply Z.ltb_lt; lia).
  rewrite Hok2. simpl.
  match goal with
  | |- context [network ?n ?r] => destruct (Hnet n r) as (t3 & r3 & -> & Hok3 & Ht3)
  end.
  assert ((t3 <? 5000) = true) as -> by (apply Z.ltb_lt; lia).
  reflexivity.
Qed.

Lemma userText_textOutput m :
  isEmpty (trim m) = false -> userText (textOutput m) = Some m.
Proof. intros H. unfold userText, textOutput. simpl. rewrite H. reflexivity. Qed.

Lemma sessionContext_two sessionID m1 m2 t1 t2 t3 :
  sessionContext sessionID
    (mkSessionState [mkMessage "user" m1 t1; mkMessage "user" m2 t2] t1) t3
  = recordHeader sessionID 2 t1 t3
    ++ "[" ++ toISOString t1 ++ "] USER: " ++ m1 ++ nl ++ nl
    ++ "[" ++ toISOString t2 ++ "] USER: " ++ m2.
Proof.
  unfold sessionContext, recordHeader, formatConversation, formatMessage.
  cbn [messages startTime map join role msgContent timestamp List.length].
  change (toUpperCase "user") with "USER".
  change (Z.of_nat 2) with 2.
  rewrite !append_assoc. reflexivity.
Qed.

Lemma okNet_healthy : healthy okNet.
Proof. intros n req. exists 1, (jsonReply (JArr [])). repeat split. Qed.

(** C5, as the code has it. In the OpenCode plugin, a session of two
    user messages followed by an idle or end event, with a service that
    accepts every request, sends one upload and then one cognify
    request with temporal_cognify true (the messages themselves only
    cause searches); the uploaded document ends with the two messages
    in their order; its tags are sessions, conversations and the tag of
    the day the session started; the session is deleted.  In the Gemini
    session-end hook, a transcript of two user messages gives, after the
    health probe, one upload whose document holds the first 500
    characters of each message in their order, tagged sessions,
    conversations and the tag of the flush day, then one cognify
    request with temporal_cognify true. *)
Theorem session_flush_uploads_once :
  (forall config sessionID m1 m2 t1 t2 t3 network eventType,
     healthy network ->
     isEmpty (trim m1) = false -> isEmpty (trim m2) = false ->
     eventType = "session.idle" \/ eventType = "session.end" ->
     exists st1 o1 log1 st2 o2 log2,
       chatMessage config sessionID initialState (textOutput m1)
         (mkEnv network t1) [] = (Ret (st1, o1), log1)
       /\ chatMessage config sessionID st1 (textOutput m2)
            (mkEnv network t2) log1 = (Ret (st2, o2), log2)
       /\ Forall (isSearch config) (fetches log2)
       /\ event config eventType st2 (mkEnv network t3) log2
          = (Ret (forget sessionID st2),
             log2 ++ [Fetch (uploadRequest config
                               (recordHeader sessionID 2 t1 t3
                                ++ "[" ++ toISOString t1 ++ "] USER: " ++ m1
                                ++ nl ++ nl
                                ++ "[" ++ toISOString t2 ++ "] USER: " ++ m2)
                               (dateTag t1));
                      Fetch (cognifyRequest config);
                      Toast "Session saved to memory" "success"])%list
       /\ conversations (forget sessionID st2) = [])
  /\ (forall s session_id reason m1 m2 network now,
        healthy network ->
        run (GeminiHooks.sessionEnd s session_id reason (twoMessages m1 m2))
            (mkEnv network now)
        = (Ret (JObj [("systemMessage",
                       JStr (GeminiHooks.brainSign ++ " Session saved to memory"))]),
           [Fetch (geminiHealth s);
            Fetch (geminiUpload s
                     (GeminiHooks.sessionRecord session_id reason
                        ("[user]: " ++ take 500 m1 ++ nl ++ nl
                         ++ "[user]: " ++ take 500 m2) now)
                     (dateTag now));
            Fetch (geminiCognify s)])).
Proof.
  split; [|intros; apply sessionEnd_two; assumption].
  intros config sessionID m1 m2 t1 t2 t3 network eventType Hnet Hm1 Hm2 Htype.
  destruct (chatMessage_returns config sessionID initialState (textOutput m1)
              (mkEnv network t1) []) as (o1 & log1 & H1).
  rewrite (userText_textOutput _ Hm1) in H1. cbn [now] in H1.
  destruct (chatMessage_returns config sessionID
              (tracked sessionID m1 t1 initialState) (textOutput m2)
              (mkEnv network t2) log1) as (o2 & log2 & H2).
  rewrite (userText_textOutput _ Hm2) in H2. cbn [now] in H2.
  exists (tracked sessionID m1 t1 initialState), o1, log1,
    (tracked sessionID m2 t2 (tracked sessionID m1 t1 initialState)), o2, log2.
  split; [exact H1|]. split; [exact H2|]. split; [|split].
  - destruct (chatMessage_requests config sessionID initialState (textOutput m1)
                (mkEnv network t1) []) as (reqs1 & Hr1 & Hs1).
    destruct (chatMessage_requests config sessionID
                (tracked sessionID m1 t1 initialState) (textOutput m2)
                (mkEnv network t2) log1) as (reqs2 & Hr2 & Hs2).
    rewrite H1 in Hr1. rewrite H2 in Hr2. simpl in Hr1, Hr2.
    rewrite Hr2, Hr1. apply Forall_app. split; assumption.
  - rewrite (event_flushes_two _ _ _ _ _ _ _ _ _ _ Hnet Htype).
    rewrite sessionContext_two. reflexivity.
  - unfold forget. rewrite tracked_twice. unfold mapDelete. simpl.
    rewrite String.eqb_refl. reflexivity.
Qed.

Lemma session_flush_uploads_once_witness :
  (exists st1 o1 log1 st2 o2 log2,
     chatMessage DEFAULT_CONFIG "ses" initialState (textOutput "first")
       (mkEnv okNet 1000) [] = (Ret (st1, o1), log1)
     /\ chatMessage DEFAULT_CONFIG "ses" st1 (textOutput "second")
          (mkEnv okNet 2000) log1 = (Ret (st2, o2), log2)
     /\ uploads (snd (event DEFAULT_CONFIG "session.idle" st2 (mkEnv okNet 3000) log2))
        = [uploadRequest DEFAULT_CONFIG
             (recordHeader "ses" 2 1000 3000
              ++ "[" ++ toISOString 1000 ++ "] USER: " ++ "first" ++ nl ++ nl
              ++ "[" ++ toISOString 2000 ++ "] USER: " ++ "second")
             (dateTag 1000)])
  /\ requests (GeminiHooks.sessionEnd localSettings "ses" "exit"
                 (twoMessages "first" "second")) (mkEnv okNet 3000)
     = [geminiHealth localSettings;
        geminiUpload localSettings
          (GeminiHooks.sessionRecord "ses" "exit"
             ("[user]: " ++ "first" ++ nl ++ nl ++ "[user]: " ++ "second") 3000)
          (dateTag 3000);
        geminiCognify localSettings].
Proof.
  destruct session_flush_uploads_once as [Ho Hg]. split.
  - destruct (Ho DEFAULT_CONFIG "ses" "first" "second" 1000 2000 3000 okNet
                "session.idle" okNet_healthy eq_refl eq_refl (or_introl eq_refl))
      as (st1 & o1 & log1 & st2 & o2 & log2 & H1 & H2 & Hs & He & _).
    exists st1, o1, log1, st2, o2, log2.
    split; [exact H1|]. split; [exact H2|].
    rewrite He. cbn [snd]. unfold uploads. rewrite fetches_app.
    rewrite List.filter_app.
    assert (List.filter (fun r => includes "/api/v1/add" (reqUrl r)) (fetches log2)
            = []) as ->.
    { clear -Hs. induction Hs as [|r l Hr Hl IH]; [reflexivity|].
      simpl. rewrite IH. unfold isSearch in Hr. rewrite Hr. reflexivity. }
    reflexivity.
  - unfold requests.
    rewrite (Hg localSettings "ses" "exit" "first" "second" okNet 3000 okNet_healthy).
    reflexivity.
Defined.

(** C5, as the specification words it, fails for the OpenCode plugin:
    a session that starts one second before midnight and is flushed one
    second after it is tagged with the day it started, not with the
    flush date. *)
Lemma flush_tag_is_start_date :
  (exists st2 o2 log2,
     chatMessage DEFAULT_CONFIG "ses"
       (tracked "ses" "first" beforeMidnight initialState) (textOutput "second")
       (mkEnv okNet beforeMidnight)
       (snd (chatMessage DEFAULT_CONFIG "ses" initialState (textOutput "first")
               (mkEnv okNet beforeMidnight) []))
     = (Ret (st2, o2), log2)
     /\ map nodeSetsOf
          (uploads (snd (event DEFAULT_CONFIG "session.idle" st2
                           (mkEnv okNet afterMidnight) log2)))
        = [["sessions"; "conversations"; "session_2026_02_01"]])
  /\ dateTag afterMidnight = "session_2026_02_02"
  /\ ~ taggedWithFlushDate DEFAULT_CONFIG.
Proof.
  pose (r1 := chatMessage DEFAULT_CONFIG "ses" initialState (textOutput "first")
                (mkEnv okNet beforeMidnight) []).
  pose (st1 := tracked "ses" "first" beforeMidnight initialState).
  pose (o1 := match fst r1 with Ret (_, o) => o | _ => textOutput "first" end).
  pose (r2 := chatMessage DEFAULT_CONFIG "ses" st1 (textOutput "second")
                (mkEnv okNet beforeMidnight) (snd r1)).
  pose (st2 := match fst r2 with Ret (st, _) => st | _ => initialState end).
  pose (o2 := match fst r2 with Ret (_, o) => o | _ => textOutput "second" end).
  pose (r3 := event DEFAULT_CONFIG "session.idle" st2 (mkEnv okNet afterMidnight)
                (snd r2)).
  pose (st3 := match fst r3 with Ret st => st | _ => initialState end).
  assert (r1 = (Ret (st1, o1), snd r1)) as H1 by (vm_compute; reflexivity).
  assert (r2 = (Ret (st2, o2), snd r2)) as H2 by (vm_compute; reflexivity).
  assert (r3 = (Ret st3, snd r3)) as H3 by (vm_compute; reflexivity).
  assert (map nodeSetsOf (uploads (snd r3))
          = [["sessions"; "conversations"; "session_2026_02_01"]]) as H4
    by (vm_compute; reflexivity).
  split; [exists st2, o2, (snd r2); split; [exact H2|exact H4]|].
  split; [vm_compute; reflexivity|].
  intros H.
  pose proof (H "ses" "first" "second" okNet beforeMidnight beforeMidnight
                afterMidnight st1 o1 (snd r1) st2 o2 (snd r2) st3 (snd r3)
                okNet_healthy ltac:(vm_compute; split; discriminate) H1 H2 H3)
    as Htag.
  assert (Forall (fun tags => In (dateTag afterMidnight) tags)
            (map nodeSetsOf (uploads (snd r3)))) as Htags
    by (apply Forall_map; exact Htag).
  rewrite H4 in Htags. apply Forall_inv in Htags.
  vm_compute in Htags.
  repeat (destruct Htags as [Htags|Htags]; [discriminate Htags|]).
  exact Htags.
Qed.

End Flush.

(** ** The tool boundary *)

Section Tools.
Import Js Json Eff Spec ToolArgs.

Lemma opencode_execute_guard client args sessionID env :
  lacksRequired args = true ->
  exists error,
    run (Tool.execute client args sessionID) env = (Ret (Tool.failure error), []).
Proof.
  unfold lacksRequired, Tool.execute, run, tryCatch, Tool.executeBody.
  set (action := orString (ToolArgs.action args) "help").
  intros H.
  destruct (String.eqb_spec action "help") as [E|_]; [rewrite E in H; discriminate|].
  destruct (String.eqb action "search") eqn:Es.
  { simpl in H. destruct (missing (query args)); [|rewrite ?andb_false_r in H].
    - eexists; reflexivity.
    - apply String.eqb_eq in Es. rewrite Es in H. discriminate. }
  destruct (String.eqb action "timeline") eqn:Et.
  { simpl in H. destruct (missing (query args)).
    - eexists; reflexivity.
    - apply String.eqb_eq in Et. rewrite Et in H. discriminate. }
  simpl in H.
  destruct (String.eqb action "add") eqn:Ea; [|discriminate].
  simpl in H. rewrite H. eexists; reflexivity.
Qed.

Lemma gemini_handler_guard depth s args env :
  lacksRequired args = true ->
  exists error,
    run (GeminiTool.handler depth s args) env = (Ret (GeminiTool.failure error), []).
Proof.
  unfold lacksRequired, GeminiTool.handler, run, tryCatch, GeminiTool.handlerBody.
  set (action := orString (ToolArgs.action args) "help").
  intros H.
  destruct (String.eqb_spec action "help") as [E|_]; [rewrite E in H; discriminate|].
  destruct (String.eqb action "search") eqn:Es.
  { simpl in H. destruct (missing (query args)); [|rewrite ?andb_false_r in H].
    - eexists; reflexivity.
    - apply String.eqb_eq in Es. rewrite Es in H. discriminate. }
  destruct (String.eqb action "timeline") eqn:Et.
  { simpl in H. destruct (missing (query args)).
    - eexists; reflexivity.
    - apply String.eqb_eq in Et. rewrite Et in H. discriminate. }
  simpl in H.
  destruct (String.eqb action "add") eqn:Ea; [|discriminate].
  simpl in H. rewrite H. eexists; reflexivity.
Qed.

(** C8. In both tools, search and timeline without a query and add
    without content (absent or empty) return a failure payload
    (success false and an error message), and the run leaves an empty
    log: no request is sent. *)
Theorem tools_validate_before_network :
  (forall client args sessionID env,
     lacksRequired args = true ->
     exists error,
       run (Tool.execute client args sessionID) env
       = (Ret (JObj [("success", JBool false); ("error", JStr error)]), []))
  /\ (forall depth s args env,
        lacksRequired args = true ->
        exists error,
          run (GeminiTool.handler depth s args) env
          = (Ret (JObj [("success", JBool false); ("error", JStr error)]), [])).
Proof.
  split; intros.
  - apply opencode_execute_guard; assumption.
  - apply gemini_handler_guard; assumption.
Qed.

Lemma tools_validate_before_network_witness :
  (exists error,
     run (Tool.execute localClient
            (mkArgs (Some "add") None (Some EmptyString) (Some "a,b") None None)
            (Some "s1")) (mkEnv refusingNet 0)
     = (Ret (JObj [("success", JBool false); ("error", JStr error)]), []))
  /\ (exists error,
        run (GeminiTool.handler 1 localSettings
               (mkArgs (Some "search") None None None None None))
            (mkEnv refusingNet 0)
        = (Ret (JObj [("success", JBool false); ("error", JStr error)]), [])).
Proof.
  destruct tools_validate_before_network as [Ho Hg]. split.
  - apply Ho. reflexivity.
  - apply Hg. reflexivity.
Defined.

Lemma opencode_catch_returns e env log :
  exists log',
    Tool.executeCatch e env log = (Ret (Tool.failure (errMessage e)), log').
Proof.
  unfold Tool.executeCatch, mbind, M_bind, bind, showToast.
  destruct (instanceOf e CogneeUnavailableError); [eexists; reflexivity|].
  destruct (instanceOf e CogneeAPIError); eexists; reflexivity.
Qed.

Lemma gemini_catch_returns e env log :
  exists payload,
    GeminiTool.handlerCatch e env log = (Ret payload, log)
    /\ failurePayload payload (errMessage e).
Proof.
  unfold GeminiTool.handlerCatch, failurePayload.
  destruct (includes "unavailable" (errMessage e));
    eexists; (split; [reflexivity|split; reflexivity]).
Qed.

Lemma opencode_execute_catches client args sessionID env :
  (forall e, outcome (Tool.execute client args sessionID) env <> Throw e)
  /\ (forall e,
        outcome (Tool.executeBody client args sessionID
                   (orString (action args) "help")) env = Throw e ->
        outcome (Tool.execute client args sessionID) env
        = Ret (Tool.failure (errMessage e))).
Proof.
  unfold outcome, run, Tool.execute, tryCatch.
  destruct (Tool.executeBody client args sessionID _ env []) as [[p|e'| |] log];
    cbv beta iota zeta.
  - split; [discriminate|discriminate].
  - destruct (opencode_catch_returns e' env log) as [log' ->]. simpl.
    split; [discriminate|]. intros e H. injection H as ->. reflexivity.
  - split; discriminate.
  - split; discriminate.
Qed.

Lemma gemini_handler_catches depth s args env :
  (forall e, outcome (GeminiTool.handler depth s args) env <> Throw e)
  /\ (forall e,
        outcome (GeminiTool.handlerBody depth s args
                   (orString (action args) "help")) env = Throw e ->
        exists payload,
          outcome (GeminiTool.handler depth s args) env = Ret payload
          /\ failurePayload payload (errMessage e)).
Proof.
  unfold outcome, run, GeminiTool.handler, tryCatch.
  destruct (GeminiTool.handlerBody depth s args _ env []) as [[p|e'| |] log];
    cbv beta iota zeta.
  - split; [discriminate|discriminate].
  - destruct (gemini_catch_returns e' env log) as [payload [-> Hp]]. simpl.
    split; [discriminate|]. intros e H. injection H as ->.
    exists payload. split; [reflexivity|exact Hp].
  - split; discriminate.
  - split; discriminate.
Qed.

(** C1. In both tools, for every action and arguments and every server
    behaviour, no exception leaves the handler; and every error raised
    while the action is handled (an unavailable error, an API error or
    any other exception) is returned as a payload with success false
    and the error's message. *)
Theorem tool_errors_become_payloads :
  (forall client args sessionID env,
     (forall e, outcome (Tool.execute client args sessionID) env <> Throw e)
     /\ (forall e,
           outcome (Tool.executeBody client args sessionID
                      (orString (action args) "help")) env = Throw e ->
           exists payload,
             outcome (Tool.execute client args sessionID) env = Ret payload
             /\ failurePayload payload (errMessage e)))
  /\ (forall depth s args env,
        (forall e, outcome (GeminiTool.handler depth s args) env <> Throw e)
        /\ (forall e,
              outcome (GeminiTool.handlerBody depth s args
                         (orString (action args) "help")) env = Throw e ->
              exists payload,
                outcome (GeminiTool.handler depth s args) env = Ret payload
                /\ failurePayload payload (errMessage e))).
Proof.
  split.
  - intros. destruct (opencode_execute_catches client args sessionID env) as [H1 H2].
    split; [exact H1|]. intros e He. eexists. split; [apply (H2 e He)|].
    split; reflexivity.
  - intros. apply gemini_handler_catches.
Qed.

Lemma tool_errors_become_payloads_witness :
  (exists payload,
     outcome (Tool.execute localClient (searchArgs "ports") (Some "s1"))
             (mkEnv refusingNet 0) = Ret payload
     /\ failurePayload payload "Cannot connect to Cognee server")
  /\ (exists payload,
        outcome (GeminiTool.handler 1 localSettings (searchArgs "ports"))
                (mkEnv refusingNet 0) = Ret payload
        /\ failurePayload payload
             "Cognee server unavailable. Start it with: uv run python -m cognee.api.client").
Proof.
  destruct tool_errors_become_payloads as [Ho Hg]. split.
  - destruct (Ho localClient (searchArgs "ports") (Some "s1") (mkEnv refusingNet 0))
      as [_ H].
    apply (H (OpenCode.newCogneeUnavailableError "Cannot connect to Cognee server")).
    reflexivity.
  - destruct (Hg 1%nat localSettings (searchArgs "ports") (mkEnv refusingNet 0))
      as [_ H].
    apply (H (newError "Cognee server unavailable. Start it with: uv run python -m cognee.api.client")).
    reflexivity.
Defined.

End Tools.

(** ** The tags of the [add] action *)

Section Tags.
Import Js ToolArgs.


End Tags.

(** ** Configuration loading *)

Section ConfigFacts.
Import Json Config.

Lemma spread_lookup (a b : gmap string Json.t) key :
  spread a b !! key =
  match b !! key with Some v => Some v | None => a !! key end.
Proof.
  unfold spread. rewrite lookup_union.
  destruct (b !! key), (a !! key); reflexivity.
Qed.

End ConfigFacts.

(** ** The OpenCode client, operation by operation *)

Section ClientOperations.
Import Js Json Eff Spec Spec2 OpenCode OpenCode.CogneeClient.



Lemma addMemory_general this content dataset nodeSets env log :
  addMemory this content dataset nodeSets env log
  = (writeOutcome "Cognee add failed"
       (net env (List.length (fetches log))
          (uploadOf this content (default "default_user" dataset)
             (default [] nodeSets))),
     (log ++ [Fetch (uploadOf this content (default "default_user" dataset)
                       (default [] nodeSets))])%list).
Proof.
  unfold addMemory, uploadOf, writeOutcome.
  unfold tryCatch, mbind, M_bind, bind, fetch, unavailable, checkOk,
    responseText, ret, throw.
  simpl.
  destruct nodeSets as [[|n ns]|]; cbn [default map]; unfold id;
    (destruct (net env _ _) as [t r| |]; simpl;
     [destruct (ok r); simpl| |]; reflexivity).
Qed.

Lemma cognify_general this dataset options env log :
  cognify this dataset options env log
  = (writeOutcome "Cognee cognify failed"
       (net env (List.length (fetches log))
          (postOf this "/api/v1/cognify"
             (cognifyBody (default "default_user" dataset) options))),
     (log ++ [Fetch (postOf this "/api/v1/cognify"
                       (cognifyBody (default "default_user" dataset) options))])%list).
Proof.
  unfold cognify, postOf, writeOutcome.
  unfold tryCatch, mbind, M_bind, bind, fetch, unavailable, checkOk,
    responseText, ret, throw.
  simpl.
  destruct (net env _ _) as [t r| |]; simpl;
    [destruct (ok r); simpl| |]; reflexivity.
Qed.

Lemma listDatasets_general this env log :
  listDatasets this env log
  = (readOutcome "Cognee list datasets failed" arrayOrEmpty
       (net env (List.length (fetches log)) (getOf this "/api/v1/datasets")),
     (log ++ [Fetch (getOf this "/api/v1/datasets")])%list).
Proof.
  unfold listDatasets, getOf, readOutcome.
  unfold tryCatch, mbind, M_bind, bind, fetch, unavailable, checkOk,
    responseJson, responseText, ret, throw.
  simpl.
  destruct (net env _ _) as [t r| |]; simpl;
    [destruct (ok r); simpl; [destruct (json r); simpl|]| |]; reflexivity.
Qed.



Lemma removeTrailingSlash_last s c :
  removeTrailingSlash (s ++ String c EmptyString)
  = if Ascii.eqb c "/" then s else s ++ String c EmptyString.
Proof.
  induction s as [|a s IH]; [simpl; destruct (Ascii.eqb c "/"); reflexivity|].
  change (String a s ++ String c EmptyString)
    with (String a (s ++ String c EmptyString)).
  destruct s as [|b s].
  - simpl. destruct (Ascii.eqb c "/"); reflexivity.
  - change (removeTrailingSlash (String a (String b s ++ String c EmptyString)))
      with (String a (removeTrailingSlash (String b s ++ String c EmptyString))).
    rewrite IH. destruct (Ascii.eqb c "/"); reflexivity.
Qed.

(** X4. The client's constructor removes exactly one trailing slash of
    the base URL and nothing else: a URL given with and without the
    slash makes the same client, a second slash stays, and a URL that
    ends in another character is kept as it is. *)
Theorem constructor_trailing_slash url token c :
  new (url ++ "/") token = mkClient url token
  /\ new (url ++ "//") token = mkClient (url ++ "/") token
  /\ new (url ++ String c EmptyString) token
     = mkClient (if Ascii.eqb c "/" then url else url ++ String c EmptyString) token
  /\ new EmptyString token = mkClient EmptyString token.
Proof.
  unfold new. repeat split.
  - rewrite (removeTrailingSlash_last url "/"). reflexivity.
  - replace (url ++ "//") with ((url ++ "/") ++ "/")
      by (rewrite append_assoc; reflexivity).
    rewrite (removeTrailingSlash_last (url ++ "/") "/"). reflexivity.
  - rewrite removeTrailingSlash_last. reflexivity.
Qed.

Lemma extractItems_nullFree items :
  forallb (fun i => negb (isNull i)) items = true ->
  extractItems items = inr (flat_map normalItem items).
Proof.
  induction items as [|item rest IH]; [reflexivity|].
  intros H. apply andb_prop in H as [Hi Hr].
  cbn [extractItems flat_map]. rewrite (IH Hr).
  assert (extractItem item = inr (normalItem item)) as ->; [|reflexivity].
  destruct item as [| | | | | |fields]; try discriminate; try reflexivity.
  unfold extractItem, prop, normalItem, firstText. simpl.
  destruct (truthy _); reflexivity.
Qed.

Lemma extractItems_null items :
  forallb (fun i => negb (isNull i)) items = false ->
  exists e, extractItems items = inl e /\ errClass e = TypeError.
Proof.
  induction items as [|item rest IH]; [discriminate|].
  intros H. cbn [forallb] in H. cbn [extractItems].
  destruct item as [| | | | | |fields];
    try (eexists; split; reflexivity);
    simpl in H; destruct (IH H) as (e & He & Hc); rewrite He.
  1-5: unfold extractItem, prop; simpl; eexists; split; [reflexivity|exact Hc].
  unfold extractItem, prop. simpl. destruct (truthy _); eexists; split;
    try reflexivity; exact Hc.
Qed.

Lemma flat_map_normalItem_length items :
  (List.length (flat_map normalItem items) <= List.length items)%nat.
Proof.
  induction items as [|i r IH]; [simpl; lia|].
  cbn [flat_map]. rewrite length_app. simpl.
  assert (List.length (normalItem i) <= 1)%nat; [|lia].
  destruct i; simpl; try lia. destruct (truthy _); simpl; lia.
Qed.

(** X5. extractSearchResults on any JSON value: when neither the value
    nor an item of its array (the value itself, or its results
    property) is null, it returns the records of the items in order,
    strings as their own content, objects with their first truthy
    content, text or result, everything else dropped; so it never
    returns more records than items and never a record without
    content.  When a null is met it raises a TypeError. *)
Theorem extractSearchResults_total data :
  (if nullFree data
   then extractSearchResults data = inr (normalized data)
   else exists e, extractSearchResults data = inl e /\ errClass e = TypeError)
  /\ (List.length (normalized data) <= List.length (payloadItems data)
      + (if isString data then 1 else 0))%nat
  /\ Forall (fun r => OpenCode.content r <> None) (normalized data).
Proof.
  split; [|split].
  - unfold nullFree.
    destruct data as [| | | |s|items|fields]; cbn [isNull negb andb payloadItems forallb];
      try reflexivity.
    + eexists; split; reflexivity.
    + destruct (forallb _ items) eqn:E;
        [apply extractItems_nullFree|apply extractItems_null]; exact E.
    + unfold extractSearchResults, prop, normalized. simpl.
      destruct (assoc "results" fields) as [[| | | | |items|]|]; try reflexivity.
      destruct (forallb _ items) eqn:E;
        [apply extractItems_nullFree|apply extractItems_null]; exact E.
  - destruct data as [| | | |s|items|fields]; simpl; try lia.
    + rewrite Nat.add_0_r. apply flat_map_normalItem_length.
    + destruct (assoc "results" fields) as [[| | | | |items|]|]; simpl; try lia.
      rewrite Nat.add_0_r. apply flat_map_normalItem_length.
  - apply normalized_content.
Qed.

End ClientOperations.

(** ** The Gemini server, operation by operation *)

Section GeminiServer.
Import Js Json Eff Spec Spec2 ToolArgs Gemini.

Ltac run_gemini :=
  unfold requests, outcome, run;
  unfold Server.cogneeRequest, tryCatch, mbind, M_bind, bind, fetch,
    responseJson, responseText, ret, throw;
  simpl; unfold mbind, M_bind, bind, ret, throw; simpl.

Lemma cogneeRequest_general s endpoint method body env log :
  Server.cogneeRequest s endpoint method body env log
  = (helperOutcome (net env (List.length (fetches log))
                      (helperRequest s endpoint method body)),
     (log ++ [Fetch (helperRequest s endpoint method body)])%list).
Proof.
  unfold Server.cogneeRequest, helperOutcome, helperError, refused, helperRequest.
  unfold tryCatch, mbind, M_bind, bind, fetch, responseJson, responseText, ret, throw.
  simpl.
  destruct (net env _ _) as [t r|t e|]; simpl; [| |reflexivity].
  - destruct (ok r); simpl; [destruct (json r); reflexivity|reflexivity].
  - destruct (errCauseCode e) as [code|]; [|reflexivity].
    destruct (String.eqb code "ECONNREFUSED"); reflexivity.
Qed.

Lemma handlerCatch_payload e env log :
  GeminiTool.handlerCatch e env log = (Ret (geminiFailure (errMessage e)), log).
Proof.
  unfold GeminiTool.handlerCatch, geminiFailure, object.
  destruct (includes "unavailable" (errMessage e)); reflexivity.
Qed.

Lemma gemini_addMemory_general s content dataset tags env log :
  Server.addMemory s content dataset tags env log
  = (match net env (List.length (fetches log))
             (geminiUploadOf s content dataset tags) with
     | Silent => Pending
     | Fails _ e => Throw e
     | Responds _ r =>
         if ok r then Ret true
         else Throw (newError ("Failed to add memory: " ++ numberToString (status r)))
     end,
     (log ++ [Fetch (geminiUploadOf s content dataset tags)])%list).
Proof.
  unfold Server.addMemory, geminiUploadOf, mbind, M_bind, bind, fetch, ret, throw.
  simpl. destruct (net env _ _) as [t r|t e|]; simpl; [|reflexivity|reflexivity].
  destruct (ok r); reflexivity.
Qed.

(** X7. The Gemini add action with content: it uploads the content to
    the dataset gemini_memories with the parsed tags, and sends the
    cognify request only after the upload was answered with a success
    status.  A transport failure of the upload is reported with the
    error's own message (the upload does not go through cogneeRequest,
    so a refused connection is not reworded), a non-success status as
    Failed to add memory with the status, a failure of cognify by the
    rules of cogneeRequest; the hint is part of the payload exactly when
    the message contains unavailable. *)
Theorem gemini_add_action depth s c content tags env :
  let args := addArgs c content tags in
  let up := geminiUploadOf s (String c content) "gemini_memories"
              (parseNodeSets tags) in
  let cog := geminiCognifyOf s "gemini_memories" in
  match net env O up with
  | Silent =>
      requests (GeminiTool.handler depth s args) env = [up]
      /\ outcome (GeminiTool.handler depth s args) env = Pending
  | Fails _ e =>
      requests (GeminiTool.handler depth s args) env = [up]
      /\ outcome (GeminiTool.handler depth s args) env
         = Ret (geminiFailure (errMessage e))
  | Responds _ r =>
      if ok r then
        requests (GeminiTool.handler depth s args) env = [up; cog]
        /\ outcome (GeminiTool.handler depth s args) env
           = match helperOutcome (net env 1%nat cog) with
             | Ret _ =>
                 Ret (JObj [("success", JBool true);
                            ("message",
                             JStr ("Memory added with tags ["
                                   ++ join ", " (parseNodeSets tags) ++ "]"));
                            ("preview", JStr (preview (String c content)))])
             | Throw e => Ret (geminiFailure (errMessage e))
             | Pending => Pending
             | Unfinished => Unfinished
             end
      else
        requests (GeminiTool.handler depth s args) env = [up]
        /\ outcome (GeminiTool.handler depth s args) env
           = Ret (geminiFailure ("Failed to add memory: "
                                 ++ numberToString (status r)))
  end.
Proof.
  cbv zeta.
  unfold requests, outcome, run, GeminiTool.handler, GeminiTool.handlerBody,
    addArgs, tryCatch, geminiCognifyOf, Server.cognify.
  cbn [ToolArgs.action ToolArgs.content ToolArgs.tags orString truthyString isEmpty negb missing
       String.eqb Ascii.eqb Bool.eqb default].
  unfold mbind, M_bind, bind.
  rewrite gemini_addMemory_general.
  change (fetches []) with (@nil Request). cbn [List.length app]. unfold id.
  destruct (net env O _) as [t r|t e|]; [|rewrite handlerCatch_payload|];
    try (split; reflexivity).
  destruct (ok r); [|rewrite handlerCatch_payload; split; reflexivity].
  rewrite cogneeRequest_general.
  change (fetches [Fetch ?r]) with [r]. cbn [List.length].
  destruct (helperOutcome _) as [j|e| |]; [| rewrite handlerCatch_payload | |];
    split; reflexivity.
Qed.

End GeminiServer.

(** ** The tool actions, reply by reply *)

Section ToolActions.
Import Js Json Eff Spec Spec2 ToolArgs OpenCode.

Lemma executeCatch_requests e env log :
  fst (Tool.executeCatch e env log) = Ret (Tool.failure (errMessage e))
  /\ fetches (snd (Tool.executeCatch e env log)) = fetches log.
Proof.
  unfold Tool.executeCatch, mbind, M_bind, bind, showToast, ret.
  destruct (instanceOf e CogneeUnavailableError);
    [|destruct (instanceOf e CogneeAPIError)];
    simpl; rewrite fetches_app, app_nil_r; split; reflexivity.
Qed.

(** X8. The OpenCode add action with content: it uploads the content to
    the dataset default_user with the parsed tags and sends the cognify
    request (temporal, for default_user) only after the upload was
    answered with a success status.  Every failure is returned as a
    failure payload with the error's message: Cannot connect to Cognee
    server for a transport failure, the body text after Cognee add
    failed or Cognee cognify failed for a non-success status.  On
    success the payload repeats the node sets and previews the content. *)
Theorem opencode_add_action client c rest tags sessionID env :
  let args := addArgs c rest tags in
  let content := String c rest in
  let up := uploadOf client content "default_user" (parseNodeSets tags) in
  let cog := postOf client "/api/v1/cognify"
               (CogneeClient.cognifyBody "default_user" CogneeClient.noOptions) in
  match net env O up with
  | Silent =>
      requests (Tool.execute client args sessionID) env = [up]
      /\ outcome (Tool.execute client args sessionID) env = Pending
  | Fails _ _ =>
      requests (Tool.execute client args sessionID) env = [up]
      /\ outcome (Tool.execute client args sessionID) env
         = Ret (Tool.failure "Cannot connect to Cognee server")
  | Responds _ r =>
      if ok r then
        requests (Tool.execute client args sessionID) env = [up; cog]
        /\ outcome (Tool.execute client args sessionID) env
           = match writeOutcome "Cognee cognify failed" (net env 1%nat cog) with
             | Ret _ =>
                 Ret (JObj [("success", JBool true);
                            ("message",
                             JStr ("Memory added with tags ["
                                   ++ join ", " (parseNodeSets tags) ++ "]: "
                                   ++ dquote ++ preview content ++ dquote));
                            ("nodeSets", strings (parseNodeSets tags))])
             | Throw e => Ret (Tool.failure (errMessage e))
             | Pending => Pending
             | Unfinished => Unfinished
             end
      else
        requests (Tool.execute client args sessionID) env = [up]
        /\ outcome (Tool.execute client args sessionID) env
           = Ret (Tool.failure ("Cognee add failed: " ++ text r))
  end.
Proof.
  cbv zeta.
  unfold requests, outcome, run, Tool.execute, Tool.executeBody, addArgs, tryCatch.
  cbn [ToolArgs.action ToolArgs.content ToolArgs.tags orString truthyString
       isEmpty negb missing String.eqb Ascii.eqb Bool.eqb default].
  unfold mbind, M_bind, bind.
  rewrite addMemory_general.
  change (fetches []) with (@nil Request). cbn [List.length app default]. unfold id.
  destruct (net env O _) as [t r|t e|]; cbn [writeOutcome].
  - destruct (ok r).
    + cbn [success negb]. rewrite cognify_general.
      change (fetches [Fetch ?r]) with [r]. cbn [List.length default]. unfold id.
      destruct (writeOutcome _ _) as [a|e| |]; try (split; reflexivity).
      match goal with
      | |- context [Tool.executeCatch ?e ?env ?l] =>
          destruct (executeCatch_requests e env l) as [H1 H2]
      end.
      destruct (Tool.executeCatch _ _ _) as [res l]. simpl in H1, H2.
      split; [exact H2|exact H1].
    + match goal with
      | |- context [Tool.executeCatch ?e ?env ?l] =>
          destruct (executeCatch_requests e env l) as [H1 H2]
      end.
      destruct (Tool.executeCatch _ _ _) as [res l]. simpl in H1, H2.
      split; [exact H2|exact H1].
  - match goal with
    | |- context [Tool.executeCatch ?e ?env ?l] =>
        destruct (executeCatch_requests e env l) as [H1 H2]
    end.
    destruct (Tool.executeCatch _ _ _) as [res l]. simpl in H1, H2.
    split; [exact H2|exact H1].
  - split; reflexivity.
Qed.

Lemma answers_ok env t v n req :
  answers env t v -> net env n req = Responds t (jsonReply v).
Proof. intros H. apply H. Qed.

Lemma jsonReply_ok v : ok (jsonReply v) = true /\ json (jsonReply v) = Some v.
Proof. split; reflexivity. Qed.

Lemma gemini_summaries_run items env log :
  GeminiTool.summaries items env log
  = (if nonNullItems items then Ret (map summaryOf items)
     else Throw (nullRead "id"), log).
Proof.
  induction items as [|d rest IH]; [reflexivity|].
  cbn [GeminiTool.summaries nonNullItems forallb map].
  unfold mbind, M_bind, bind. fold (nonNullItems rest).
  destruct d; cbn [isNull negb andb]; try reflexivity;
    unfold Gemini.prop; simpl; rewrite IH;
    destruct (nonNullItems rest); reflexivity.
Qed.

Lemma datasetSummaries_run items :
  Tool.datasetSummaries items
  = if nonNullItems items then inr (map summaryOf items) else inl (nullRead "id").
Proof.
  induction items as [|d rest IH]; [reflexivity|].
  cbn [Tool.datasetSummaries nonNullItems forallb map]. fold (nonNullItems rest).
  rewrite IH.
  destruct d; cbn [isNull negb andb]; unfold OpenCode.prop; simpl;
    destruct (nonNullItems rest); reflexivity.
Qed.

(** X9. The list action on a reply with a success status and the JSON
    value v.  Both tools answer an array of descriptors with their
    number and their id and name, and fail with a TypeError message
    when an item is null.  On a value that is not an array they differ:
    the OpenCode tool answers as for no datasets (count 0), the Gemini
    tool returns a failure (datasets.map is not a function, or the
    TypeError of reading length of null). *)
Theorem list_action_replies depth s client sessionID env t v :
  answers env t v ->
  outcome (GeminiTool.handler depth s listArgs) env
  = Ret (match v with
         | JArr items =>
             if nonNullItems items
             then JObj [("success", JBool true);
                        ("count", JNum (Z.of_nat (List.length items)));
                        ("datasets", JArr (map summaryOf items))]
             else geminiFailure (errMessage (nullRead "id"))
         | JNull => geminiFailure (errMessage (nullRead "length"))
         | _ => geminiFailure "datasets.map is not a function"
         end)
  /\ outcome (Tool.execute client listArgs sessionID) env
     = Ret (match v with
            | JArr (d :: ds) =>
                if nonNullItems (d :: ds)
                then JObj [("success", JBool true);
                           ("count", JNum (Z.of_nat (List.length (d :: ds))));
                           ("datasets", JArr (map summaryOf (d :: ds)))]
                else Tool.failure (errMessage (nullRead "id"))
            | _ => JObj [("success", JBool true); ("count", JNum 0);
                         ("message", JStr "No datasets found in Cognee")]
            end).
Proof.
  intros Hnet. split.
  - unfold outcome, run, GeminiTool.handler, GeminiTool.handlerBody, listArgs,
      tryCatch, Gemini.Server.listDatasets.
    cbn [ToolArgs.action orString truthyString isEmpty negb String.eqb Ascii.eqb
         Bool.eqb].
    unfold mbind, M_bind, bind.
    rewrite cogneeRequest_general, (answers_ok _ _ _ _ _ Hnet).
    cbn [helperOutcome].
    rewrite (proj1 (jsonReply_ok v)), (proj2 (jsonReply_ok v)). cbv beta iota.
    destruct v as [| | | | |items|]; try (cbn; reflexivity).
    cbn [GeminiTool.lengthOf GeminiTool.mapDatasets ret].
    unfold mbind, M_bind, bind. rewrite gemini_summaries_run.
    destruct (nonNullItems items); [reflexivity|].
    rewrite handlerCatch_payload. reflexivity.
  - unfold outcome, run, Tool.execute, Tool.executeBody, listArgs, tryCatch.
    cbn [ToolArgs.action orString truthyString isEmpty negb String.eqb Ascii.eqb
         Bool.eqb].
    unfold mbind, M_bind, bind.
    rewrite listDatasets_general, (answers_ok _ _ _ _ _ Hnet).
    cbn [readOutcome].
    rewrite (proj1 (jsonReply_ok v)), (proj2 (jsonReply_ok v)). cbv beta iota.
    destruct v as [| | | | |[|d ds]|]; try reflexivity.
    cbn [arrayOrEmpty]. unfold liftE. rewrite datasetSummaries_run.
    destruct (nonNullItems (d :: ds)); [reflexivity|].
    unfold mbind, M_bind, bind, throw.
    match goal with
    | |- context [Tool.executeCatch ?e ?env ?l] =>
        destruct (executeCatch_requests e env l) as [H1 _]
    end.
    destruct (Tool.executeCatch _ _ _) as [res l]. exact H1.
Qed.

Lemma list_action_replies_witness :
  outcome (GeminiTool.handler 0 localSettings listArgs)
          (mkEnv (answeringNet (JObj [("detail", JStr "none")])) 0)
  = Ret (geminiFailure "datasets.map is not a function")
  /\ outcome (Tool.execute localClient listArgs None)
             (mkEnv (answeringNet (JObj [("detail", JStr "none")])) 0)
     = Ret (JObj [("success", JBool true); ("count", JNum 0);
                  ("message", JStr "No datasets found in Cognee")]).
Proof.
  apply (list_action_replies 0 localSettings localClient None
           (mkEnv (answeringNet (JObj [("detail", JStr "none")])) 0) 1
           (JObj [("detail", JStr "none")])).
  intros n req. reflexivity.
Defined.

(** X10. The OpenCode search and timeline actions on a reply of one of
    the three payload shapes that arrives within three seconds.  The
    count is the number of memories found, while the results are cut to
    topK (10 when the argument is absent or 0), each reduced to its
    content.  The timeline action ignores the searchType and topK
    arguments: it reports TEMPORAL and cuts to 15, keeping the metadata.
    When nothing is found both answer with count 0 and a message
    quoting the query. *)
Theorem opencode_search_action client c q st k sessionID env t data :
  (forall req, net env O req = Responds t (jsonReply data)) ->
  t < 3000 ->
  searchPayload data = true ->
  outcome (Tool.execute client (queryArgs "search" c q st k) sessionID) env
  = Ret (match normalized data with
         | [] =>
             JObj [("success", JBool true); ("query", JStr (String c q));
                   ("searchType", JStr (orString st "GRAPH_COMPLETION"));
                   ("count", JNum 0);
                   ("message", JStr ("No memories found for: " ++ dquote
                                     ++ String c q ++ dquote))]
         | found =>
             JObj [("success", JBool true); ("query", JStr (String c q));
                   ("searchType", JStr (orString st "GRAPH_COMPLETION"));
                   ("count", JNum (Z.of_nat (List.length found)));
                   ("results",
                    JArr (map (fun r => object [("content", OpenCode.content r)])
                            (slice0 (orNumber k 10) found)))]
         end)
  /\ outcome (Tool.execute client (queryArgs "timeline" c q st k) sessionID) env
     = Ret (match normalized data with
            | [] =>
                JObj [("success", JBool true); ("query", JStr (String c q));
                      ("count", JNum 0);
                      ("message", JStr ("No temporal events found for: " ++ dquote
                                        ++ String c q ++ dquote))]
            | found =>
                JObj [("success", JBool true); ("query", JStr (String c q));
                      ("searchType", JStr "TEMPORAL");
                      ("count", JNum (Z.of_nat (List.length found)));
                      ("results",
                       JArr (map (fun r => object [("content", OpenCode.content r);
                                                   ("metadata", OpenCode.metadata r)])
                               (slice0 15 found)))]
            end).
Proof.
  intros Hnet Ht Hdata. split.
  - pose proof (opencode_search_normalizes client (String c q)
                  (Some (orString st "GRAPH_COMPLETION")) (Some (orNumber k 10))
                  sessionID None env t data Hnet Ht Hdata) as H.
    unfold outcome, run in *.
    unfold Tool.execute, queryArgs. cbn [ToolArgs.action].
    change (orString (Some "search") "help") with "search".
    unfold Tool.executeBody.
    change (String.eqb "search" "help") with false.
    change (String.eqb "search" "search") with true.
    cbn [ToolArgs.query ToolArgs.searchType ToolArgs.topK missing isEmpty default].
    cbv iota. unfold tryCatch, mbind, M_bind, bind.
    destruct (CogneeClient.searchMemories _ _ _ _ _ _ env []) as [res log].
    simpl in H. subst res. destruct (normalized data); reflexivity.
  - pose proof (opencode_search_normalizes client (String c q)
                  (Some "TEMPORAL") (Some 15)
                  sessionID None env t data Hnet Ht Hdata) as H.
    unfold outcome, run in *.
    unfold Tool.execute, queryArgs. cbn [ToolArgs.action].
    change (orString (Some "timeline") "help") with "timeline".
    unfold Tool.executeBody.
    change (String.eqb "timeline" "help") with false.
    change (String.eqb "timeline" "search") with false.
    change (String.eqb "timeline" "timeline") with true.
    cbn [ToolArgs.query missing isEmpty default].
    cbv iota. unfold tryCatch, mbind, M_bind, bind.
    destruct (CogneeClient.searchMemories _ _ _ _ _ _ env []) as [res log].
    simpl in H. subst res. destruct (normalized data); reflexivity.
Qed.

Lemma opencode_search_action_witness :
  outcome (Tool.execute localClient
             (queryArgs "search" "p" "lan" None (Some 1)) None)
          (mkEnv (answeringNet (JArr [JStr "a"; JStr "b"])) 0)
  = Ret (JObj [("success", JBool true); ("query", JStr "plan");
               ("searchType", JStr "GRAPH_COMPLETION"); ("count", JNum 2);
               ("results", JArr [JObj [("content", JStr "a")]])]).
Proof.
  apply (opencode_search_action localClient "p" "lan" None (Some 1) None
           (mkEnv (answeringNet (JArr [JStr "a"; JStr "b"])) 0) 1
           (JArr [JStr "a"; JStr "b"])).
  - intros req. reflexivity.
  - lia.
  - reflexivity.
Defined.

(** X26. The Gemini search and timeline actions on a reply that is an
    array of strings and objects.  The count is the length of the
    array, while the results are cut to topK (10 when the argument is
    absent or 0), one content per item; an empty array is answered
    with count 0 and no results, not with a message.  The timeline
    action ignores the searchType and topK arguments: it reports
    TEMPORAL and cuts to 15. *)
Theorem gemini_search_action depth s c q st k env t items :
  (forall req, net env O req = Responds t (jsonReply (JArr items))) ->
  forallb stringOrObject items = true ->
  outcome (GeminiTool.handler depth s (queryArgs "search" c q st k)) env
  = Ret (JObj [("success", JBool true); ("query", JStr (String c q));
               ("searchType", JStr (orString st "GRAPH_COMPLETION"));
               ("count", JNum (Z.of_nat (List.length items)));
               ("results",
                GeminiTool.memories (slice0 (orNumber k 10) (map memoryOf items)))])
  /\ outcome (GeminiTool.handler depth s (queryArgs "timeline" c q st k)) env
     = Ret (JObj [("success", JBool true); ("query", JStr (String c q));
                  ("searchType", JStr "TEMPORAL");
                  ("count", JNum (Z.of_nat (List.length items)));
                  ("results",
                   GeminiTool.memories (slice0 15 (map memoryOf items)))]).
Proof.
  intros Hnet Hitems. split.
  - pose proof (gemini_search_array depth s (JStr (String c q))
                  (Some (orString st "GRAPH_COMPLETION")) (Some (orNumber k 10))
                  None env t items Hnet Hitems) as H.
    unfold outcome, run in *.
    unfold GeminiTool.handler, queryArgs. cbn [ToolArgs.action].
    change (orString (Some "search") "help") with "search".
    unfold GeminiTool.handlerBody.
    change (String.eqb "search" "help") with false.
    change (String.eqb "search" "search") with true.
    cbn [ToolArgs.query ToolArgs.searchType ToolArgs.topK missing isEmpty default].
    cbv iota. unfold tryCatch, mbind, M_bind, bind.
    destruct (Gemini.Server.searchMemories _ _ _ _ _ _ env []) as [res log].
    simpl in H. subst res. cbv beta iota delta [ret fst].
    rewrite length_map. reflexivity.
  - pose proof (gemini_search_array depth s (JStr (String c q))
                  (Some "TEMPORAL") (Some 15)
                  None env t items Hnet Hitems) as H.
    unfold outcome, run in *.
    unfold GeminiTool.handler, queryArgs. cbn [ToolArgs.action].
    change (orString (Some "timeline") "help") with "timeline".
    unfold GeminiTool.handlerBody.
    change (String.eqb "timeline" "help") with false.
    change (String.eqb "timeline" "search") with false.
    change (String.eqb "timeline" "timeline") with true.
    cbn [ToolArgs.query missing isEmpty default].
    cbv iota. unfold tryCatch, mbind, M_bind, bind.
    destruct (Gemini.Server.searchMemories _ _ _ _ _ _ env []) as [res log].
    simpl in H. subst res. cbv beta iota delta [ret fst].
    rewrite length_map. reflexivity.
Qed.

Lemma gemini_search_action_witness :
  outcome (GeminiTool.handler 0 localSettings
             (queryArgs "search" "p" "lan" None (Some 1)))
          (mkEnv (answeringNet (JArr [JStr "a"; JStr "b"])) 0)
  = Ret (JObj [("success", JBool true); ("query", JStr "plan");
               ("searchType", JStr "GRAPH_COMPLETION"); ("count", JNum 2);
               ("results", JArr [JObj [("content", JStr "a")]])]).
Proof.
  apply (gemini_search_action 0 localSettings "p" "lan" None (Some 1)
           (mkEnv (answeringNet (JArr [JStr "a"; JStr "b"])) 0) 1
           [JStr "a"; JStr "b"]).
  - intros req. reflexivity.
  - reflexivity.
Defined.

(** X11. A call whose action is none of search, timeline, add and list
    sends no request, in both tools.  An absent or empty action, like
    help, answers with the usage guide; any other action is answered
    with a failure payload that names it. *)
Theorem other_actions_offline depth s client args sessionID env :
  let action := orString (ToolArgs.action args) "help" in
  offline action = true ->
  requests (Tool.execute client args sessionID) env = []
  /\ requests (GeminiTool.handler depth s args) env = []
  /\ outcome (Tool.execute client args sessionID) env
     = Ret (if String.eqb action "help" then Tool.helpPayload
            else Tool.failure ("Unknown action: " ++ action
                               ++ ". Use 'search', 'add', 'list', or 'help'"))
  /\ outcome (GeminiTool.handler depth s args) env
     = Ret (if String.eqb action "help" then GeminiTool.helpPayload
            else GeminiTool.failure ("Unknown action: " ++ action)).
Proof.
  cbv zeta. unfold offline, requests, outcome, run, Tool.execute, GeminiTool.handler,
    Tool.executeBody, GeminiTool.handlerBody, tryCatch.
  intros H. apply negb_true_iff in H.
  apply orb_false_iff in H as [H Hlist].
  apply orb_false_iff in H as [H Hadd].
  apply orb_false_iff in H as [Hsearch Htimeline].
  rewrite Hsearch, Htimeline, Hadd, Hlist.
  destruct (String.eqb _ "help"); repeat split; reflexivity.
Qed.

Lemma other_actions_offline_witness :
  outcome (Tool.execute localClient
             (mkArgs (Some "delete") None None None None None) None)
          (mkEnv silentNet 0)
  = Ret (Tool.failure "Unknown action: delete. Use 'search', 'add', 'list', or 'help'").
Proof.
  apply (other_actions_offline 0 localSettings localClient
           (mkArgs (Some "delete") None None None None None) None
           (mkEnv silentNet 0)).
  reflexivity.
Defined.

End ToolActions.

(** ** The Gemini hook scripts *)

Section Hooks.
Import Js Json Eff Spec Spec2 Gemini GeminiHooks GeminiStart.

Lemma settle_timeout ms reply :
  settle (TimeoutAfter ms) reply
  = match arrived ms reply with
    | Some r => Ret r
    | None =>
        Throw (match reply with
               | Fails t e => if t <? ms then e else timeoutError
               | _ => timeoutError
               end)
    end.
Proof.
  unfold arrived, settle, deadline.
  destruct reply as [t r|t e|]; try reflexivity; destruct (t <? ms); reflexivity.
Qed.

Lemma contextPart_run m env log :
  contextPart m env log
  = (if isNull m then Throw (nullRead "content") else Ret (contextText m), log).
Proof. destruct m; reflexivity. Qed.

Lemma contextParts_run ms env log :
  contextParts ms env log
  = (if nonNullItems ms then Ret (map contextText ms)
     else Throw (nullRead "content"), log).
Proof.
  induction ms as [|m rest IH]; [reflexivity|].
  cbn [contextParts nonNullItems forallb map]. fold (nonNullItems rest).
  unfold mbind, M_bind, bind. rewrite contextPart_run.
  destruct (isNull m); [reflexivity|]. rewrite IH.
  destruct (nonNullItems rest); reflexivity.
Qed.

(** X12. The session-start hook never throws and never waits without
    limit: on every network it prints an object with a systemMessage,
    after the health probe alone or after the probe and one search, and
    both requests carry a timeout. *)
Theorem sessionStart_always_answers s config env :
  (exists text extra,
     outcome (sessionStart s config) env
     = Ret (JObj (("systemMessage", JStr text) :: extra)))
  /\ (requests (sessionStart s config) env = [probeRequest s 3000]
      \/ requests (sessionStart s config) env
         = [probeRequest s 3000; hookSearch s config startQuery]).
Proof.
  unfold requests, outcome, run, sessionStart, tryCatch, mbind, M_bind, bind, fetch.
  cbn [reqSignal]. rewrite settle_timeout.
  destruct (arrived 3000 _) as [r0|];
    [|split; [do 2 eexists; reflexivity|left; reflexivity]].
  destruct (ok r0); cbn [negb];
    [|split; [do 2 eexists; reflexivity|left; reflexivity]].
  rewrite settle_timeout.
  destruct (arrived _ _) as [r1|];
    [|split; [do 2 eexists; reflexivity|right; reflexivity]].
  destruct (ok r1); cbn [negb];
    [|split; [do 2 eexists; reflexivity|right; reflexivity]].
  unfold responseJson.
  destruct (json r1) as [[| | | | |[|m ms]|]|];
    try (split; [do 2 eexists; reflexivity|right; reflexivity]).
  cbv beta iota delta [ret]. rewrite contextParts_run.
  destruct (nonNullItems _);
    split; try (do 2 eexists; reflexivity); right; reflexivity.
Qed.



(** X15. The session-end hook never throws and never waits without
    limit; it sends the probe, then the upload, then the cognify
    request, each with a timeout, and stops at the first one that is
    not answered in time or (probe and upload) answered without a
    success status.  Only a probe answered without success is reported
    as offline; every other failure prints an empty object.  The
    session is reported as saved as soon as the cognify request is
    answered in time, whatever its status. *)
Theorem sessionEnd_outcomes s session_id reason transcript env :
  let record :=
    sessionRecord session_id reason (recordedContent session_id reason transcript)
      (now env) in
  let probe := probeRequest s 2000 in
  let up := geminiUpload s record (sessionTag (now env)) in
  let cog := geminiCognify s in
  match arrived 2000 (net env O probe) with
  | None =>
      requests (sessionEnd s session_id reason transcript) env = [probe]
      /\ outcome (sessionEnd s session_id reason transcript) env = Ret (JObj [])
  | Some h =>
      if ok h then
        match arrived 5000 (net env 1%nat up) with
        | None =>
            requests (sessionEnd s session_id reason transcript) env = [probe; up]
            /\ outcome (sessionEnd s session_id reason transcript) env
               = Ret (JObj [])
        | Some a =>
            if ok a then
              requests (sessionEnd s session_id reason transcript) env
              = [probe; up; cog]
              /\ outcome (sessionEnd s session_id reason transcript) env
                 = Ret (match arrived 5000 (net env 2%nat cog) with
                        | Some _ => savedMessage
                        | None => JObj []
                        end)
            else
              requests (sessionEnd s session_id reason transcript) env
              = [probe; up]
              /\ outcome (sessionEnd s session_id reason transcript) env
                 = Ret (JObj [])
        end
      else
        requests (sessionEnd s session_id reason transcript) env = [probe]
        /\ outcome (sessionEnd s session_id reason transcript) env
           = Ret notSavedMessage
  end.
Proof.
  cbv zeta.
  unfold requests, outcome, run, sessionEnd, tryCatch, mbind, M_bind, bind, fetch,
    dateNow.
  cbn [reqSignal]. rewrite settle_timeout.
  change (net env (List.length (fetches [])) ?r) with (net env O r).
  fold (probeRequest s 2000).
  destruct (arrived 2000 _) as [h|]; [|split; reflexivity].
  destruct (ok h); cbn [negb]; [|split; reflexivity].
  rewrite settle_timeout.
  change (net env (List.length (fetches ([] ++ [Fetch ?a])%list)) ?r)
    with (net env 1%nat r).
  fold (recordedContent session_id reason transcript).
  match goal with
  | |- context [net env 1%nat ?r] =>
      change r with (geminiUpload s
                       (sessionRecord session_id reason
                          (recordedContent session_id reason transcript) (now env))
                       (sessionTag (now env)))
  end.
  destruct (arrived 5000 _) as [a|]; [|split; reflexivity].
  destruct (ok a); [|split; reflexivity].
  rewrite settle_timeout.
  change (net env (List.length (fetches (([] ++ [Fetch ?a])%list
                                         ++ [Fetch ?b])%list)) ?r)
    with (net env 2%nat r).
  match goal with
  | |- context [net env 2%nat ?r] => change r with (geminiCognify s)
  end.
  destruct (arrived 5000 _) as [c|]; split; reflexivity.
Qed.

Lemma sliceLast_map {A B} (f : A -> B) n l :
  sliceLast n (map f l) = map f (sliceLast n l).
Proof. unfold sliceLast. rewrite length_map. apply skipn_map. Qed.

Lemma summaryParts_lines msgs :
  summaryParts (map (fun m => JObj [("role", JStr (fst m));
                                    ("content", JStr (snd m))]) msgs)
  = Some (map summaryLine msgs).
Proof.
  induction msgs as [|[r c] rest IH]; [reflexivity|].
  cbn [map summaryParts]. rewrite IH.
  unfold summaryPart, messageContent, summaryLine. cbn.
  destruct r; reflexivity.
Qed.

(** X16. The summary the session-end hook uploads for a transcript of
    messages with a role and a text: one line per message for the last
    ten messages only, each text cut to 500 characters, an empty role
    shown as unknown, the lines separated by an empty line.  Earlier
    messages are not uploaded. *)
Theorem summarize_last_ten msgs :
  summarize (transcriptOf msgs)
  = join (nl ++ nl) (map summaryLine (sliceLast 10 msgs)).
Proof.
  unfold summarize, transcriptOf.
  destruct msgs as [|m rest]; [reflexivity|].
  change (getProp (JObj ?f) "messages") with (Some (assoc "messages" f)).
  change (getProp (JObj ?f) "turns") with (Some (assoc "turns" f)).
  cbn [assoc String.eqb Ascii.eqb Bool.eqb map Json.or truthy].
  set (f := fun m0 : string * string => JObj _).
  change (JObj [("role", JStr (fst m)); ("content", JStr (snd m))] :: map f rest)
    with (map f (m :: rest)).
  rewrite sliceLast_map. unfold f. rewrite summaryParts_lines. reflexivity.
Qed.

Lemma summaryParts_unreadable msgs :
  existsb unreadable msgs = true -> summaryParts msgs = None.
Proof.
  induction msgs as [|m rest IH]; [discriminate|].
  cbn [existsb summaryParts]. intros H.
  apply orb_true_iff in H as [H|H].
  - unfold summaryPart, messageContent.
    unfold unreadable, present in H.
    destruct (getProp m "content") as [[c|]|]; try discriminate;
      destruct (getProp m "role"); reflexivity.
  - rewrite (IH H). destruct (summaryPart m); reflexivity.
Qed.

(** X17. The summary is all or nothing: when one of the last ten
    messages of the transcript is null or has no content, the whole
    summary is dropped and the hook records only that the session
    ended, with its identifier and the reason. *)
Theorem summary_all_or_nothing session_id reason items :
  existsb unreadable (sliceLast 10 items) = true ->
  recordedContent session_id reason
    (Parsed (JObj [("messages", JArr items)]))
  = "Session " ++ session_id ++ " ended (" ++ reason ++ ")".
Proof.
  intros H.
  assert (summarize (Parsed (JObj [("messages", JArr items)])) = EmptyString) as E.
  { unfold summarize.
    destruct items as [|m rest]; [discriminate|].
    change (getProp (JObj ?f) "messages") with (Some (assoc "messages" f)).
    change (getProp (JObj ?f) "turns") with (Some (assoc "turns" f)).
    cbn [assoc String.eqb Ascii.eqb Bool.eqb Json.or truthy].
    rewrite (summaryParts_unreadable _ H). reflexivity. }
  unfold recordedContent. rewrite E. reflexivity.
Qed.

Lemma summary_all_or_nothing_witness :
  recordedContent "s1" "exit"
    (Parsed (JObj [("messages", JArr [Spec.userMessage "hello"; JNull])]))
  = "Session s1 ended (exit)".
Proof.
  apply (summary_all_or_nothing "s1" "exit" [Spec.userMessage "hello"; JNull]).
  reflexivity.
Defined.

End Hooks.

(** ** The OpenCode plugin, hook by hook *)

Section PluginHooks.
Import Js Json Eff Spec Spec2 OpenCode Plugin.

Lemma injectMemories_run config sessionID userMessage output env log :
  exists output' pre req rest,
    injectMemories config sessionID userMessage output env log
    = (Ret output', (log ++ Fetch req :: rest)%list)
    /\ isSearch config req
    /\ fetches rest = []
    /\ messageId output' = messageId output
    /\ parts output' = (pre ++ parts output)%list
    /\ (List.length pre <= 1)%nat
    /\ Forall (fun p => synthetic p = true) pre.
Proof.
  destruct (opencode_search_log (cogneeClient config) userMessage
              (injectionSearchType config) (injectionTopK config)
              (Some sessionID) None env log) as (req & Hlog & Hurl).
  unfold injectMemories, tryCatch, mbind, M_bind, bind.
  destruct (opencode_search_outcome (cogneeClient config) userMessage
              (injectionSearchType config) (injectionTopK config)
              (Some sessionID) None env log) as [log' [[r H]|[e H]]];
    rewrite H in Hlog |- *; simpl in Hlog; subst log'.
  - destruct r as [|m ms].
    + exists output, [], req, []. repeat split; try assumption; auto.
    + eexists _, [_], req, [_]. unfold dateNow, showToast, ret.
      cbv beta iota. rewrite <- app_assoc.
      repeat split; try assumption; auto.
  - destruct (instanceOf e CogneeUnavailableError);
      eexists output, [], req, [_]; unfold showToast, ret; cbv beta iota;
      rewrite <- app_assoc; repeat split; try assumption; auto.
Qed.

Lemma fetches_cons e l :
  fetches (e :: l)
  = match e with Fetch r => r :: fetches l | Toast _ _ => fetches l end.
Proof. destruct e; reflexivity. Qed.

Lemma chatMessage_run config sessionID st output env log :
  exists st' output' pre reqs log',
    chatMessage config sessionID st output env log = (Ret (st', output'), log')
    /\ messageId output' = messageId output
    /\ parts output'
       = (pre ++ parts output ++ nudgeFor config sessionID output (now env))%list
    /\ (List.length pre <= 1)%nat
    /\ Forall (fun p => synthetic p = true) pre
    /\ fetches log' = (fetches log ++ reqs)%list
    /\ Forall (isSearch config) reqs
    /\ List.length reqs = searchesFor sessionID st output.
Proof.
  unfold chatMessage, nudgeFor, searchesFor, userText, tryCatch.
  destruct (List.filter _ (parts output)) as [|p ps].
  { exists st, output, [], [], log. rewrite !app_nil_r.
    repeat split; auto. }
  destruct (isEmpty (trim _)).
  { exists st, output, [], [], log. rewrite !app_nil_r.
    repeat split; auto. }
  unfold mbind, M_bind, bind, dateNow.
  destruct (detectMemoryKeyword config _); cbv beta iota;
    destruct (bool_decide (sessionID ∈ injectedSessions st)); cbn [negb].
  - eexists _, _, [], [], _. unfold showToast, ret. cbv beta iota.
    split; [reflexivity|]. cbn [messageId parts app].
    repeat split; auto.
    rewrite fetches_app. reflexivity.
  - unfold showToast. cbv beta iota delta [ret].
    match goal with
    | |- context [injectMemories ?c ?s ?m ?o ?e ?l] =>
        destruct (injectMemories_run c s m o e l)
          as (o' & pre & req & rest & Hrun & Hurl & Hrest & Hid & Hparts & Hlen & Hsyn);
        rewrite Hrun
    end.
    eexists _, o', pre, [req], _. cbv beta iota.
    split; [reflexivity|].
    cbn [messageId parts] in Hid, Hparts.
    repeat split; auto.
    rewrite !fetches_app, !fetches_cons, Hrest.
    rewrite !app_nil_r. reflexivity.
  - eexists _, _, [], [], _. unfold ret. cbv beta iota.
    split; [reflexivity|]. cbn [app].
    rewrite !app_nil_r. repeat split; auto.
  - cbv beta iota delta [ret].
    match goal with
    | |- context [injectMemories ?c ?s ?m ?o ?e ?l] =>
        destruct (injectMemories_run c s m o e l)
          as (o' & pre & req & rest & Hrun & Hurl & Hrest & Hid & Hparts & Hlen & Hsyn);
        rewrite Hrun
    end.
    eexists _, o', pre, [req], _. cbv beta iota.
    split; [reflexivity|].
    rewrite !app_nil_r.
    repeat split; auto.
    rewrite !fetches_app, !fetches_cons, Hrest.
    reflexivity.
Qed.

(** X18. Memories are injected at most once per session.  A call of
    the chat.message hook with text always returns; it sends one search
    when the session has no injection mark yet and nothing otherwise.
    After the call the mark is set, whatever became of the search, so
    every later call for the session sends no request: a failed first
    search is not retried. *)
Theorem memories_injected_once config sessionID st output env text :
  userText output = Some text ->
  exists st' output',
    outcome (chatMessage config sessionID st output) env = Ret (st', output')
    /\ (if bool_decide (sessionID ∈ injectedSessions st)
        then requests (chatMessage config sessionID st output) env = []
        else exists req,
               requests (chatMessage config sessionID st output) env = [req]
               /\ isSearch config req)
    /\ sessionID ∈ injectedSessions st'
    /\ forall output2 env2,
         requests (chatMessage config sessionID st' output2) env2 = [].
Proof.
  intros Htext. unfold requests, outcome, run.
  destruct (chatMessage_run config sessionID st output env [])
    as (st' & o' & pre & reqs & l' & Hrun & _ & _ & _ & _ & Hreqs & Hsearch & Hlen).
  destruct (chatMessage_returns config sessionID st output env [])
    as (o2 & l2 & Hret).
  rewrite Htext in Hret. rewrite Hrun in Hret.
  injection Hret as Hst _ _.
  assert (sessionID ∈ injectedSessions st') as Hin.
  { rewrite Hst. unfold tracked. cbn [injectedSessions].
    destruct (bool_decide (sessionID ∈ injectedSessions st)) eqn:E.
    - apply bool_decide_eq_true in E. exact E.
    - apply elem_of_union. left. apply elem_of_singleton. reflexivity. }
  exists st', o'. rewrite Hrun. cbn [fst snd].
  unfold searchesFor in Hlen. rewrite Htext in Hlen.
  split; [reflexivity|]. split; [|split; [exact Hin|]].
  - rewrite Hreqs. cbn [fetches omap app].
    destruct (bool_decide (sessionID ∈ injectedSessions st)).
    + destruct reqs; [reflexivity|discriminate].
    + destruct reqs as [|req [|]]; try discriminate.
      exists req. split; [reflexivity|].
      apply Forall_cons in Hsearch as [H _]. exact H.
  - intros output2 env2.
    destruct (chatMessage_run config sessionID st' output2 env2 [])
      as (st2 & o2' & pre2 & reqs2 & l2' & Hrun2 & _ & _ & _ & _ & Hreqs2 & _ & Hlen2).
    rewrite Hrun2. cbn [snd]. rewrite Hreqs2. cbn [fetches omap app].
    unfold searchesFor in Hlen2.
    rewrite (bool_decide_eq_true_2 _ Hin) in Hlen2.
    destruct (userText output2); destruct reqs2; try discriminate; reflexivity.
Qed.

Lemma memories_injected_once_witness :
  exists st' output',
    outcome (chatMessage DEFAULT_CONFIG "ses" initialState (textOutput "hello"))
            (mkEnv refusingNet 0) = Ret (st', output')
    /\ (if bool_decide ("ses" ∈ injectedSessions initialState)
        then requests (chatMessage DEFAULT_CONFIG "ses" initialState
                         (textOutput "hello")) (mkEnv refusingNet 0) = []
        else exists req,
               requests (chatMessage DEFAULT_CONFIG "ses" initialState
                           (textOutput "hello")) (mkEnv refusingNet 0) = [req]
               /\ isSearch DEFAULT_CONFIG req)
    /\ "ses" ∈ injectedSessions st'
    /\ forall output2 env2,
         requests (chatMessage DEFAULT_CONFIG "ses" st' output2) env2 = [].
Proof.
  apply (memories_injected_once DEFAULT_CONFIG "ses" initialState
           (textOutput "hello") (mkEnv refusingNet 0) "hello").
  reflexivity.
Defined.






End PluginHooks.

(** ** Tags, previews and the configuration file *)

Section TagsAndFiles.
Import Js Json Eff Spec Spec2 ToolArgs Config ConfigFiles.







Lemma trimStart_separators s :
  mentions "," s = false -> onlySeparators s = true -> trimStart s = EmptyString.
Proof.
  induction s as [|a s IH]; [reflexivity|].
  cbn [mentions onlySeparators trimStart]. intros Hm Ho.
  apply orb_false_iff in Hm as [Ha Hm].
  apply andb_true_iff in Ho as [Hw Ho].
  rewrite Ha in Hw. cbn [orb] in Hw. rewrite Hw. apply IH; assumption.
Qed.




Lemma take_all n s : (String.length s <= n)%nat -> take n s = s.
Proof.
  revert n. induction s as [|a s IH]; intros [|n] H; simpl in *;
    try reflexivity; try lia.
  f_equal. apply IH. lia.
Qed.

Lemma length_take n s : String.length (take n s) = Nat.min n (String.length s).
Proof.
  revert n. induction s as [|a s IH]; intros [|n]; simpl; try reflexivity.
  f_equal. apply IH.
Qed.

Lemma take_take_append n s t : take n (take n s ++ t) = take n s \/ (String.length s < n)%nat.
Proof.
  revert n. induction s as [|a s IH]; intros [|n]; simpl.
  - left; reflexivity.
  - right; lia.
  - left; reflexivity.
  - destruct (IH n) as [H|H]; [left; f_equal; exact H|right; lia].
Qed.

Lemma drop_take_append n :
  forall s t, (n <= String.length s)%nat -> drop n (take n s ++ t) = t.
Proof.
  induction n as [|n IH]; intros s t H.
  - destruct s; destruct t; reflexivity.
  - destruct s as [|a s]; simpl in H; [lia|].
    simpl. apply IH. lia.
Qed.

(** X24. The preview of a memory in the answer of the add action:
    content of at most 100 characters is shown whole; longer content is
    cut to its first 100 characters followed by three dots, 103
    characters in all. *)
Theorem preview_bounds content :
  if (String.length content <=? 100)%nat then preview content = content
  else String.length (preview content) = 103%nat
       /\ take 100 (preview content) = take 100 content
       /\ drop 100 (preview content) = "...".
Proof.
  unfold preview.
  destruct (String.length content <=? 100)%nat eqn:E.
  - apply Nat.leb_le in E.
    assert ((100 <? String.length content)%nat = false) as ->
      by (apply Nat.ltb_ge; exact E).
    rewrite append_nil_r. apply take_all. exact E.
  - apply Nat.leb_gt in E.
    assert ((100 <? String.length content)%nat = true) as ->
      by (apply Nat.ltb_lt; exact E).
    split; [|split].
    + rewrite length_append, length_take. simpl String.length. lia.
    + destruct (take_take_append 100 content "...") as [H|H]; [exact H|lia].
    + apply drop_take_append. lia.
Qed.

Lemma replaceChar_mentions a b s :
  a <> b -> mentions a (replaceChar a b s) = false.
Proof.
  intros Hab. induction s as [|c s IH]; [reflexivity|].
  cbn [replaceChar mentions]. rewrite IH, orb_false_r.
  destruct (Ascii.eqb c a) eqn:E; [|exact E].
  apply Ascii.eqb_neq. congruence.
Qed.

Lemma mentions_append c a b :
  mentions c (a ++ b) = mentions c a || mentions c b.
Proof.
  induction a as [|x a IH]; [reflexivity|].
  change (String x a ++ b) with (String x (a ++ b)).
  cbn [mentions]. rewrite IH. apply orb_assoc.
Qed.

(** X27. The date tag both adapters put on a saved session starts with
    session_ and holds no hyphen, whatever the time: the hyphens of the
    ISO date are all replaced.  The plugin tags a session with the date
    of its start, the session-end hook with the date of the run. *)
Theorem session_tag_format state ms :
  Plugin.sessionNodeSets state
  = ["sessions"; "conversations"; dateTag (Plugin.startTime state)]
  /\ GeminiHooks.sessionTag ms = dateTag ms
  /\ startsWith "session_" (dateTag ms) = true
  /\ mentions "-" (dateTag ms) = false.
Proof.
  split; [reflexivity|]. split; [reflexivity|]. split; [reflexivity|].
  unfold dateTag. rewrite mentions_append, replaceChar_mentions by discriminate.
  reflexivity.
Qed.

Lemma ownProperties_defaults defaults (D : gmap string Json.t) :
  D = list_to_map defaults -> spread D (ownProperties (JObj defaults)) = D.
Proof.
  intros ->. apply map_eq. intros key. rewrite spread_lookup.
  unfold ownProperties. destruct (_ !! key); reflexivity.
Qed.

End TagsAndFiles.

(** ** Every behaviour of the server, through the runtime *)

Section ThroughTheRuntime.
Import Js Json Eff Spec Spec2 Spec3 OpenCode OpenCode.CogneeClient.




Lemma helperOutcome_runtime behaviour :
  requestedAs behaviour (helperOutcome (runtime behaviour)).
Proof.
  unfold requestedAs, transport, runtime.
  destruct behaviour as [t r|t e|]; [| |reflexivity];
    (destruct (t <? fetchLimit); [|reflexivity]); [|reflexivity].
  cbn [helperOutcome]. destruct (ok r); [|reflexivity].
  destruct (json r); [reflexivity|]. eexists. split; reflexivity.
Qed.





(** X6. cogneeRequest of the Gemini server sends one request without a
    signal, with the JSON content type and the bearer token when one is
    set.  Whatever the server does, the call settles.  It returns the
    parsed body on a success status; a body that is not JSON raises a
    SyntaxError; any other status raises an error with the status and
    the body text; a refused connection becomes the error that says the
    server is unavailable, while every other transport failure keeps
    its own error, the runtime's fetch failed for a server that does
    not answer among them.  cognify and listDatasets behave the same
    way on their endpoints. *)
Theorem cogneeRequest_outcomes s endpoint method body dataset temporal server now :
  let env := mkEnv (served server) now in
  (requests (Gemini.Server.cogneeRequest s endpoint method body) env
   = [helperRequest s endpoint method body]
   /\ reqSignal (helperRequest s endpoint method body) = NoSignal
   /\ requestedAs (server O (helperRequest s endpoint method body))
        (outcome (Gemini.Server.cogneeRequest s endpoint method body) env))
  /\ requestedAs (server O (helperRequest s "/api/v1/datasets" GET NoBody))
       (outcome (Gemini.Server.listDatasets s) env)
  /\ requestedAs
       (server O (helperRequest s "/api/v1/cognify" POST
                    (JsonBody (JObj [("datasets", JArr [JStr dataset]);
                                     ("temporal_cognify", JBool temporal)]))))
       (outcome (Gemini.Server.cognify s dataset temporal) env)
  /\ (forall e, refused e = true -> errMessage (helperError e) = unavailableMessage)
  /\ (forall e, refused e = false -> helperError e = e)
  /\ helperError fetchFailed = fetchFailed.
Proof.
  cbv zeta.
  unfold requests, outcome, run, Gemini.Server.listDatasets, Gemini.Server.cognify.
  rewrite !cogneeRequest_general. cbn [fst snd net]. unfold served.
  change (List.length (fetches [])) with O.
  split; [split; [reflexivity|split; [reflexivity|apply helperOutcome_runtime]]|].
  split; [apply helperOutcome_runtime|].
  split; [apply helperOutcome_runtime|].
  repeat split; unfold helperError; intros e ->; reflexivity.
Qed.

Lemma cogneeRequest_outcomes_witness :
  errMessage (helperError (mkError TypeError "TypeError" "fetch failed" None
                             (Some "ECONNREFUSED"))) = unavailableMessage
  /\ helperError (mkError TypeError "TypeError" "fetch failed" None (Some "ENOTFOUND"))
     = mkError TypeError "TypeError" "fetch failed" None (Some "ENOTFOUND").
Proof.
  destruct (cogneeRequest_outcomes localSettings "/api/v1/datasets" GET NoBody
              "d" true silentNet 0) as (_ & _ & _ & H1 & H2 & _).
  split; [apply H1|apply H2]; reflexivity.
Defined.

(** X21. Plugin start-up sends one health probe, without a signal, and
    always returns, whatever the server does: it never throws and never
    shows the toast Cognee connection failed.  It shows the toast
    Cognee unavailable exactly when the probe is not answered with a
    success status, the runtime giving up on a server that does not
    answer among the failures, and shows nothing on success. *)
Theorem init_outcomes config server now :
  let probe := healthRequest (baseUrl (Plugin.cogneeClient config)) in
  run (Plugin.init config) (mkEnv (served server) now)
  = (Ret tt,
     Fetch probe
     :: match transport (server O probe) with
        | inl r => if ok r then [] else [Toast "Cognee unavailable" "error"]
        | inr _ => [Toast "Cognee unavailable" "error"]
        end).
Proof.
  cbv zeta. unfold run, Plugin.init, healthCheck, healthRequest.
  unfold tryCatch, mbind, M_bind, bind, fetch. cbn [net reqSignal].
  change (List.length (fetches [])) with O.
  unfold served, transport, runtime.
  destruct (server O _) as [t r|t e|]; [| |reflexivity];
    (destruct (t <? fetchLimit); [|reflexivity]); simpl;
    [destruct (ok r)|]; reflexivity.
Qed.





Lemma late_not_before reply ms :
  late reply ms -> settle (AbortAfter ms) reply = Throw abortError.
Proof.
  unfold settle, deadline.
  destruct reply as [t r|t e|]; simpl; intros H; [| |reflexivity];
    (destruct (t <? ms) eqn:E; [apply Z.ltb_lt in E; lia|reflexivity]).
Qed.

Lemma late_runtime behaviour ms :
  ms <= fetchLimit -> late behaviour ms -> late (runtime behaviour) ms.
Proof.
  unfold runtime, late. intros Hms.
  destruct behaviour as [t r|t e|]; intros H; [| |exact Hms];
    (destruct (t <? fetchLimit); [exact H|exact Hms]).
Qed.

Lemma opencode_search_run this query searchType topK sessionId timeoutMs env log :
  let req := searchRequest this query searchType topK sessionId timeoutMs in
  snd (searchMemories this query searchType topK sessionId timeoutMs env log)
  = (log ++ [Fetch req])%list
  /\ match settle (reqSignal req) (net env (List.length (fetches log)) req) with
     | Ret r => True
     | Throw e =>
         fst (searchMemories this query searchType topK sessionId timeoutMs env log)
         = Throw (newCogneeUnavailableError
                    (if String.eqb (errName e) "AbortError"
                     then "Cognee search timed out"
                     else "Cannot connect to Cognee server"))
     | _ => False
     end
  /\ fst (searchMemories this query searchType topK sessionId timeoutMs env log)
     <> Pending.
Proof.
  cbv zeta. unfold searchMemories, searchRequest.
  unfold tryCatch, mbind, M_bind, bind, fetch.
  cbv beta iota zeta. cbn [reqSignal].
  destruct (settle _ _) as [r|e| |] eqn:E; cbn [fst snd].
  - split; [|split; [exact I|]].
    + unfold checkOk. destruct (ok r); simpl; [|reflexivity].
      unfold responseJson. destruct (json r) as [j|]; simpl; [|reflexivity].
      destruct (extractSearchResults j); reflexivity.
    + unfold checkOk. destruct (ok r); simpl; [|discriminate].
      unfold responseJson. destruct (json r) as [j|]; simpl; [|discriminate].
      destruct (extractSearchResults j); discriminate.
  - destruct (String.eqb _ _); repeat split; discriminate.
  - exfalso. unfold settle, deadline in E.
    destruct (net env _ _) as [t r|t e|]; [| |discriminate];
      destruct (t <? _); discriminate.
  - exfalso. unfold settle, deadline in E.
    destruct (net env _ _) as [t r|t e|]; [| |discriminate];
      destruct (t <? _); discriminate.
Qed.

Lemma gemini_search_first depth s query searchType topK sessionId env :
  let req := geminiSearchRequest s query searchType topK sessionId in
  (forall items,
     net env O req = Responds (match net env O req with
                               | Responds t _ => t | _ => 0 end)
                       (jsonReply (JArr items)) ->
     forallb stringOrObject items = true ->
     requests (Gemini.Server.searchMemories depth s query searchType topK sessionId)
       env = [req]
     /\ outcome (Gemini.Server.searchMemories depth s query searchType topK
                   sessionId) env = Ret (map memoryOf items))
  /\ (forall t e,
        net env O req = Fails t e ->
        requests (Gemini.Server.searchMemories depth s query searchType topK
                    sessionId) env = [req]
        /\ outcome (Gemini.Server.searchMemories depth s query searchType topK
                      sessionId) env = Throw (helperError e)).
Proof.
  cbv zeta. unfold requests, outcome, run, geminiSearchRequest.
  split.
  - intros items Hnet Hitems.
    destruct depth; cbn [Gemini.Server.searchMemories];
      unfold mbind, M_bind, bind; rewrite cogneeRequest_general;
      change (List.length (fetches [])) with O; rewrite Hnet;
      cbn [helperOutcome]; rewrite (proj1 (jsonReply_ok _)), (proj2 (jsonReply_ok _));
      cbv beta iota; rewrite (gemini_normalizeItems _ _ _ Hitems);
      split; reflexivity.
  - intros t e Hnet.
    destruct depth; cbn [Gemini.Server.searchMemories];
      unfold mbind, M_bind, bind; rewrite cogneeRequest_general;
      change (List.length (fetches [])) with O; rewrite Hnet;
      split; reflexivity.
Qed.

(** C3, as the code has it.  The OpenCode client passes an abort signal
    with its POST to the search endpoint, fired after timeoutMs (3000
    by default): the fetch settles within that time, and whenever no
    response has arrived by then searchMemories raises
    CogneeUnavailableError, the class it also raises for an unreachable
    server, with the message Cognee search timed out when timeoutMs is
    not above the runtime's own limit.  The Gemini server's searchMemories
    passes no signal: a reply that comes late is waited for and
    returned, and when the server does not answer the call ends only
    when the runtime gives up, with the runtime's own error, which does
    not report the service as unavailable. *)
Theorem search_deadline :
  (forall this query searchType topK sessionId timeoutMs server now,
     let ms := default 3000 timeoutMs in
     let req := searchRequest this query searchType topK sessionId timeoutMs in
     let search := searchMemories this query searchType topK sessionId timeoutMs in
     let env := mkEnv (served server) now in
     requests search env = [req]
     /\ reqSignal req = AbortAfter ms
     /\ (exists t, waited search env = Some t /\ t <= ms)
     /\ (ms <= fetchLimit -> late (server O req) ms ->
         outcome search env
         = Throw (newCogneeUnavailableError "Cognee search timed out"))
     /\ (forall t e, server O req = Fails t e ->
         exists e', outcome search env = Throw e'
                    /\ errClass e' = CogneeUnavailableError)
     /\ (late (server O req) ms ->
         exists e', outcome search env = Throw e'
                    /\ errClass e' = CogneeUnavailableError))
  /\ (forall depth s query searchType topK sessionId server now,
        let req := geminiSearchRequest s query searchType topK sessionId in
        let search :=
          Gemini.Server.searchMemories depth s query searchType topK sessionId in
        let env := mkEnv (served server) now in
        reqSignal req = NoSignal
        /\ (forall t items,
              server O req = Responds t (jsonReply (JArr items)) ->
              t < fetchLimit ->
              forallb stringOrObject items = true ->
              requests search env = [req]
              /\ outcome search env = Ret (map memoryOf items)
              /\ waited search env = Some t)
        /\ (server O req = Silent ->
            requests search env = [req]
            /\ outcome search env = Throw fetchFailed
            /\ waited search env = Some fetchLimit)
        /\ ~ reportsUnavailable fetchFailed).
Proof.
  split.
  - intros this query searchType topK sessionId timeoutMs server now.
    cbv zeta. unfold requests, outcome, waited, requests, run.
    destruct (opencode_search_run this query searchType topK sessionId timeoutMs
                (mkEnv (served server) now) []) as (Hlog & Hthrow & Hpend).
    cbv zeta in Hlog, Hthrow. rewrite Hlog.
    change (fetches ([] ++ [Fetch ?r])%list) with [r].
    change (List.length (fetches [])) with O in Hthrow.
    cbn [net] in Hthrow.
    change (served server O ?r) with (runtime (server O r)) in Hthrow.
    split; [reflexivity|]. split; [reflexivity|]. split; [|split; [|split]].
    + cbn [waitFrom net]. unfold served.
      change (reqSignal (searchRequest this query searchType topK sessionId
                           timeoutMs))
        with (AbortAfter (default 3000 timeoutMs)).
      unfold settledAt. cbn [deadline].
      destruct (runtime _) as [t r|t e|]; eexists; (split; [reflexivity|lia]).
    + intros Hms Hlate.
      change (reqSignal (searchRequest this query searchType topK sessionId
                           timeoutMs))
        with (AbortAfter (default 3000 timeoutMs)) in Hthrow.
      rewrite (late_not_before _ _ (late_runtime _ _ Hms Hlate)) in Hthrow.
      exact Hthrow.
    + intros t e Hnet. rewrite Hnet in Hthrow.
      change (reqSignal (searchRequest this query searchType topK sessionId
                           timeoutMs))
        with (AbortAfter (default 3000 timeoutMs)) in Hthrow.
      unfold runtime, settle in Hthrow. cbn [deadline] in Hthrow.
      destruct (t <? fetchLimit);
        [destruct (t <? default 3000 timeoutMs)
        |destruct (fetchLimit <? default 3000 timeoutMs)];
        rewrite Hthrow; eexists; split; reflexivity.
    + intros Hlate.
      change (reqSignal (searchRequest this query searchType topK sessionId
                           timeoutMs))
        with (AbortAfter (default 3000 timeoutMs)) in Hthrow.
      unfold runtime, settle in Hthrow. cbn [deadline] in Hthrow.
      destruct (server O _) as [t r|t e|]; unfold late in Hlate;
        [destruct (t <? fetchLimit);
           [destruct (t <? default 3000 timeoutMs) eqn:E;
              [apply Z.ltb_lt in E; lia|]
           |destruct (fetchLimit <? default 3000 timeoutMs)]
        |destruct (t <? fetchLimit);
           [destruct (t <? default 3000 timeoutMs) eqn:E;
              [apply Z.ltb_lt in E; lia|]
           |destruct (fetchLimit <? default 3000 timeoutMs)]
        |destruct (fetchLimit <? default 3000 timeoutMs)];
        rewrite Hthrow; eexists; split; reflexivity.
  - intros depth s query searchType topK sessionId server now. cbv zeta.
    split; [reflexivity|]. split; [|split].
    + intros t items Hnet Ht Hitems.
      assert (net (mkEnv (served server) now) O
                (geminiSearchRequest s query searchType topK sessionId)
              = Responds t (jsonReply (JArr items))) as Hserved.
      { cbn [net]. unfold served. rewrite Hnet. unfold runtime.
        apply Z.ltb_lt in Ht. rewrite Ht. reflexivity. }
      destruct (proj1 (gemini_search_first depth s query searchType topK sessionId
                         (mkEnv (served server) now)) items) as [R Hout].
      { rewrite Hserved. reflexivity. }
      { exact Hitems. }
      split; [exact R|]. split; [exact Hout|].
      unfold waited. rewrite R. cbn [waitFrom]. rewrite Hserved.
      cbn. f_equal. lia.
    + intros Hnet.
      assert (net (mkEnv (served server) now) O
                (geminiSearchRequest s query searchType topK sessionId)
              = Fails fetchLimit fetchFailed) as Hserved.
      { cbn [net]. unfold served. rewrite Hnet. reflexivity. }
      destruct (proj2 (gemini_search_first depth s query searchType topK sessionId
                         (mkEnv (served server) now)) _ _ Hserved) as [R Hout].
      split; [exact R|]. split; [exact Hout|].
      unfold waited. rewrite R. cbn [waitFrom]. rewrite Hserved. reflexivity.
    + intros [H|H]; discriminate H.
Qed.

Lemma search_deadline_witness :
  outcome (searchMemories localClient "ports" None None None None)
          (mkEnv (served slowNet) 0)
  = Throw (newCogneeUnavailableError "Cognee search timed out")
  /\ outcome (Gemini.Server.searchMemories 1 localSettings (JStr "ports")
                None None None)
             (mkEnv (served slowNet) 0)
     = Ret (map memoryOf [JStr "a"]).
Proof.
  destruct search_deadline as [Ho Hg]. split.
  - apply (Ho localClient "ports" None None None None slowNet 0).
    + unfold fetchLimit. cbn. lia.
    + cbn. lia.
  - destruct (Hg 1%nat localSettings (JStr "ports") None None None slowNet 0)
      as (_ & Hlate & _).
    apply (Hlate 10000 [JStr "a"]).
    + reflexivity.
    + unfold fetchLimit. lia.
    + reflexivity.
Defined.

(** C3, as the specification words it, fails for the Gemini server.
    Against a server that answers after ten seconds its searchMemories
    waits the ten seconds and returns the reply, where the OpenCode
    client gives up after three; against a server that does not answer
    it raises the runtime's fetch failed after five minutes.  So for no
    number of milliseconds does it enforce a timeout that ends in an
    unavailable error. *)
Lemma gemini_search_has_no_timeout :
  outcome (Gemini.Server.searchMemories 1 localSettings (JStr "ports")
             None None None)
          (mkEnv (served slowNet) 0)
  = Ret [Gemini.Server.mkMemory (Some (JStr "a"))]
  /\ waited (Gemini.Server.searchMemories 1 localSettings (JStr "ports")
               None None None)
            (mkEnv (served slowNet) 0) = Some 10000
  /\ outcome (searchMemories localClient "ports" None None None None)
             (mkEnv (served slowNet) 0)
     = Throw (newCogneeUnavailableError "Cognee search timed out")
  /\ outcome (Gemini.Server.searchMemories 1 localSettings (JStr "ports")
                None None None)
             (mkEnv (served silentNet) 0)
     = Throw fetchFailed
  /\ forall ms,
       ~ timesOutWithin (Gemini.Server.searchMemories 1 localSettings (JStr "ports")
                           None None None) ms.
Proof.
  split; [reflexivity|]. split; [reflexivity|]. split; [reflexivity|].
  split; [reflexivity|].
  intros ms H.
  destruct (H silentNet 0) as [e [He Hu]]; [intros n req; exact I|].
  assert (e = fetchFailed) as -> by (injection He as <-; reflexivity).
  destruct Hu as [Hu|Hu]; discriminate Hu.
Qed.

End ThroughTheRuntime.

(** ** The life of a session, for every behaviour of the server *)

Section SessionLife.
Import Js Json Eff Spec Spec2 Spec3 OpenCode Plugin.









End SessionLife.

(** ** The tags of the add action and the loaded configuration *)

Section TagsAndConfig.
Import Js Json Eff Spec Spec2 Spec3 ToolArgs Config.




Lemma lookup_list_to_map_assoc (fields : list (string * Json.t)) key :
  (list_to_map fields : gmap string Json.t) !! key = assoc key fields.
Proof.
  induction fields as [|[k v] rest IH]; [apply lookup_empty|].
  rewrite list_to_map_cons. cbn [assoc].
  destruct (String.eqb_spec key k) as [->|Hne].
  - apply lookup_insert_eq.
  - rewrite lookup_insert_ne by congruence. exact IH.
Qed.

Lemma lookup_indexed {A} (l : list A) off key :
  (list_to_map (indexedFrom (Z.of_nat off) l) : gmap string A) !! key
  = match List.find (fun i => String.eqb (numberToString (Z.of_nat i)) key)
            (seq off (List.length l)) with
    | Some i => nth_error l (i - off)
    | None => None
    end.
Proof.
  revert off. induction l as [|x r IH]; intros off; [apply lookup_empty|].
  cbn [indexedFrom List.length seq List.find]. rewrite list_to_map_cons.
  replace (Z.of_nat off + 1) with (Z.of_nat (S off)) by lia.
  destruct (String.eqb_spec (numberToString (Z.of_nat off)) key) as [<-|Hne].
  - rewrite lookup_insert_eq, Nat.sub_diag. reflexivity.
  - rewrite lookup_insert_ne by congruence. rewrite IH.
    destruct (List.find _ (seq (S off) (List.length r))) as [i|] eqn:E;
      [|reflexivity].
    apply find_some in E as [Hin _]. apply in_seq in Hin.
    replace (i - off)%nat with (S (i - S off)) by lia. reflexivity.
Qed.

Lemma chars_nth s i :
  nth_error (chars s) i
  = option_map (fun c => JStr (String c EmptyString)) (String.get i s).
Proof.
  unfold chars. revert i. induction s as [|c s IH]; intros [|i]; try reflexivity.
  cbn [list_ascii_of_string map nth_error String.get]. apply IH.
Qed.

Lemma chars_length s : List.length (chars s) = String.length s.
Proof.
  unfold chars. rewrite length_map.
  induction s as [|c s IH]; [reflexivity|]. cbn. f_equal. exact IH.
Qed.

Lemma loadConfig_overrides D userConfig :
  exists config,
    loadConfig D (Valid userConfig) = inr config
    /\ overrides D config userConfig.
Proof.
  eexists. split; [reflexivity|].
  intros key. rewrite spread_lookup.
  destruct userConfig as [| | | |s|items|fields]; cbn [ownProperties];
    try (rewrite lookup_empty; reflexivity);
    try change (indexedFrom 0 ?l) with (indexedFrom (Z.of_nat O) l).
  - rewrite (lookup_indexed (chars s) O key), chars_length. unfold indexKey.
    destruct (List.find _ _) as [i|] eqn:E; [|reflexivity].
    apply find_some in E as [Hin _]. apply in_seq in Hin.
    rewrite Nat.sub_0_r, <- chars_nth.
    destruct (nth_error (chars s) i) eqn:En; [reflexivity|].
    apply nth_error_None in En. rewrite chars_length in En. lia.
  - rewrite (lookup_indexed items O key). unfold indexKey.
    destruct (List.find _ _) as [i|] eqn:E; [|reflexivity].
    apply find_some in E as [Hin _]. apply in_seq in Hin.
    rewrite Nat.sub_0_r.
    destruct (nth_error items i) eqn:En; [reflexivity|].
    apply nth_error_None in En. lia.
  - rewrite lookup_list_to_map_assoc. reflexivity.
Qed.

Lemma loadConfig_shallowLoad D : shallowLoad (loadConfig D) D.
Proof.
  unfold shallowLoad. repeat split; try reflexivity.
  apply loadConfig_overrides.
Qed.

(** C10. loadConfig never throws.  In both adapters it returns exactly
    the defaults when the file is absent, unreadable or unparsable, and
    otherwise the defaults overridden, key by key, by the top-level
    properties of the parsed file: a key of the file takes the file's
    value whole, every other key keeps its default.  A file with two
    keys overrides both and nothing else; a file that gives injection
    with topK only replaces the whole default injection object, so
    searchType (and timeout) are gone while the other defaults stay. *)
Theorem loadConfig_total_shallow :
  (forall file, exists config, Gemini.loadConfig file = inr config)
  /\ (forall file, exists config, OpenCode.loadConfig file = inr config)
  /\ shallowLoad Gemini.loadConfig Gemini.DEFAULT_CONFIG
  /\ shallowLoad OpenCode.loadConfig OpenCode.DEFAULT_CONFIG
  /\ Gemini.loadConfig (Valid twoKeys)
     = inr (<["cogneeUrl" := JStr "http://memory:9000"]>
              (<["maxMemories" := JNum 2]> Gemini.DEFAULT_CONFIG))
  /\ OpenCode.loadConfig (Valid twoKeys)
     = inr (<["cogneeUrl" := JStr "http://memory:9000"]>
              (<["maxMemories" := JNum 2]> OpenCode.DEFAULT_CONFIG))
  /\ Gemini.loadConfig (Valid partialInjection)
     = inr (<["injection" := JObj [("topK", JNum 7)]]> Gemini.DEFAULT_CONFIG)
  /\ OpenCode.loadConfig (Valid partialInjection)
     = inr (<["injection" := JObj [("topK", JNum 7)]]> OpenCode.DEFAULT_CONFIG)
  /\ Gemini.DEFAULT_CONFIG !! "injection"
     = Some (JObj [("searchType", JStr "CHUNKS"); ("topK", JNum 3);
                   ("timeout", JNum 2000)])
  /\ OpenCode.DEFAULT_CONFIG !! "injection"
     = Some (JObj [("searchType", JStr "CHUNKS"); ("topK", JNum 3)]).
Proof.
  split; [intros [| | |u]; eexists; reflexivity|].
  split; [intros [| | |u]; eexists; reflexivity|].
  split; [apply loadConfig_shallowLoad|].
  split; [apply loadConfig_shallowLoad|].
  assert (forall (D : gmap string Json.t) fields (expected : gmap string Json.t),
            (forall key, expected !! key
                         = match assoc key fields with
                           | Some v => Some v
                           | None => D !! key
                           end) ->
            loadConfig D (Valid (JObj fields)) = inr expected) as Hload.
  { intros D fields expected H.
    destruct (loadConfig_overrides D (JObj fields)) as (config & -> & Hov).
    f_equal. apply map_eq. intros key. rewrite (Hov key), H. reflexivity. }
  assert (forall (D : gmap string Json.t) k1 v1 k2 v2 key,
            k1 <> k2 ->
            (<[k1 := v1]> (<[k2 := v2]> D)) !! key
            = match assoc key [(k1, v1); (k2, v2)] with
              | Some v => Some v
              | None => D !! key
              end) as Htwo.
  { intros D k1 v1 k2 v2 key Hne. cbn [assoc].
    destruct (String.eqb_spec key k1) as [->|H1];
      [apply lookup_insert_eq|rewrite lookup_insert_ne by congruence].
    destruct (String.eqb_spec key k2) as [->|H2];
      [apply lookup_insert_eq|rewrite lookup_insert_ne by congruence].
    reflexivity. }
  assert (forall (D : gmap string Json.t) k1 v1 key,
            (<[k1 := v1]> D) !! key
            = match assoc key [(k1, v1)] with
              | Some v => Some v
              | None => D !! key
              end) as Hone.
  { intros D k1 v1 key. cbn [assoc].
    destruct (String.eqb_spec key k1) as [->|H1];
      [apply lookup_insert_eq|rewrite lookup_insert_ne by congruence].
    reflexivity. }
  split; [apply Hload; intros key; apply Htwo; discriminate|].
  split; [apply Hload; intros key; apply Htwo; discriminate|].
  split; [apply Hload; intros key; apply Hone|].
  split; [apply Hload; intros key; apply Hone|].
  split; vm_compute; reflexivity.
Qed.

End TagsAndConfig.

(** ** The before-agent hook, the nudge and the configuration file *)

Section HooksAndFiles.
Import Js Json Eff Spec Spec2 Spec3 Gemini GeminiHooks Config ConfigFiles.

Lemma settle_answer req behaviour :
  reqSignal req <> NoSignal ->
  settle (reqSignal req) (runtime behaviour)
  = match answer req behaviour with
    | Some r => Ret r
    | None =>
        Throw (match settle (reqSignal req) (runtime behaviour) with
               | Throw e => e
               | _ => timeoutError
               end)
    end.
Proof.
  unfold answer. intros Hsig.
  destruct (settle _ _) as [r|e| |] eqn:E; try reflexivity; exfalso;
    unfold settle, deadline in E;
    destruct (reqSignal req); try congruence;
    destruct (runtime behaviour) as [t r|t e|]; try discriminate;
    destruct (t <? ms); discriminate.
Qed.

(** X14. The before-agent hook, for a configuration whose keywords are
    taken literally by the regular expression.  Whatever the server
    does, it returns.  For an absent or blank prompt it prints an empty
    object and sends nothing.  Otherwise it prints the trigger block,
    when the trigger fires, followed by the context of the first five
    memories, when a search was sent and answered in time with a
    success status and an array that is not empty.  The search, for the
    prompt as typed, is sent only when the configuration's injection is
    an object whose timeout is an integer that AbortSignal.timeout
    accepts; with any other configuration no request is sent at all,
    and with a failed, late or refused search only the context is
    missing. *)
Theorem beforeAgent_outcomes s config prompt server now :
  Forall plainKeyword (Agent.keywordPatterns config) ->
  let p := default EmptyString prompt in
  let env := mkEnv (served server) now in
  let trigger :=
    if Trigger.MEMORY_KEYWORDS (Agent.keywordPatterns config)
         (Trigger.removeCodeBlocks p)
    then [MEMORY_TRIGGER_BLOCK] else [] in
  if blank prompt then
    requests (Agent.beforeAgent s config prompt) env = []
    /\ outcome (Agent.beforeAgent s config prompt) env = Ret (JObj [])
  else
    match agentSearch s config p with
    | Some req =>
        requests (Agent.beforeAgent s config prompt) env = [req]
        /\ outcome (Agent.beforeAgent s config prompt) env
           = Ret (hookOutput "BeforeAgent"
                    (trigger ++ foundContext (answer req (server O req)))%list)
    | None =>
        requests (Agent.beforeAgent s config prompt) env = []
        /\ outcome (Agent.beforeAgent s config prompt) env
           = Ret (hookOutput "BeforeAgent" trigger)
    end.
Proof.
  intros _. cbv zeta. unfold blank, requests, outcome, run, Agent.beforeAgent.
  destruct prompt as [p|]; [|split; reflexivity].
  destruct (isEmpty (trim p)); [split; reflexivity|].
  change (default EmptyString (Some p)) with p.
  unfold agentSearch, Agent.searchContext, mbind, M_bind, bind, tryCatch.
  unfold mbind, M_bind, bind, prop.
  destruct (Agent.injection config) as [| | | | | |fields]; cbn [getProp];
    try (cbv beta iota delta [Agent.timeoutSignal ret throw undefined];
         destruct (Trigger.MEMORY_KEYWORDS _ _); split; reflexivity).
  cbv beta iota delta [ret].
  destruct (assoc "timeout" fields) as [[| |ms| | | |]|];
    try (cbv beta iota delta [Agent.timeoutSignal ret throw];
         destruct (Trigger.MEMORY_KEYWORDS _ _); split; reflexivity).
  cbn [Agent.timeoutSignal].
  destruct ((0 <=? ms) && (ms <=? 4294967295));
    [|cbv beta iota delta [throw];
      destruct (Trigger.MEMORY_KEYWORDS _ _); split; reflexivity].
  cbv beta iota delta [ret]. unfold fetch.
  change (List.length (fetches [])) with O. cbn [net]. unfold served.
  match goal with
  | |- context [settle (reqSignal ?r) (runtime ?b)] =>
      rewrite (settle_answer r b) by discriminate;
      destruct (answer r b) as [r1|]
  end; cbn [foundContext];
    [|rewrite app_nil_r;
      destruct (Trigger.MEMORY_KEYWORDS _ _); split; reflexivity].
  destruct (ok r1);
    [|rewrite app_nil_r;
      destruct (Trigger.MEMORY_KEYWORDS _ _); split; reflexivity].
  unfold responseJson.
  destruct (json r1) as [[| | | | |[|m ms']|]|];
    try (rewrite app_nil_r;
         destruct (Trigger.MEMORY_KEYWORDS _ _); split; reflexivity).
  cbv beta iota delta [ret]. rewrite contextParts_run. unfold contextOf.
  destruct (nonNullItems _); [|rewrite app_nil_r];
    destruct (Trigger.MEMORY_KEYWORDS _ _); split; reflexivity.
Qed.

Lemma default_keywords_plain : Forall plainKeyword Trigger.defaultKeywordPatterns.
Proof. repeat constructor. Qed.

Lemma beforeAgent_outcomes_witness :
  requests (Agent.beforeAgent localSettings Agent.defaultConfig
              (Some "please remember this"))
           (mkEnv (served silentNet) 0)
  = [mkRequest "http://localhost:8000/api/v1/search" POST
       [("Content-Type", "application/json")]
       (JsonBody (JObj [("query", JStr "please remember this");
                        ("search_type", JStr "CHUNKS"); ("top_k", JNum 3)]))
       (TimeoutAfter 2000)]
  /\ outcome (Agent.beforeAgent localSettings Agent.defaultConfig
                (Some "please remember this"))
             (mkEnv (served silentNet) 0)
     = Ret (hookOutput "BeforeAgent" [MEMORY_TRIGGER_BLOCK]).
Proof.
  apply (beforeAgent_outcomes localSettings Agent.defaultConfig
           (Some "please remember this") silentNet 0).
  exact default_keywords_plain.
Defined.

(** X19. The chat.message hook, for a configuration whose keywords are
    taken literally by the regular expression, never drops, reorders or
    rewrites the parts of the message: what it returns is the parts it
    was given, with at most one synthetic part (the remembered context)
    in front, and the synthetic nudge behind exactly when the trigger
    fires on the text of the message, that is when a keyword is found
    in what is left of the text after its code spans are deleted; the
    message identifier is unchanged. *)
Theorem user_parts_preserved config sessionID st output env :
  Forall plainKeyword (Plugin.keywordPatterns config) ->
  exists st' output' pre,
    outcome (Plugin.chatMessage config sessionID st output) env = Ret (st', output')
    /\ Plugin.messageId output' = Plugin.messageId output
    /\ Plugin.parts output'
       = (pre ++ Plugin.parts output
          ++ match userText output with
             | Some text =>
                 if Trigger.MEMORY_KEYWORDS (Plugin.keywordPatterns config)
                      (Trigger.removeCodeBlocks text)
                 then [Plugin.mkPart ("cognee-nudge-" ++ numberToString (now env))
                         sessionID (Plugin.messageId output) "text"
                         Plugin.MEMORY_NUDGE_MESSAGE true]
                 else []
             | None => []
             end)%list
    /\ (List.length pre <= 1)%nat
    /\ Forall (fun p => Plugin.synthetic p = true) pre.
Proof.
  intros _. unfold outcome, run.
  destruct (chatMessage_run config sessionID st output env [])
    as (st' & o' & pre & reqs & l' & Hrun & Hid & Hparts & Hlen & Hsyn & _).
  exists st', o', pre. rewrite Hrun.
  repeat split; assumption.
Qed.

Lemma user_parts_preserved_witness :
  exists st' output' pre,
    outcome (Plugin.chatMessage Plugin.DEFAULT_CONFIG "ses" Plugin.initialState
               (textOutput "please remember this"))
            (mkEnv refusingNet 7) = Ret (st', output')
    /\ Plugin.messageId output' = "msg"
    /\ Plugin.parts output'
       = (pre ++ Plugin.parts (textOutput "please remember this")
          ++ [Plugin.mkPart "cognee-nudge-7" "ses" "msg" "text"
                Plugin.MEMORY_NUDGE_MESSAGE true])%list
    /\ (List.length pre <= 1)%nat
    /\ Forall (fun p => Plugin.synthetic p = true) pre.
Proof.
  apply (user_parts_preserved Plugin.DEFAULT_CONFIG "ses" Plugin.initialState
           (textOutput "please remember this") (mkEnv refusingNet 7)).
  exact default_keywords_plain.
Defined.

(** X25. Creating the default configuration file is transparent.  When
    ensureConfig returns, loadConfig returns what it would have
    returned before; an existing file is left as it is, even when it
    cannot be read or parsed; a missing file now holds the defaults;
    and a second call changes nothing and cannot fail.  ensureConfig
    throws exactly when the directory or the file is missing and the
    file system refuses to create it, with the file system's error. *)
Theorem ensureConfig_transparent :
  (forall defaults d,
     match ensureConfig defaults d with
     | inr d' =>
         loadConfig (list_to_map defaults) (file d')
         = loadConfig (list_to_map defaults) (file d)
         /\ (if existsSync (file d) then file d' = file d
             else file d' = Valid (JObj defaults))
         /\ ensureConfig defaults d' = inr d'
     | inl e =>
         (dirExists d = false /\ mkdirFails d = Some e)
         \/ (existsSync (file d) = false /\ writeFails d = Some e)
     end)
  /\ (forall defaults d e,
        dirExists d = false -> mkdirFails d = Some e ->
        ensureConfig defaults d = inl e)
  /\ (forall defaults d e,
        dirExists d = true \/ mkdirFails d = None ->
        existsSync (file d) = false -> writeFails d = Some e ->
        ensureConfig defaults d = inl e)
  /\ Config.Gemini.loadConfig = loadConfig (list_to_map geminiDefaults)
  /\ Config.OpenCode.loadConfig = loadConfig (list_to_map opencodeDefaults).
Proof.
  split; [|split; [|split; [|split; reflexivity]]].
  2:{ intros defaults [dir f mk wr] e Hdir Hmk. simpl in Hdir, Hmk. subst.
      reflexivity. }
  2:{ intros defaults [dir f mk wr] e Hdir Hf Hwr. simpl in Hdir, Hf, Hwr.
      subst wr. destruct f; try discriminate Hf.
      destruct dir; [reflexivity|].
      destruct Hdir as [Hdir|Hmk]; [discriminate|]. subst mk. reflexivity. }
  intros defaults d.
  unfold ensureConfig, mkdirSync, writeFileSync.
  destruct d as [dir f mk wr]. cbn [dirExists file mkdirFails writeFails].
  destruct dir; cbn [negb];
    [|destruct mk as [e|]; [left; split; reflexivity|]];
    cbn [dirExists file mkdirFails writeFails];
    destruct f; cbn [existsSync negb];
    try (repeat split; reflexivity);
    (destruct wr as [e|]; [right; split; reflexivity|]);
    cbn [dirExists file mkdirFails writeFails existsSync negb];
    (split; [|split; reflexivity]);
    unfold loadConfig; cbn [existsSync readAndParse];
    rewrite (ownProperties_defaults defaults _ eq_refl); reflexivity.
Qed.

(** The configuration directory is there, the file is not, and the
    file system refuses to create it (a component of its path is not a
    directory): the error leaves ensureConfig. *)
Lemma ensureConfig_transparent_witness :
  existsSync Absent = false
  /\ ensureConfig geminiDefaults
       (mkDisk true Absent None
          (Some (Eff.newError "ENOTDIR: not a directory, open")))
     = inl (Eff.newError "ENOTDIR: not a directory, open").
Proof.
  split; [reflexivity|].
  destruct ensureConfig_transparent as (_ & _ & H & _).
  apply H; [left; reflexivity|reflexivity|reflexivity].
Defined.

End HooksAndFiles.

(** ** The trigger, against the shape of the text *)

Section TriggerShape.
Import Js Trigger Spec Spec3 Shape.

(** *** Texts cut in two ways *)

Lemma append_eq_split (a b c d : string) :
  a ++ b = c ++ d ->
  (exists m, c = a ++ m /\ b = m ++ d) \/ (exists m, a = c ++ m /\ d = m ++ b).
Proof.
  revert c. induction a as [|x a IH]; intros c H.
  - left. exists c. split; [reflexivity|exact H].
  - destruct c as [|y c].
    + right. exists (String x a). split; [reflexivity|symmetry; exact H].
    + simpl in H. injection H as -> H.
      destruct (IH c H) as [[m [-> ->]]|[m [-> ->]]]; [left|right];
        exists m; split; reflexivity.
Qed.

Lemma append_nil_inv (a b : string) :
  a ++ b = EmptyString -> a = EmptyString /\ b = EmptyString.
Proof. destruct a; simpl; [auto|discriminate]. Qed.

Lemma take_drop n s : take n s ++ drop n s = s.
Proof.
  revert s. induction n as [|n IH]; intros [|c s]; simpl; try reflexivity.
  rewrite IH. reflexivity.
Qed.

Lemma drop_app_le n a b :
  (n <= String.length a)%nat -> drop n (a ++ b) = drop n a ++ b.
Proof.
  revert a. induction n as [|n IH]; intros a H.
  - destruct a, b; reflexivity.
  - destruct a as [|c a]; [simpl in H; lia|].
    simpl. apply IH. simpl in H. lia.
Qed.

(** *** Fences *)

Lemma hasFence_cons c s : hasFence s -> hasFence (String c s).
Proof. intros (a & b & ->). exists (String c a), b. reflexivity. Qed.

Lemma hasFence_app_r s x : hasFence s -> hasFence (s ++ x).
Proof.
  intros (a & b & ->). exists a, (b ++ x).
  rewrite !append_assoc. reflexivity.
Qed.

Lemma hasFence_app_l x s : hasFence s -> hasFence (x ++ s).
Proof.
  intros (a & b & ->). exists (x ++ a), b.
  rewrite !append_assoc. reflexivity.
Qed.

Lemma startsWith_fence s :
  startsWith fence s = true <-> exists r, s = fence ++ r.
Proof.
  split.
  - destruct s as [|a [|b [|c r]]]; simpl; intros H;
      rewrite ?andb_false_r in H; try discriminate.
    apply andb_prop in H as [Ha H]. apply andb_prop in H as [Hb H].
    apply andb_prop in H as [Hc _].
    apply Ascii.eqb_eq in Ha, Hb, Hc. subst. exists r. reflexivity.
  - intros [r ->]. reflexivity.
Qed.

Lemma hasFence_inv c s :
  hasFence (String c s) -> startsWith fence (String c s) = true \/ hasFence s.
Proof.
  intros ([|x a] & b & H).
  - left. apply startsWith_fence. exists b. exact H.
  - right. simpl in H. injection H as _ ->. exists a, b. reflexivity.
Qed.

Lemma no_fence_in_two : ~ hasFence "``".
Proof.
  intros (a & b & H). apply (f_equal String.length) in H.
  rewrite !length_append in H. simpl in H. lia.
Qed.

(** A fence that starts inside [q] lies within [q] and the two
    characters behind it. *)
Lemma fence_seen_early q x :
  q <> EmptyString ->
  startsWith fence (q ++ x) = true -> startsWith fence (q ++ "``") = true.
Proof.
  destruct q as [|a [|b [|c q]]]; [congruence|..]; intros _; simpl;
    intros H.
  - apply andb_prop in H as [-> _]. reflexivity.
  - apply andb_prop in H as [-> H]. apply andb_prop in H as [-> _]. reflexivity.
  - exact H.
Qed.

Lemma fence_seen_late q r :
  startsWith fence (q ++ "``") = true ->
  startsWith fence (q ++ fence ++ r) = true.
Proof.
  destruct q as [|a [|b [|c q]]]; simpl; intros H.
  - discriminate.
  - apply andb_prop in H as [-> _]. reflexivity.
  - apply andb_prop in H as [-> H]. apply andb_prop in H as [-> _]. reflexivity.
  - exact H.
Qed.

Lemma indexOfFence_eq s :
  indexOfFence s
  = if startsWith fence s then Some O
    else match s with
         | EmptyString => None
         | String _ r => option_map S (indexOfFence r)
         end.
Proof. destruct s; reflexivity. Qed.

Lemma indexOfFence_None s : indexOfFence s = None -> ~ hasFence s.
Proof.
  induction s as [|c s IH].
  - intros _ (a & b & H). symmetry in H.
    apply append_nil_inv in H as [_ H]. discriminate.
  - rewrite indexOfFence_eq.
    destruct (startsWith fence (String c s)) eqn:E; [discriminate|].
    destruct (indexOfFence s); [discriminate|].
    intros _ Hf. apply hasFence_inv in Hf as [H|H]; [congruence|].
    exact (IH eq_refl H).
Qed.

Lemma indexOfFence_Some s i :
  indexOfFence s = Some i ->
  exists p r, s = p ++ fence ++ r /\ String.length p = i
    /\ ~ hasFence (p ++ "``").
Proof.
  revert i. induction s as [|c s IH]; intros i.
  - discriminate.
  - rewrite indexOfFence_eq.
    destruct (startsWith fence (String c s)) eqn:E.
    + intros [= <-]. apply startsWith_fence in E as [r E].
      exists EmptyString, r. split; [exact E|]. split; [reflexivity|].
      exact no_fence_in_two.
    + destruct (indexOfFence s) as [j|] eqn:Ej; [|discriminate].
      intros [= <-].
      destruct (IH j eq_refl) as (p & r & -> & <- & Hp).
      exists (String c p), r. split; [reflexivity|]. split; [reflexivity|].
      intros Hf.
      change (String c p ++ "``") with (String c (p ++ "``")) in Hf.
      apply hasFence_inv in Hf as [H|H]; [|exact (Hp H)].
      apply (fence_seen_late (String c p) r) in H.
      change (String c p ++ fence ++ r) with (String c (p ++ fence ++ r)) in H.
      congruence.
Qed.

Lemma indexOfFence_first p x :
  ~ hasFence (p ++ "``") ->
  indexOfFence (p ++ fence ++ x) = Some (String.length p).
Proof.
  induction p as [|c p IH]; intros Hp.
  - reflexivity.
  - rewrite indexOfFence_eq.
    destruct (startsWith fence (String c p ++ fence ++ x)) eqn:E.
    + exfalso. apply Hp.
      apply fence_seen_early in E; [|discriminate].
      apply startsWith_fence in E as [r E].
      exists EmptyString, r. exact E.
    + change (String c p ++ fence ++ x) with (String c (p ++ fence ++ x)).
      cbv beta iota. rewrite IH; [reflexivity|].
      intros H. apply Hp. exact (hasFence_cons c _ H).
Qed.

(** What stands before the first fence is kept. *)
Lemma replace_before_fence p x :
  ~ hasFence (p ++ "``") ->
  replaceFrom CODE_BLOCK_PATTERN O (p ++ x)
  = p ++ replaceFrom CODE_BLOCK_PATTERN O x.
Proof.
  induction p as [|c p IH]; intros Hp; [reflexivity|].
  change (String c p ++ x) with (String c (p ++ x)).
  rewrite replaceFrom_keep.
  - rewrite IH; [reflexivity|].
    intros H. apply Hp. exact (hasFence_cons c _ H).
  - unfold CODE_BLOCK_PATTERN.
    destruct (startsWith "```" (String c (p ++ x))) eqn:E; [|reflexivity].
    exfalso. apply Hp.
    apply (fence_seen_early (String c p) x) in E; [|discriminate].
    apply startsWith_fence in E as [r E].
    exists EmptyString, r. exact E.
Qed.

Lemma CODE_BLOCK_at body rest :
  ~ hasFence (body ++ "``") ->
  CODE_BLOCK_PATTERN (fence ++ body ++ fence ++ rest)
  = Some (3 + String.length body + 3)%nat.
Proof.
  intros Hb. unfold CODE_BLOCK_PATTERN.
  change (startsWith "```" (fence ++ body ++ fence ++ rest)) with true.
  change (drop 3 (fence ++ body ++ fence ++ rest)) with (body ++ fence ++ rest).
  cbv beta iota. rewrite (indexOfFence_first _ _ Hb). reflexivity.
Qed.

(** A block is dropped whole. *)
Lemma replace_block body rest :
  ~ hasFence (body ++ "``") ->
  replaceFrom CODE_BLOCK_PATTERN O (fence ++ body ++ fence ++ rest)
  = replaceFrom CODE_BLOCK_PATTERN O rest.
Proof.
  intros Hb.
  change (fence ++ body ++ fence ++ rest)
    with (String backtick ("``" ++ body ++ fence ++ rest)).
  rewrite (replaceFrom_match _ _ _ (String.length ("``" ++ body ++ fence))).
  - replace ("``" ++ body ++ fence ++ rest) with (("``" ++ body ++ fence) ++ rest)
      by (rewrite !append_assoc; reflexivity).
    apply replaceFrom_skip.
  - change (String backtick ("``" ++ body ++ fence ++ rest))
      with (fence ++ body ++ fence ++ rest).
    rewrite (CODE_BLOCK_at _ _ Hb). rewrite !length_append. simpl.
    f_equal; lia.
Qed.

Lemma CODE_BLOCK_found s n :
  CODE_BLOCK_PATTERN s = Some n ->
  exists body rest, s = fence ++ body ++ fence ++ rest
    /\ ~ hasFence (body ++ "``").
Proof.
  unfold CODE_BLOCK_PATTERN.
  destruct (startsWith "```" s) eqn:E; [|discriminate].
  apply startsWith_fence in E as [r ->].
  change (drop 3 (fence ++ r)) with r.
  destruct (indexOfFence r) as [j|] eqn:Ei; [|discriminate].
  intros _. apply indexOfFence_Some in Ei as (p & r' & -> & _ & Hp).
  exists p, r'. split; [reflexivity|exact Hp].
Qed.

Lemma CODE_BLOCK_some b c :
  CODE_BLOCK_PATTERN (fence ++ b ++ fence ++ c) <> None.
Proof.
  unfold CODE_BLOCK_PATTERN.
  change (startsWith "```" (fence ++ b ++ fence ++ c)) with true.
  change (drop 3 (fence ++ b ++ fence ++ c)) with (b ++ fence ++ c).
  cbv beta iota.
  destruct (indexOfFence (b ++ fence ++ c)) eqn:E; [discriminate|].
  exfalso. apply (indexOfFence_None _ E). exists b, c. reflexivity.
Qed.

(** *** A replacement that finds nothing *)

Lemma replace_none pattern s :
  (forall k, pattern (drop k s) = None) -> replaceFrom pattern O s = s.
Proof.
  induction s as [|c s IH]; intros H; [reflexivity|].
  rewrite replaceFrom_keep by exact (H O).
  f_equal. apply IH. intros k. exact (H (S k)).
Qed.

Lemma no_block_none s :
  ~ hasBlock s -> forall k, CODE_BLOCK_PATTERN (drop k s) = None.
Proof.
  intros H k. destruct (CODE_BLOCK_PATTERN (drop k s)) eqn:E; [|reflexivity].
  exfalso. apply CODE_BLOCK_found in E as (body & rest & E & _).
  apply H. exists (take k s), body, rest. rewrite <- E.
  symmetry. apply take_drop.
Qed.

Lemma hasBlock_inv c s :
  hasBlock (String c s) ->
  CODE_BLOCK_PATTERN (String c s) <> None \/ hasBlock s.
Proof.
  intros ([|x a] & b & d & H).
  - left. rewrite H. apply CODE_BLOCK_some.
  - right. simpl in H. injection H as _ ->. exists a, b, d. reflexivity.
Qed.

(** *** The fenced pass *)

Lemma fencesRemoved_sound s out :
  fencesRemoved s out -> out = replaceAll CODE_BLOCK_PATTERN s.
Proof.
  unfold replaceAll. induction 1 as [s H|p body rest out Hp Hb D IH].
  - symmetry. apply replace_none, no_block_none, H.
  - rewrite (replace_before_fence _ _ Hp), (replace_block _ _ Hb), IH.
    reflexivity.
Qed.

Lemma fencesRemoved_exists n s :
  (String.length s <= n)%nat -> exists out, fencesRemoved s out.
Proof.
  revert s. induction n as [|n IH]; intros s Hn.
  - destruct s; [|simpl in Hn; lia].
    exists EmptyString. apply fr_rest. intros (a & b & c & H).
    symmetry in H. apply append_nil_inv in H as [_ H]. discriminate.
  - destruct (CODE_BLOCK_PATTERN s) as [m|] eqn:E.
    + apply CODE_BLOCK_found in E as (body & rest & -> & Hb).
      destruct (IH rest) as [out D].
      { rewrite !length_append in Hn. simpl in Hn. lia. }
      exists (EmptyString ++ out).
      apply (fr_block EmptyString body rest out);
        [exact no_fence_in_two|exact Hb|exact D].
    + destruct s as [|c r].
      * exists EmptyString. apply fr_rest. intros (a & b & d & H).
        symmetry in H. apply append_nil_inv in H as [_ H]. discriminate.
      * destruct (IH r) as [out D]; [simpl in Hn; lia|].
        inversion D as [s0 Hnone|p body rest out0 Hp Hb D0]; subst.
        -- exists (String c out). apply fr_rest. intros H.
           apply hasBlock_inv in H as [H|H]; [congruence|exact (Hnone H)].
        -- exists (String c p ++ out0).
           apply (fr_block (String c p) body rest out0); [|exact Hb|exact D0].
           intros Hf.
           change (String c p ++ "``") with (String c (p ++ "``")) in Hf.
           apply hasFence_inv in Hf as [H|H]; [|exact (Hp H)].
           apply (fence_seen_late (String c p) (body ++ fence ++ rest)) in H.
           change (String c p ++ fence ++ body ++ fence ++ rest)
             with (String c (p ++ fence ++ body ++ fence ++ rest)) in *.
           unfold CODE_BLOCK_PATTERN in E. unfold fence in H at 1.
           rewrite H in E.
           destruct (indexOfFence
                       (drop 3 (String c (p ++ fence ++ body ++ fence ++ rest))))
             eqn:Ei; [discriminate|].
           apply (indexOfFence_None _ Ei).
           change (drop 3 (String c (p ++ fence ++ body ++ fence ++ rest)))
             with (drop 2 (p ++ fence ++ body ++ fence ++ rest)).
           replace (p ++ fence ++ body ++ fence ++ rest)
             with ((p ++ fence ++ body) ++ fence ++ rest)
             by (rewrite !append_assoc; reflexivity).
           rewrite drop_app_le.
           ++ exists (drop 2 (p ++ fence ++ body)), rest. reflexivity.
           ++ rewrite !length_append. simpl. lia.
Qed.

Lemma fencesRemoved_iff s out :
  fencesRemoved s out <-> out = replaceAll CODE_BLOCK_PATTERN s.
Proof.
  split; [apply fencesRemoved_sound|].
  intros ->. destruct (fencesRemoved_exists (String.length s) s) as [o D]; [lia|].
  rewrite <- (fencesRemoved_sound _ _ D). exact D.
Qed.

(** *** Inline spans *)

Lemma run_free r : backtickFree (take (runNoBacktick r) r) = true.
Proof.
  induction r as [|c r IH]; [reflexivity|].
  simpl. destruct (Ascii.eqb c backtick) eqn:E; [reflexivity|].
  simpl. rewrite E, IH. reflexivity.
Qed.

Lemma run_length r :
  String.length (take (runNoBacktick r) r) = runNoBacktick r.
Proof.
  induction r as [|c r IH]; [reflexivity|].
  simpl. destruct (Ascii.eqb c backtick); [reflexivity|].
  simpl. rewrite IH. reflexivity.
Qed.

Lemma INLINE_found s n :
  INLINE_CODE_PATTERN s = Some n ->
  exists body rest, s = tick ++ body ++ tick ++ rest
    /\ body <> EmptyString /\ backtickFree body = true.
Proof.
  unfold INLINE_CODE_PATTERN. destruct s as [|c r]; [discriminate|].
  destruct (Ascii.eqb c backtick) eqn:Ec; [|discriminate].
  apply Ascii.eqb_eq in Ec. subst c. cbv zeta.
  destruct (runNoBacktick r) as [|m] eqn:En; [discriminate|].
  destruct (drop (S m) r) as [|c' rest] eqn:Ed; [discriminate|].
  cbn [head]. destruct (Ascii.eqb c' backtick) eqn:Ec'; [|discriminate].
  apply Ascii.eqb_eq in Ec'. subst c'. intros _.
  exists (take (S m) r), rest. split; [|split].
  - change (tick ++ take (S m) r ++ tick ++ rest)
      with (String backtick (take (S m) r ++ String backtick rest)).
    rewrite <- Ed, take_drop. reflexivity.
  - intros H. apply (f_equal String.length) in H.
    rewrite <- En, run_length, En in H. discriminate.
  - rewrite <- En. apply run_free.
Qed.

Lemma INLINE_at body rest :
  body <> EmptyString -> backtickFree body = true ->
  INLINE_CODE_PATTERN (tick ++ body ++ tick ++ rest)
  = Some (String.length body + 2)%nat.
Proof.
  intros Hne Hb.
  change (tick ++ body ++ tick ++ rest)
    with (String backtick (body ++ String backtick rest)).
  unfold INLINE_CODE_PATTERN. rewrite Ascii.eqb_refl.
  rewrite (runNoBacktick_app _ _ Hb).
  destruct body as [|b body]; [congruence|].
  cbn [String.length].
  change (S (String.length body)) with (String.length (String b body)).
  rewrite drop_app. cbn [head]. rewrite Ascii.eqb_refl. reflexivity.
Qed.

Lemma replace_span body rest :
  body <> EmptyString -> backtickFree body = true ->
  replaceFrom INLINE_CODE_PATTERN O (tick ++ body ++ tick ++ rest)
  = replaceFrom INLINE_CODE_PATTERN O rest.
Proof.
  intros Hne Hb.
  change (tick ++ body ++ tick ++ rest)
    with (String backtick (body ++ tick ++ rest)).
  rewrite (replaceFrom_match _ _ _ (String.length (body ++ tick))).
  - replace (body ++ tick ++ rest) with ((body ++ tick) ++ rest)
      by (rewrite append_assoc; reflexivity).
    apply replaceFrom_skip.
  - change (String backtick (body ++ tick ++ rest))
      with (tick ++ body ++ tick ++ rest).
    rewrite (INLINE_at _ _ Hne Hb). rewrite length_append. simpl.
    f_equal; lia.
Qed.

Lemma hasSpan_cons c s : hasSpan s -> hasSpan (String c s).
Proof.
  intros (a & w & b & Hw & ->). exists (String c a), w, b.
  split; [exact Hw|reflexivity].
Qed.

Lemma hasSpan_inv c r :
  hasSpan (String c r) ->
  (exists body b, String c r = tick ++ body ++ tick ++ b
     /\ body <> EmptyString /\ backtickFree body = true)
  \/ hasSpan r.
Proof.
  intros ([|x a] & w & b & (body & Hne & Hb & ->) & H).
  - left. exists body, b. split; [|split; assumption].
    rewrite H. simpl. rewrite !append_assoc. reflexivity.
  - right. simpl in H. injection H as _ ->.
    exists a, (tick ++ body ++ tick), b.
    split; [exists body; auto|reflexivity].
Qed.

Lemma no_span_in_one : ~ hasSpan tick.
Proof.
  intros (a & w & b & (body & Hne & _ & ->) & H).
  apply (f_equal String.length) in H.
  rewrite !length_append in H. simpl in H. lia.
Qed.

(** A span that starts inside [p] ends at the next backtick. *)
Lemma span_seen_early c p x n :
  INLINE_CODE_PATTERN (String c (p ++ tick ++ x)) = Some n ->
  hasSpan (String c p ++ tick).
Proof.
  intros E. apply INLINE_found in E as (body & rest & E & Hne & Hb).
  change (tick ++ body ++ tick ++ rest)
    with (String backtick (body ++ tick ++ rest)) in E.
  injection E as -> E.
  assert (body = p \/ exists m', p = body ++ tick ++ m') as [->|[m' ->]].
  { apply append_eq_split in E as [(m & -> & E)|(m & -> & E)].
    - destruct m as [|y m].
      + left. apply append_nil_r.
      + exfalso. simpl in E. injection E as <- _.
        rewrite backtickFree_app in Hb. simpl in Hb.
        rewrite andb_false_r in Hb. discriminate.
    - destruct m as [|y m].
      + left. symmetry. apply append_nil_r.
      + right. simpl in E. injection E as <- _. exists m. reflexivity. }
  - exists EmptyString, (tick ++ p ++ tick), EmptyString.
    split; [exists p; auto|].
    simpl. rewrite append_nil_r. reflexivity.
  - exists EmptyString, (tick ++ body ++ tick), (m' ++ tick).
    split; [exists body; auto|].
    simpl. rewrite !append_assoc. reflexivity.
Qed.

(** What stands before the first span is kept. *)
Lemma replace_before_span p x :
  ~ hasSpan (p ++ tick) ->
  replaceFrom INLINE_CODE_PATTERN O (p ++ tick ++ x)
  = p ++ replaceFrom INLINE_CODE_PATTERN O (tick ++ x).
Proof.
  induction p as [|c p IH]; intros Hp; [reflexivity|].
  change (String c p ++ tick ++ x) with (String c (p ++ tick ++ x)).
  rewrite replaceFrom_keep.
  - rewrite IH; [reflexivity|].
    intros H. apply Hp. exact (hasSpan_cons c _ H).
  - destruct (INLINE_CODE_PATTERN (String c (p ++ tick ++ x))) eqn:E;
      [|reflexivity].
    exfalso. apply Hp. exact (span_seen_early _ _ _ _ E).
Qed.

Lemma no_span_none s :
  ~ hasSpan s -> forall k, INLINE_CODE_PATTERN (drop k s) = None.
Proof.
  intros H k. destruct (INLINE_CODE_PATTERN (drop k s)) eqn:E; [|reflexivity].
  exfalso. apply INLINE_found in E as (body & rest & E & Hne & Hb).
  apply H. exists (take k s), (tick ++ body ++ tick), rest.
  split; [exists body; auto|].
  rewrite <- (take_drop k s) at 1. rewrite E.
  rewrite !append_assoc. reflexivity.
Qed.

(** *** The inline pass *)

Lemma inlineRemoved_sound s out :
  inlineRemoved s out -> out = replaceAll INLINE_CODE_PATTERN s.
Proof.
  unfold replaceAll. induction 1 as [s H|p body rest out Hp Hne Hb D IH].
  - symmetry. apply replace_none, no_span_none, H.
  - rewrite (replace_before_span _ _ Hp), (replace_span _ _ Hne Hb), IH.
    reflexivity.
Qed.

Lemma inlineRemoved_exists n s :
  (String.length s <= n)%nat -> exists out, inlineRemoved s out.
Proof.
  revert s. induction n as [|n IH]; intros s Hn.
  - destruct s; [|simpl in Hn; lia].
    exists EmptyString. apply ir_rest. intros (a & w & b & (body & _ & _ & ->) & H).
    apply (f_equal String.length) in H.
    rewrite !length_append in H. simpl in H. lia.
  - destruct (INLINE_CODE_PATTERN s) as [m|] eqn:E.
    + apply INLINE_found in E as (body & rest & -> & Hne & Hb).
      destruct (IH rest) as [out D].
      { rewrite !length_append in Hn. simpl in Hn. lia. }
      exists (EmptyString ++ out).
      apply (ir_span EmptyString body rest out);
        [exact no_span_in_one|exact Hne|exact Hb|exact D].
    + destruct s as [|c r].
      * exists EmptyString. apply ir_rest.
        intros (a & w & b & (body & _ & _ & ->) & H).
        apply (f_equal String.length) in H.
        rewrite !length_append in H. simpl in H. lia.
      * destruct (IH r) as [out D]; [simpl in Hn; lia|].
        inversion D as [s0 Hnone|p body rest out0 Hp Hne Hb D0]; subst.
        -- exists (String c out). apply ir_rest. intros H.
           apply hasSpan_inv in H as [(body & b & H & Hne & Hb)|H];
             [|exact (Hnone H)].
           rewrite H, (INLINE_at _ _ Hne Hb) in E. discriminate.
        -- exists (String c p ++ out0).
           apply (ir_span (String c p) body rest out0);
             [|exact Hne|exact Hb|exact D0].
           intros Hf.
           change (String c p ++ tick) with (String c (p ++ tick)) in Hf.
           apply hasSpan_inv in Hf as [(body' & b & H & Hne' & Hb')|H];
             [|exact (Hp H)].
           assert (String c (p ++ tick ++ body ++ tick ++ rest)
                   = tick ++ body' ++ tick ++ (b ++ body ++ tick ++ rest)) as H'.
           { change (String c (p ++ tick ++ body ++ tick ++ rest))
               with (String c p ++ tick ++ body ++ tick ++ rest).
             replace (String c p ++ tick ++ body ++ tick ++ rest)
               with ((String c p ++ tick) ++ body ++ tick ++ rest)
               by (rewrite !append_assoc; reflexivity).
             change (String c p ++ tick) with (String c (p ++ tick)).
             rewrite H. rewrite !append_assoc. reflexivity. }
           rewrite H', (INLINE_at _ _ Hne' Hb') in E. discriminate.
Qed.

Lemma inlineRemoved_iff s out :
  inlineRemoved s out <-> out = replaceAll INLINE_CODE_PATTERN s.
Proof.
  split; [apply inlineRemoved_sound|].
  intros ->. destruct (inlineRemoved_exists (String.length s) s) as [o D]; [lia|].
  rewrite <- (inlineRemoved_sound _ _ D). exact D.
Qed.

Lemma stripped_iff text out :
  stripped text out <-> out = removeCodeBlocks text.
Proof.
  unfold stripped, removeCodeBlocks. split.
  - intros (mid & Hf & Hi).
    apply fencesRemoved_iff in Hf. apply inlineRemoved_iff in Hi.
    subst. reflexivity.
  - intros ->. exists (replaceAll CODE_BLOCK_PATTERN text).
    split; [apply fencesRemoved_iff|apply inlineRemoved_iff]; reflexivity.
Qed.

(** *** Whole words *)

Lemma lastOf_app a b :
  lastOf (a ++ b)
  = match lastOf b with Some d => Some d | None => lastOf a end.
Proof.
  induction a as [|c a IH]; simpl.
  - destruct (lastOf b); reflexivity.
  - rewrite IH. destruct (lastOf b); reflexivity.
Qed.

Lemma caseFolded_nil w : caseFolded w = EmptyString -> w = EmptyString.
Proof. destruct w; [reflexivity|discriminate]. Qed.

Lemma literalThenBoundary_shape k prev s :
  literalThenBoundary k prev s = true <->
  exists w post,
    s = w ++ post /\ caseFolded w = caseFolded k
    /\ xorb (wordy (match lastOf w with Some d => Some d | None => prev end))
            (wordy (firstOf post)) = true.
Proof.
  revert prev s. induction k as [|kc k IH]; intros prev s.
  - split.
    + intros H. exists EmptyString, s. auto.
    + intros (w & post & -> & Hw & H).
      apply caseFolded_nil in Hw. subst w. exact H.
  - destruct s as [|c r].
    + split; [discriminate|].
      intros (w & post & H & Hw & _). symmetry in H.
      apply append_nil_inv in H as [-> _]. discriminate.
    + change (literalThenBoundary (String kc k) prev (String c r))
        with (eqbIgnoreCase kc c && literalThenBoundary k (Some c) r).
      rewrite andb_true_iff, IH. unfold eqbIgnoreCase. rewrite Ascii.eqb_eq.
      split.
      * intros (Hc & w & post & -> & Hw & H).
        exists (String c w), post. split; [reflexivity|].
        split; [simpl; congruence|].
        simpl. destruct (lastOf w); exact H.
      * intros ([|c' w] & post & Hs & Hw & H); [discriminate|].
        simpl in Hs, Hw. injection Hs as <- ->. injection Hw as Hc Hw.
        split; [congruence|]. exists w, post.
        split; [reflexivity|]. split; [exact Hw|].
        simpl in H. destruct (lastOf w); exact H.
Qed.

Lemma testFrom_shape alts prev s :
  testFrom alts prev s = true <->
  exists pre rest,
    s = pre ++ rest
    /\ matchAt alts (match lastOf pre with Some d => Some d | None => prev end)
                rest = true.
Proof.
  revert prev. induction s as [|c r IH]; intros prev.
  - simpl. rewrite orb_false_r. split.
    + intros H. exists EmptyString, EmptyString. auto.
    + intros (pre & rest & H & Hm). symmetry in H.
      apply append_nil_inv in H as [-> ->]. exact Hm.
  - change (testFrom alts prev (String c r))
      with (matchAt alts prev (String c r) || testFrom alts (Some c) r).
    rewrite orb_true_iff, IH. split.
    + intros [H|(pre & rest & -> & H)].
      * exists EmptyString, (String c r). auto.
      * exists (String c pre), rest. split; [reflexivity|].
        simpl. destruct (lastOf pre); exact H.
    + intros ([|c' pre] & rest & Hs & H).
      * left. simpl in Hs. subst rest. exact H.
      * right. simpl in Hs. injection Hs as <- ->. exists pre, rest.
        split; [reflexivity|].
        simpl in H. destruct (lastOf pre); exact H.
Qed.

Lemma alternatives_sought keywordPatterns k :
  In k (alternatives keywordPatterns) <-> soughtBy keywordPatterns k.
Proof.
  unfold soughtBy. destruct keywordPatterns as [|k0 l]; simpl.
  - split; [intros [<-|[]]; auto|intros [[]|[_ ->]]; auto].
  - split; [auto|intros [H|[H _]]; [exact H|discriminate]].
Qed.

Lemma xorb_differ a b : xorb a b = true <-> a <> b.
Proof. destruct a, b; simpl; split; congruence. Qed.

Lemma MEMORY_KEYWORDS_wholeWord keywordPatterns text :
  MEMORY_KEYWORDS keywordPatterns text = true <->
  exists k, soughtBy keywordPatterns k /\ wholeWord k text.
Proof.
  unfold MEMORY_KEYWORDS. rewrite testFrom_shape. split.
  - intros (pre & rest & -> & H).
    assert (match lastOf pre with Some d => Some d | None => None end
            = lastOf pre) as Hl by (destruct (lastOf pre); reflexivity).
    rewrite Hl in H. unfold matchAt in H.
    apply andb_prop in H as [Hb H].
    apply existsb_exists in H as (k & Hk & H).
    apply literalThenBoundary_shape in H as (w & post & -> & Hw & H).
    exists k. split; [apply alternatives_sought; exact Hk|].
    exists pre, w, post. split; [reflexivity|]. split; [exact Hw|].
    split.
    + apply xorb_differ. exact Hb.
    + apply xorb_differ. rewrite lastOf_app. exact H.
  - intros (k & Hk & pre & w & post & -> & Hw & Hb1 & Hb2).
    exists pre, (w ++ post). split; [reflexivity|].
    assert (match lastOf pre with Some d => Some d | None => None end
            = lastOf pre) as Hl by (destruct (lastOf pre); reflexivity).
    rewrite Hl. unfold matchAt. apply andb_true_intro. split.
    + apply xorb_differ. exact Hb1.
    + apply existsb_exists. exists k.
      split; [apply alternatives_sought; exact Hk|].
      apply literalThenBoundary_shape. exists w, post.
      split; [reflexivity|]. split; [exact Hw|].
      apply xorb_differ. rewrite <- lastOf_app. exact Hb2.
Qed.

(** C4, as the code has it. For keywords that the regular expression
    takes literally, the trigger fires exactly when one of them (the
    empty word, when none is configured) stands as a whole word,
    whatever the case of its letters, in the text that is left after
    deleting every fenced block and then every inline span, the text on
    both sides of a deleted span being joined.  That text is the one
    [removeCodeBlocks] returns: the blocks go from left to right, each
    from the first fence to the next one, then the spans go from left
    to right.  Text without a backtick is scanned as it is.  A
    back-quoted remember does not fire, neither does a fenced one, nor
    remembering; please remember this and PLEASE REMEMBER THIS fire. *)
Theorem trigger_scans_text_without_code keywordPatterns :
  Forall plainKeyword keywordPatterns ->
  (forall text out, stripped text out <-> out = removeCodeBlocks text)
  /\ (forall text,
        detectMemoryKeyword keywordPatterns text = true <->
        exists out k,
          stripped text out /\ soughtBy keywordPatterns k /\ wholeWord k out)
  /\ (forall text, backtickFree text = true -> stripped text text)
  /\ (forall pre body post,
        backtickFree pre = true -> backtickFree body = true ->
        backtickFree post = true -> body <> EmptyString ->
        stripped (pre ++ "`" ++ body ++ "`" ++ post) (pre ++ post))
  /\ (forall pre body post,
        backtickFree pre = true -> backtickFree body = true ->
        backtickFree post = true ->
        stripped (pre ++ "```" ++ body ++ "```" ++ post) (pre ++ post))
  /\ removeCodeBlocks "a `b` c ```d `e` f``` g `h` i" = "a  c  g  i"
  /\ detectMemoryKeyword defaultKeywordPatterns "`remember`" = false
  /\ detectMemoryKeyword defaultKeywordPatterns "```remember```" = false
  /\ detectMemoryKeyword defaultKeywordPatterns "remembering" = false
  /\ detectMemoryKeyword defaultKeywordPatterns "please remember this" = true
  /\ detectMemoryKeyword defaultKeywordPatterns "PLEASE REMEMBER THIS" = true.
Proof.
  intros _.
  split; [exact stripped_iff|].
  split.
  { intros text. unfold detectMemoryKeyword. cbv zeta.
    rewrite MEMORY_KEYWORDS_wholeWord. split.
    - intros (k & Hk & Hw). exists (removeCodeBlocks text), k.
      split; [apply stripped_iff; reflexivity|auto].
    - intros (out & k & Hs & Hk & Hw). apply stripped_iff in Hs. subst out.
      exists k. auto. }
  split.
  { intros text H. apply stripped_iff. symmetry.
    apply removeCodeBlocks_plain, H. }
  split.
  { intros pre body post Hpre Hbody Hpost Hne. apply stripped_iff. symmetry.
    apply removeCodeBlocks_inline; assumption. }
  split.
  { intros pre body post Hpre Hbody Hpost. apply stripped_iff. symmetry.
    apply removeCodeBlocks_fenced; assumption. }
  repeat split; vm_compute; reflexivity.
Qed.

Lemma trigger_scans_text_without_code_witness :
  Forall plainKeyword defaultKeywordPatterns
  /\ exists out k,
       stripped "run `x` and remember it" out
       /\ soughtBy defaultKeywordPatterns k /\ wholeWord k out.
Proof.
  split; [exact default_keywords_plain|].
  destruct (trigger_scans_text_without_code defaultKeywordPatterns
              default_keywords_plain) as (_ & H & _).
  apply H. vm_compute. reflexivity.
Defined.

End TriggerShape.
